(** * LearningApp: the shared entity store, sessions, bulk import and
      password issuance

    A shallow embedding of
    - [src/components/AuthContext.tsx]       (user store, login, sessions),
    - [src/components/AdminPortal.tsx]       (user/group handlers, bulk upload,
                                               chat, questions, statistics),
    - [src/components/UserPortal.tsx]        (groups, messages, MCQ answers),
    - [src/components/PasswordGenerator.tsx] (password generators),
    - [src/components/Login.tsx]             (the login form),
    - [src/App.tsx]                          (the routing by role).

    Modelling conventions.
    - JavaScript strings are [string]s of ASCII code units; [toLowerCase]
      and [trim] act on the ASCII range.
    - A [Date] is its time value (milliseconds since the epoch) in [Z];
      [new Date()] and [Date.now()] read the next value of the clock oracle.
    - [Math.random()] reads the next value of the random oracle, a rational
      number; its contract is [0 <= r < 1].
    - React state lives in the [World] record.  A handler runs against the
      state of the latest render, and a state setter takes effect at once.
    - [localStorage] holds text.  For every key the model keeps what
      [JSON.parse] makes of the text ([Text]): the text is empty, or is not
      JSON, or is the JSON text of a value of the type that the application
      writes under the key.  A JSON text of another shape is not modelled.
      [setItem] is taken to succeed.
    - The sheet reader gives a text, a number or a boolean for a cell, and
      leaves an empty cell out; numbers are whole numbers.
    - [console.*] calls append their level and first argument to a trace;
      [alert] appends its message to the list of alerts.
    - A callback given to [setTimeout] becomes a pending [Task]; the effects
      that React runs after a render ([saveUsersEffect], [loadCurrentUser])
      and the tasks ([runTask]) are computations of their own, run by no
      handler.  The pause that [processBulkUpload] awaits after a created
      row only yields to the page and is left out.
    - The numbers of the statistics are doubles ([PrimFloat]); lengths and
      counts are [nat]. *)

From Stdlib Require Import List String Ascii Bool Arith ZArith QArith Qround.
From Stdlib Require Import Lia Permutation DecimalString.
From Stdlib Require Floats.
Import ListNotations.

Local Open Scope string_scope.
Local Open Scope list_scope.

(* ================================================================== *)
(** * JavaScript built-ins used by the sources                         *)
(* ================================================================== *)

Module JS.

Definition Date := Z.

Definition is_upper (c : ascii) : bool :=
  let n := nat_of_ascii c in (65 <=? n)%nat && (n <=? 90)%nat.

Definition is_lower (c : ascii) : bool :=
  let n := nat_of_ascii c in (97 <=? n)%nat && (n <=? 122)%nat.

Definition is_digit (c : ascii) : bool :=
  let n := nat_of_ascii c in (48 <=? n)%nat && (n <=? 57)%nat.

(** White space of [String.prototype.trim] and of the regular expression
    class [\s], in the ASCII range: TAB, LF, VT, FF, CR and SPACE. *)
Definition is_space (c : ascii) : bool :=
  let n := nat_of_ascii c in ((9 <=? n)%nat && (n <=? 13)%nat) || (n =? 32)%nat.

Definition lower_ascii (c : ascii) : ascii :=
  if is_upper c then ascii_of_nat (nat_of_ascii c + 32) else c.

(** [s.toLowerCase()] *)
Fixpoint toLowerCase (s : string) : string :=
  match s with
  | EmptyString => EmptyString
  | String c r => String (lower_ascii c) (toLowerCase r)
  end.

Fixpoint trimStart (s : string) : string :=
  match s with
  | String c r => if is_space c then trimStart r else s
  | EmptyString => EmptyString
  end.

Fixpoint trimEnd (s : string) : string :=
  match s with
  | EmptyString => EmptyString
  | String c r =>
      match trimEnd r with
      | EmptyString => if is_space c then EmptyString else String c EmptyString
      | r' => String c r'
      end
  end.

(** [s.trim()] *)
Definition trim (s : string) : string := trimEnd (trimStart s).

(** [a === b] on strings *)
Definition seq (a b : string) : bool := String.eqb a b.

(** [a === b] where [a] may be [undefined] and [b] is a string *)
Definition oseq (a : option string) (b : string) : bool :=
  match a with
  | Some x => String.eqb x b
  | None => false
  end.

(** [arr.includes(x)] on an array of strings *)
Definition includes (arr : list string) (x : string) : bool :=
  existsb (String.eqb x) arr.

(** [n.toString()] for an integral number *)
Definition Z_toString (n : Z) : string := NilZero.string_of_int (Z.to_int n).

Definition nat_toString (n : nat) : string := Z_toString (Z.of_nat n).

(** [s[i]]: the character at index [i], [undefined] out of range *)
Definition charAt (s : string) (i : Z) : option ascii :=
  if (i <? 0)%Z then None else String.get (Z.to_nat i) s.

(** [acc += s[i]]: appending [undefined] appends its text *)
Definition append_char (acc : string) (c : option ascii) : string :=
  match c with
  | Some c => acc ++ String c EmptyString
  | None => acc ++ "undefined"
  end.

(** [arr[i]] on an array of strings, printed inside a template string *)
Definition item_text (arr : list string) (i : Z) : string :=
  if (i <? 0)%Z then "undefined" else nth (Z.to_nat i) arr "undefined".

(** [Math.floor(r * n)] *)
Definition floor_scaled (r : Q) (n : nat) : Z := Qfloor (r * inject_Z (Z.of_nat n)).

End JS.

Import JS.

(* ================================================================== *)
(** * Entities                                                         *)
(* ================================================================== *)

Module User.

Record t := mk {
  id : string;
  email : string;
  name : string;
  phone : string;
  employeeId : string;
  location : string;
  isAdmin : bool;
  groups : list string;
  password : option string;
  passwordGeneratedAt : option Date;
  createdBy : option string;
  createdAt : option Date
}.

(** [Partial<User>]: a field is [None] when the object does not carry the
    property.  An optional property that is carried may hold [undefined]. *)
Record partial := mkPartial {
  p_id : option string;
  p_email : option string;
  p_name : option string;
  p_phone : option string;
  p_employeeId : option string;
  p_location : option string;
  p_isAdmin : option bool;
  p_groups : option (list string);
  p_password : option (option string);
  p_passwordGeneratedAt : option (option Date);
  p_createdBy : option (option string);
  p_createdAt : option (option Date)
}.

Definition over {A} (old : A) (new : option A) : A :=
  match new with Some v => v | None => old end.

(** [{ ...u, ...updates }] *)
Definition assign (u : t) (updates : partial) : t :=
  {| id := over (id u) (p_id updates);
     email := over (email u) (p_email updates);
     name := over (name u) (p_name updates);
     phone := over (phone u) (p_phone updates);
     employeeId := over (employeeId u) (p_employeeId updates);
     location := over (location u) (p_location updates);
     isAdmin := over (isAdmin u) (p_isAdmin updates);
     groups := over (groups u) (p_groups updates);
     password := over (password u) (p_password updates);
     passwordGeneratedAt := over (passwordGeneratedAt u) (p_passwordGeneratedAt updates);
     createdBy := over (createdBy u) (p_createdBy updates);
     createdAt := over (createdAt u) (p_createdAt updates) |}.

Definition no_updates : partial :=
  mkPartial None None None None None None None None None None None None.

(** [{ groups: gs }] *)
Definition only_groups (gs : list string) : partial :=
  mkPartial None None None None None None None (Some gs) None None None None.

(** [{ email: e }] *)
Definition only_email (e : string) : partial :=
  mkPartial None (Some e) None None None None None None None None None None.

(** [{ password: p, passwordGeneratedAt: d }] *)
Definition only_password (p : string) (d : Date) : partial :=
  mkPartial None None None None None None None None (Some (Some p)) (Some (Some d))
            None None.

(** [{ createdAt: d }] *)
Definition only_createdAt (d : Date) : partial :=
  mkPartial None None None None None None None None None None None (Some (Some d)).

(** [{ password: undefined }], also the effect of [delete o.password] *)
Definition no_password : partial :=
  mkPartial None None None None None None None None (Some None) None None None.

End User.

Module Group.

Record t := mk {
  id : string;
  name : string;
  description : string;
  members : list string;
  createdBy : string
}.

Definition with_members (g : t) (ms : list string) : t :=
  {| id := id g; name := name g; description := description g;
     members := ms; createdBy := createdBy g |}.

End Group.

Module MCQQuestion.

Record t := mk {
  question : string;
  options : list string;
  correctAnswer : string
}.

End MCQQuestion.

Module MCQResponse.

Record t := mk {
  id : string;
  messageId : string;
  userId : string;
  userName : string;
  userEmail : string;
  groupId : string;
  selectedAnswer : string;
  timestamp : Date;
  isCorrect : bool
}.

End MCQResponse.

Module GeneratedPassword.

Record t := mk {
  userId : string;
  userName : string;
  email : string;
  password : string
}.

End GeneratedPassword.

(** The create-user form of the admin portal ([newUser] state). *)
Module NewUser.

Record t := mk {
  email : string;
  name : string;
  phone : string;
  employeeId : string;
  location : string;
  isAdmin : bool
}.

Definition blank : t := mk "" "" "" "" "" false.

End NewUser.

(** The create-group form of the admin portal ([newGroup] state). *)
Module NewGroup.

Record t := mk {
  name : string;
  description : string
}.

Definition blank : t := mk "" "".

End NewGroup.

(** A cell of the imported sheet, as the sheet reader gives it: a text, a
    number (a whole number: an id, a phone number) or a boolean. *)
Module Cell.

Inductive t :=
| Str (s : string)
| Num (n : Z)
| Boolean (b : bool).

(** [cell.toString()] *)
Definition toString (c : t) : string :=
  match c with
  | Str s => s
  | Num n => Z_toString n
  | Boolean true => "true"
  | Boolean false => "false"
  end.

(** [!!cell]: the empty text, [0] and [false] are falsy *)
Definition truthy (c : t) : bool :=
  match c with
  | Str s => negb (seq s "")
  | Num n => negb (n =? 0)%Z
  | Boolean b => b
  end.

End Cell.

(** A row of the imported sheet.  A cell may be absent ([undefined]: the
    sheet reader leaves empty cells out). *)
Module Row.

Record t := mk {
  Name : option Cell.t;
  Email : option Cell.t;
  Phone : option Cell.t;
  EmployeeID : option Cell.t;
  Location : option Cell.t;
  IsAdmin : option Cell.t
}.

End Row.

(** A cell that holds a text. *)
Definition text_cell (s : string) : option Cell.t := Some (Cell.Str s).

Module RowError.

Record t := mk {
  row : nat;
  error : string;
  data : option Row.t
}.

End RowError.

Module BulkUploadResult.

Record t := mk {
  success : list User.t;
  errors : list RowError.t;
  passwords : list GeneratedPassword.t
}.

End BulkUploadResult.

Inductive PasswordType := simple | secure.

(* ================================================================== *)
(** * The browser: storage, console, alerts, timers, oracles           *)
(* ================================================================== *)

(** What [JSON.parse] makes of a stored text: [Blank] is the empty text
    (falsy), [Garbled] a text that is not JSON, on which [JSON.parse]
    throws a syntax error, [Json v] a text that parses to [v]. *)
Inductive Text (A : Type) :=
| Blank
| Garbled
| Json (v : A).
Arguments Blank {A}.
Arguments Garbled {A}.
Arguments Json {A} v.

(** [localStorage]; [None] is [null], the key is not set. *)
Record Storage := mkStorage {
  systemUsers : option (Text (list User.t));
  currentUser : option (Text User.t);
  systemGroups : option (Text (list Group.t));
  systemMCQResponses : option (Text (list MCQResponse.t))
}.

Inductive Level := Log | Warn | Error.

(** A task scheduled with [setTimeout]. *)
Inductive Task :=
| SaveUsers (users : list User.t).

(** An oracle: the values it will give, and how many were taken. *)
Record Oracle (A : Type) := mkOracle {
  values : nat -> A;
  taken : nat
}.
Arguments mkOracle {A}.
Arguments values {A}.
Arguments taken {A}.

Record Browser := mkBrowser {
  localStorage : Storage;
  console : list (Level * string);
  alerts : list string;
  timers : list Task;
  clock : Oracle Date;
  random : Oracle Q;
  (** the time at which the module was loaded: [new Date()] of [initialUsers] *)
  loadedAt : Date
}.

(* ================================================================== *)
(** * React state                                                      *)
(* ================================================================== *)

(** [AuthProvider] *)
Record AuthState := mkAuth {
  user : option User.t;
  isLoading : bool;
  allUsers : list User.t
}.

(** [AdminPortal] *)
Record AdminState := mkAdmin {
  groups : list Group.t;
  newUser : NewUser.t;
  newGroup : NewGroup.t;
  passwordType : PasswordType;
  generatedPasswords : list GeneratedPassword.t;
  addUserDialogOpen : bool;
  (** the sheet of [uploadFile], as the reader returns it; [Some None] is a
      file that the reader rejects *)
  uploadFile : option (option (list Row.t));
  uploadProgress : Q;
  uploadResult : option BulkUploadResult.t;
  isUploading : bool
}.

(** [UserPortal] *)
Record PortalState := mkPortal {
  responses : list MCQResponse.t;
  selectedGroup : option string
}.

Record World := mkWorld {
  auth : AuthState;
  admin : AdminState;
  portal : PortalState;
  browser : Browser
}.

(* ================================================================== *)
(** * Computations: state and exceptions                               *)
(* ================================================================== *)

(** How a JavaScript computation completes. *)
Inductive Completion (A : Type) :=
| Normal (a : A)
| Thrown (e : string).
Arguments Normal {A} a.
Arguments Thrown {A} e.

Definition M (A : Type) : Type := World -> Completion A * World.

Definition ret {A} (a : A) : M A := fun w => (Normal a, w).

Definition bind {A B} (m : M A) (k : A -> M B) : M B :=
  fun w =>
    match m w with
    | (Normal a, w') => k a w'
    | (Thrown e, w') => (Thrown e, w')
    end.

Definition throw {A} (e : string) : M A := fun w => (Thrown e, w).

(** [try { m } catch (e) { h e }] *)
Definition try_catch {A} (m : M A) (h : string -> M A) : M A :=
  fun w =>
    match m w with
    | (Normal a, w') => (Normal a, w')
    | (Thrown e, w') => h e w'
    end.

(** [try { m } finally { f }] *)
Definition try_finally {A} (m : M A) (f : M unit) : M A :=
  fun w =>
    match m w with
    | (r, w') =>
        match f w' with
        | (Normal _, w'') => (r, w'')
        | (Thrown e, w'') => (Thrown e, w'')
        end
    end.

Definition gets {A} (f : World -> A) : M A := fun w => (Normal (f w), w).

Definition modify (f : World -> World) : M unit := fun w => (Normal tt, f w).

Declare Scope js_scope.
Delimit Scope js_scope with js.
Notation "x <- c1 ;; c2" := (bind c1 (fun x => c2))
  (at level 61, c1 at next level, right associativity) : js_scope.
Notation "c1 ;; c2" := (bind c1 (fun _ => c2))
  (at level 61, right associativity) : js_scope.
Local Open Scope js_scope.

(** The world after a computation, and its value. *)
Definition exec {A} (m : M A) (w : World) : World := snd (m w).
Definition eval {A} (m : M A) (w : World) : Completion A := fst (m w).

Fixpoint mapM {A B} (f : A -> M B) (l : list A) : M (list B) :=
  match l with
  | [] => ret []
  | x :: r => y <- f x ;; ys <- mapM f r ;; ret (y :: ys)
  end.

(** ** Field updates *)

Definition on_auth (f : AuthState -> AuthState) (w : World) : World :=
  mkWorld (f (auth w)) (admin w) (portal w) (browser w).

Definition on_admin (f : AdminState -> AdminState) (w : World) : World :=
  mkWorld (auth w) (f (admin w)) (portal w) (browser w).

Definition on_portal (f : PortalState -> PortalState) (w : World) : World :=
  mkWorld (auth w) (admin w) (f (portal w)) (browser w).

Definition on_browser (f : Browser -> Browser) (w : World) : World :=
  mkWorld (auth w) (admin w) (portal w) (f (browser w)).

Definition on_storage (f : Storage -> Storage) : World -> World :=
  on_browser (fun b =>
    mkBrowser (f (localStorage b)) (console b) (alerts b) (timers b)
              (clock b) (random b) (loadedAt b)).

(** *** React state setters *)

Definition setUser (u : option User.t) : M unit :=
  modify (on_auth (fun a => mkAuth u (isLoading a) (allUsers a))).

Definition setIsLoading (b : bool) : M unit :=
  modify (on_auth (fun a => mkAuth (user a) b (allUsers a))).

Definition putAllUsers (us : list User.t) : M unit :=
  modify (on_auth (fun a => mkAuth (user a) (isLoading a) us)).

(** [setAllUsers(prevUsers => ...)]: the updater receives the latest state. *)
Definition setAllUsers (updater : list User.t -> M (list User.t)) : M unit :=
  prevUsers <- gets (fun w => allUsers (auth w)) ;;
  us <- updater prevUsers ;;
  putAllUsers us.

Definition setGroups (gs : list Group.t) : M unit :=
  modify (on_admin (fun s =>
    mkAdmin gs (newUser s) (newGroup s) (passwordType s) (generatedPasswords s)
            (addUserDialogOpen s) (uploadFile s) (uploadProgress s)
            (uploadResult s) (isUploading s))).

Definition setNewUser (f : NewUser.t) : M unit :=
  modify (on_admin (fun s =>
    mkAdmin (groups s) f (newGroup s) (passwordType s) (generatedPasswords s)
            (addUserDialogOpen s) (uploadFile s) (uploadProgress s)
            (uploadResult s) (isUploading s))).

Definition setNewGroup (f : NewGroup.t) : M unit :=
  modify (on_admin (fun s =>
    mkAdmin (groups s) (newUser s) f (passwordType s) (generatedPasswords s)
            (addUserDialogOpen s) (uploadFile s) (uploadProgress s)
            (uploadResult s) (isUploading s))).

Definition setGeneratedPasswords (ps : list GeneratedPassword.t) : M unit :=
  modify (on_admin (fun s =>
    mkAdmin (groups s) (newUser s) (newGroup s) (passwordType s) ps
            (addUserDialogOpen s) (uploadFile s) (uploadProgress s)
            (uploadResult s) (isUploading s))).

Definition setAddUserDialogOpen (b : bool) : M unit :=
  modify (on_admin (fun s =>
    mkAdmin (groups s) (newUser s) (newGroup s) (passwordType s) (generatedPasswords s)
            b (uploadFile s) (uploadProgress s) (uploadResult s) (isUploading s))).

Definition setUploadProgress (p : Q) : M unit :=
  modify (on_admin (fun s =>
    mkAdmin (groups s) (newUser s) (newGroup s) (passwordType s) (generatedPasswords s)
            (addUserDialogOpen s) (uploadFile s) p (uploadResult s) (isUploading s))).

Definition setUploadResult (r : option BulkUploadResult.t) : M unit :=
  modify (on_admin (fun s =>
    mkAdmin (groups s) (newUser s) (newGroup s) (passwordType s) (generatedPasswords s)
            (addUserDialogOpen s) (uploadFile s) (uploadProgress s) r (isUploading s))).

Definition setIsUploading (b : bool) : M unit :=
  modify (on_admin (fun s =>
    mkAdmin (groups s) (newUser s) (newGroup s) (passwordType s) (generatedPasswords s)
            (addUserDialogOpen s) (uploadFile s) (uploadProgress s) (uploadResult s) b)).

Definition setPasswordType (t : PasswordType) : M unit :=
  modify (on_admin (fun s =>
    mkAdmin (groups s) (newUser s) (newGroup s) t (generatedPasswords s)
            (addUserDialogOpen s) (uploadFile s) (uploadProgress s)
            (uploadResult s) (isUploading s))).

Definition setUploadFile (f : option (option (list Row.t))) : M unit :=
  modify (on_admin (fun s =>
    mkAdmin (groups s) (newUser s) (newGroup s) (passwordType s) (generatedPasswords s)
            (addUserDialogOpen s) f (uploadProgress s) (uploadResult s) (isUploading s))).

Definition setResponses (rs : list MCQResponse.t) : M unit :=
  modify (on_portal (fun p => mkPortal rs (selectedGroup p))).

(** *** Browser *)

Definition console_emit (l : Level) (msg : string) : M unit :=
  modify (on_browser (fun b =>
    mkBrowser (localStorage b) (console b ++ [(l, msg)]) (alerts b) (timers b)
              (clock b) (random b) (loadedAt b))).

Definition console_log := console_emit Log.
Definition console_warn := console_emit Warn.
Definition console_error := console_emit Error.

Definition alert (msg : string) : M unit :=
  modify (on_browser (fun b =>
    mkBrowser (localStorage b) (console b) (alerts b ++ [msg]) (timers b)
              (clock b) (random b) (loadedAt b))).

Definition setTimeout (t : Task) : M unit :=
  modify (on_browser (fun b =>
    mkBrowser (localStorage b) (console b) (alerts b) (timers b ++ [t])
              (clock b) (random b) (loadedAt b))).

(** [new Date()], [Date.now()] *)
Definition Date_now : M Date :=
  fun w =>
    let c := clock (browser w) in
    (Normal (values c (taken c)),
     on_browser (fun b =>
       mkBrowser (localStorage b) (console b) (alerts b) (timers b)
                 (mkOracle (values c) (S (taken c))) (random b) (loadedAt b)) w).

(** Computations that only consume the random source. *)
Definition Rand (A : Type) : Type := Oracle Q -> A * Oracle Q.

Definition rret {A} (a : A) : Rand A := fun o => (a, o).

Definition rbind {A B} (m : Rand A) (k : A -> Rand B) : Rand B :=
  fun o => let (a, o') := m o in k a o'.

Declare Scope rand_scope.
Delimit Scope rand_scope with rand.
Notation "x <- c1 ;; c2" := (rbind c1 (fun x => c2))
  (at level 61, c1 at next level, right associativity) : rand_scope.

(** [Math.random()] *)
Definition Math_random : Rand Q :=
  fun o => (values o (taken o), mkOracle (values o) (S (taken o))).

(** Running a random computation in the world. *)
Definition liftRand {A} (m : Rand A) : M A :=
  fun w =>
    let (a, o') := m (random (browser w)) in
    (Normal a,
     on_browser (fun b =>
       mkBrowser (localStorage b) (console b) (alerts b) (timers b)
                 (clock b) o' (loadedAt b)) w).

(** [localStorage.getItem], [setItem] after [JSON.stringify], [removeItem] *)
Definition getItem {A} (key : Storage -> option (Text A)) : M (option (Text A)) :=
  gets (fun w => key (localStorage (browser w))).

Definition set_systemUsers (v : option (Text (list User.t))) : M unit :=
  modify (on_storage (fun s =>
    mkStorage v (currentUser s) (systemGroups s) (systemMCQResponses s))).

Definition set_currentUser (v : option (Text User.t)) : M unit :=
  modify (on_storage (fun s =>
    mkStorage (systemUsers s) v (systemGroups s) (systemMCQResponses s))).

Definition set_systemGroups (v : option (Text (list Group.t))) : M unit :=
  modify (on_storage (fun s =>
    mkStorage (systemUsers s) (currentUser s) v (systemMCQResponses s))).

Definition set_systemMCQResponses (v : option (Text (list MCQResponse.t))) : M unit :=
  modify (on_storage (fun s =>
    mkStorage (systemUsers s) (currentUser s) (systemGroups s) v)).

(** [JSON.parse(text)] *)
Definition JSON_parse {A} (t : Text A) : M A :=
  match t with
  | Json v => ret v
  | Garbled => throw "SyntaxError"
  | Blank => throw "SyntaxError"
  end.

(** [if (text)]: [null] and the empty text are falsy *)
Definition truthy {A} (t : option (Text A)) : option (Text A) :=
  match t with
  | Some Blank => None
  | t => t
  end.

(* ================================================================== *)
(** * AuthContext.tsx                                                  *)
(* ================================================================== *)

(** [initialUsers], with the time at which the module was evaluated. *)
Definition initialUsers (t0 : Date) : list User.t :=
  [ {| User.id := "1";
       User.email := "admin@company.com";
       User.name := "System Admin";
       User.phone := "+1234567890";
       User.employeeId := "ADMIN001";
       User.location := "Head Office";
       User.isAdmin := true;
       User.groups := [];
       User.password := Some "admin123";
       User.passwordGeneratedAt := Some t0;
       User.createdBy := Some "system";
       User.createdAt := Some t0 |} ].

Definition the_initialUsers : M (list User.t) :=
  gets (fun w => initialUsers (loadedAt (browser w))).

Definition loadUsersFromStorage : M (list User.t) :=
  try_catch
    (savedUsers <- getItem systemUsers ;;
     console_log "Raw localStorage data:" ;;
     match truthy savedUsers with
     | Some text =>
         parsed <- JSON_parse text ;;
         console_log "Parsed users from storage:" ;;
         (* the dates are parsed back from their ISO texts *)
         let processedUsers := parsed in
         console_log "Processed users:" ;;
         ret processedUsers
     | None =>
         console_log "No users in storage, returning initial users" ;;
         the_initialUsers
     end)
    (fun error =>
       console_error "Error loading users from storage:" ;;
       the_initialUsers).

Definition saveUsersToStorage (users : list User.t) : M unit :=
  try_catch
    (set_systemUsers (Some (Json users)))
    (fun error => console_error "Error saving users to storage:").

(** The effect that saves the users, run after a render in which [allUsers]
    has changed. *)
Definition saveUsersEffect : M unit :=
  us <- gets (fun w => allUsers (auth w)) ;;
  saveUsersToStorage us ;;
  console_log "Users updated in storage:".

(** The effect that restores the session, run after a render in which
    [allUsers] has changed. *)
Definition loadCurrentUser : M unit :=
  try_catch
    (savedUser <- getItem currentUser ;;
     match truthy savedUser with
     | Some text =>
         parsedUser <- JSON_parse text ;;
         us <- gets (fun w => allUsers (auth w)) ;;
         match find (fun u => seq (User.id u) (User.id parsedUser)) us with
         | Some cu => setUser (Some (User.assign cu User.no_password))
         | None => set_currentUser None
         end
     | None => ret tt
     end)
    (fun error =>
       console_error "Error loading current user:" ;;
       set_currentUser None) ;;
  setIsLoading false.

(** A task scheduled with [setTimeout] comes due. *)
Definition runTask (t : Task) : M unit :=
  match t with
  | SaveUsers users =>
      saveUsersToStorage users ;;
      console_log "User saved to localStorage immediately"
  end.

Definition refreshUserData : M unit :=
  freshUsers <- loadUsersFromStorage ;;
  putAllUsers freshUsers.

Definition login (email password : string) : M bool :=
  setIsLoading true ;;
  try_catch
    (currentUsers <- loadUsersFromStorage ;;
     console_log "=== LOGIN DEBUG ===" ;;
     console_log "Login attempt for:" ;;
     console_log "Password provided:" ;;
     console_log "Total users in storage:" ;;
     console_log "All users:" ;;
     let foundUser :=
       find (fun u => seq (toLowerCase (User.email u)) (toLowerCase email)) currentUsers in
     console_log "Found user for email" ;;
     match foundUser with
     | Some fu =>
         if oseq (User.password fu) password then
           let userForStorage := User.assign fu User.no_password in
           setUser (Some userForStorage) ;;
           set_currentUser (Some (Json userForStorage)) ;;
           console_log "✅ Login successful for:" ;;
           setIsLoading false ;;
           ret true
         else
           console_log "❌ Password mismatch for:" ;;
           console_log "Expected:" ;;
           console_log "Provided:" ;;
           console_log "Match:" ;;
           setIsLoading false ;;
           ret false
     | None =>
         console_log "❌ No user found with email:" ;;
         setIsLoading false ;;
         ret false
     end)
    (fun error =>
       console_error "Login error:" ;;
       setIsLoading false ;;
       ret false).

Definition logout : M unit :=
  setUser None ;;
  set_currentUser None.

Definition updateUserPassword (userId newPassword : string) : M unit :=
  setAllUsers (fun prevUsers =>
    updatedUsers <-
      mapM (fun u =>
              if seq (User.id u) userId then
                now <- Date_now ;;
                ret (User.assign u (User.only_password newPassword now))
              else ret u)
           prevUsers ;;
    console_log "Password updated for user:" ;;
    ret updatedUsers).

Definition getAllUsers : M (list User.t) :=
  gets (fun w => allUsers (auth w)).

(** The test of [some] in [addUser] and [addUsers]: [u] has the email of
    [newUser], compared in lower case, or its employee id. *)
Definition sameIdentity (newUser u : User.t) : bool :=
  seq (toLowerCase (User.email u)) (toLowerCase (User.email newUser))
  || seq (User.employeeId u) (User.employeeId newUser).

Definition addUser (newUser : User.t) : M unit :=
  setAllUsers (fun prevUsers =>
    let exists_ := existsb (sameIdentity newUser) prevUsers in
    if exists_ then
      console_warn "User with this email or employee ID already exists" ;;
      ret prevUsers
    else
      now <- Date_now ;;
      let userWithDate := User.assign newUser (User.only_createdAt now) in
      console_log "=== USER CREATION DEBUG ===" ;;
      console_log "Adding new user:" ;;
      let updatedUsers := prevUsers ++ [userWithDate] in
      console_log "Total users after addition:" ;;
      setTimeout (SaveUsers updatedUsers) ;;
      ret updatedUsers).

Definition addUsers (newUsers : list User.t) : M unit :=
  setAllUsers (fun prevUsers =>
    let validUsers :=
      filter (fun newUser => negb (existsb (sameIdentity newUser) prevUsers)) newUsers in
    usersWithDates <-
      mapM (fun u => now <- Date_now ;; ret (User.assign u (User.only_createdAt now)))
           validUsers ;;
    console_log "Adding bulk users:" ;;
    ret (prevUsers ++ usersWithDates)).

Definition updateUser (userId : string) (updates : User.partial) : M unit :=
  setAllUsers (fun prevUsers =>
    ret (map (fun u => if seq (User.id u) userId then User.assign u updates else u)
             prevUsers)).

Definition deleteUser (userId : string) : M unit :=
  (* the session of the render in which the callback was made *)
  session <- gets (fun w => user (auth w)) ;;
  setAllUsers (fun prevUsers =>
    ret (filter (fun u => negb (seq (User.id u) userId)) prevUsers)) ;;
  match session with
  | Some u => if seq (User.id u) userId then logout else ret tt
  | None => ret tt
  end.

(** [getUserByEmail] of a render whose user list was [allUsers_].  The call
    site in [validateUserData] passes a cell that may be [undefined], a
    number or a boolean ([None]); then [email.toLowerCase()] throws as soon
    as [find] tests a user. *)
Definition getUserByEmail (allUsers_ : list User.t) (email : option string)
  : M (option User.t) :=
  match email with
  | Some e =>
      ret (find (fun u => seq (toLowerCase (User.email u)) (toLowerCase e)) allUsers_)
  | None =>
      match allUsers_ with
      | [] => ret None
      | _ :: _ => throw "TypeError"
      end
  end.

Definition getUserByEmployeeId (allUsers_ : list User.t) (employeeId : option string)
  : M (option User.t) :=
  match employeeId with
  | Some e => ret (find (fun u => seq (User.employeeId u) e) allUsers_)
  | None => ret None
  end.

Definition clearAllData : M unit :=
  set_systemUsers None ;;
  set_currentUser None ;;
  set_systemGroups None ;;
  us <- the_initialUsers ;;
  putAllUsers us ;;
  setUser None ;;
  console_log "All data cleared, reset to initial state".

(* ================================================================== *)
(** * PasswordGenerator.tsx                                            *)
(* ================================================================== *)

(** [Array.prototype.sort] with a comparison function.  The comparison of
    [generateSecurePassword] answers at random, so the order of the result
    is left to the engine; what is relied on is that sorting rearranges the
    elements of the array. *)
Class ArraySort := {
  Array_sort : forall {A : Type}, (A -> A -> Rand Q) -> list A -> Rand (list A);
  Array_sort_perm :
    forall (A : Type) (comparefn : A -> A -> Rand Q) (l : list A) (o : Oracle Q),
      Permutation l (fst (Array_sort comparefn l o))
}.

(** A sort that meets the interface: insertion from the right, asking
    [comparefn] where to stop. *)
Fixpoint insert_by {A} (comparefn : A -> A -> Rand Q) (x : A) (l : list A)
  : Rand (list A) :=
  match l with
  | [] => rret [x]
  | y :: r =>
      (c <- comparefn x y ;;
       if Qle_bool c 0 then rret (x :: y :: r)
       else (r' <- insert_by comparefn x r ;; rret (y :: r')))%rand
  end.

Fixpoint insertion_sort_by {A} (comparefn : A -> A -> Rand Q) (l : list A)
  : Rand (list A) :=
  match l with
  | [] => rret []
  | x :: r =>
      (r' <- insertion_sort_by comparefn r ;; insert_by comparefn x r')%rand
  end.

Definition lowercase : string := "abcdefghijklmnopqrstuvwxyz".
Definition uppercase : string := "ABCDEFGHIJKLMNOPQRSTUVWXYZ".
Definition numbers : string := "0123456789".
Definition symbols : string := "!@#$%^&*()_+-=[]{}|;:,.<>?".
Definition allChars : string := lowercase ++ uppercase ++ numbers ++ symbols.

(** [chars[Math.floor(Math.random() * chars.length)]] *)
Definition pick (chars : string) : Rand (option ascii) :=
  (r <- Math_random ;;
   rret (charAt chars (floor_scaled r (String.length chars))))%rand.

(** [for (let i = 4; i < length; i++) password += allChars[...]], with
    [n] rounds left *)
Fixpoint fill (n : nat) (password : string) : Rand string :=
  match n with
  | O => rret password
  | S n' =>
      (c <- pick allChars ;; fill n' (append_char password c))%rand
  end.

Section PasswordGenerator.

Context {engine : ArraySort}.

Definition generateSecurePassword (length : nat) : Rand string :=
  (let password := "" in
   c <- pick lowercase ;;
   let password := append_char password c in
   c <- pick uppercase ;;
   let password := append_char password c in
   c <- pick numbers ;;
   let password := append_char password c in
   c <- pick symbols ;;
   let password := append_char password c in
   password <- fill (length - 4) password ;;
   shuffled <-
     Array_sort (fun _ _ => r <- Math_random ;; rret (r - (1 # 2)))
                (list_ascii_of_string password) ;;
   rret (string_of_list_ascii shuffled))%rand.

Definition generateSimplePassword : Rand string :=
  (let adjectives :=
     ["Happy"; "Smart"; "Bright"; "Quick"; "Swift"; "Bold"; "Calm"; "Cool"] in
   let nouns := ["Tiger"; "Eagle"; "Lion"; "Bear"; "Wolf"; "Fox"; "Hawk"; "Star"] in
   r <- Math_random ;;
   let numbers := (floor_scaled r 999 + 100)%Z in
   r <- Math_random ;;
   let adjective := item_text adjectives (floor_scaled r (List.length adjectives)) in
   r <- Math_random ;;
   let noun := item_text nouns (floor_scaled r (List.length nouns)) in
   rret (adjective ++ noun ++ Z_toString numbers)%string)%rand.

End PasswordGenerator.

(* ================================================================== *)
(** * UserPortal.tsx                                                   *)
(* ================================================================== *)

Definition saveResponsesToStorage (newResponses : list MCQResponse.t) : M unit :=
  try_catch
    (set_systemMCQResponses (Some (Json newResponses)) ;;
     console_log "MCQ responses saved to storage")
    (fun error => console_error "Error saving responses to storage:").

Definition loadResponsesFromStorage : M unit :=
  try_catch
    (savedResponses <- getItem systemMCQResponses ;;
     match truthy savedResponses with
     | Some text =>
         parsedResponses <- JSON_parse text ;;
         console_log "Loaded responses from storage:" ;;
         setResponses parsedResponses
     | None => ret tt
     end)
    (fun error => console_error "Error loading responses from storage:").

(** [a || d] on a text that may be [undefined] *)
Definition or_else (a : option string) (d : string) : string :=
  match a with
  | Some "" => d
  | Some s => s
  | None => d
  end.

(** The test of [find] and [some] on responses: the response is the answer
    of [userId] to [messageId]. *)
Definition answers (messageId : string) (userId : option string) (r : MCQResponse.t)
  : bool :=
  seq (MCQResponse.messageId r) messageId
  && match userId with
     | Some i => seq (MCQResponse.userId r) i
     | None => false
     end.

Definition handleMCQAnswer (messageId selectedOption : string) (mcqData : MCQQuestion.t)
  : M unit :=
  session <- gets (fun w => user (auth w)) ;;
  match session with
  | None => ret tt
  | Some user =>
      responses <- gets (fun w => responses (portal w)) ;;
      let existingResponse :=
        find (answers messageId (Some (User.id user))) responses in
      match existingResponse with
      | Some _ => console_log "User has already answered this question"
      | None =>
          let isCorrect := seq selectedOption (MCQQuestion.correctAnswer mcqData) in
          now <- Date_now ;;
          selectedGroup <- gets (fun w => selectedGroup (portal w)) ;;
          stamp <- Date_now ;;
          let response :=
            {| MCQResponse.id := Z_toString now;
               MCQResponse.messageId := messageId;
               MCQResponse.userId := User.id user;
               MCQResponse.userName := User.name user;
               MCQResponse.userEmail := User.email user;
               MCQResponse.groupId := or_else selectedGroup "";
               MCQResponse.selectedAnswer := selectedOption;
               MCQResponse.timestamp := stamp;
               MCQResponse.isCorrect := isCorrect |} in
          let updatedResponses := responses ++ [response] in
          setResponses updatedResponses ;;
          saveResponsesToStorage updatedResponses ;;
          console_log "MCQ answer submitted:"
      end
  end.

Definition hasUserAnswered (messageId : string) : M bool :=
  session <- gets (fun w => user (auth w)) ;;
  responses <- gets (fun w => responses (portal w)) ;;
  ret (existsb (answers messageId (option_map User.id session)) responses).

Definition getUserResponse (messageId : string) : M (option MCQResponse.t) :=
  session <- gets (fun w => user (auth w)) ;;
  responses <- gets (fun w => responses (portal w)) ;;
  ret (find (answers messageId (option_map User.id session)) responses).

(** [userGroups] of a render with session [user] and groups [groups_]: the
    groups of which the user is a member or the creator. *)
Definition userGroups (user : option User.t) (groups_ : list Group.t) : list Group.t :=
  filter (fun group =>
            includes (Group.members group) (or_else (option_map User.id user) "")
            || match user with
               | Some u => seq (Group.createdBy group) (User.id u)
               | None => false
               end)
         groups_.

(** [loadGroupsFromStorage] of a render whose groups were [groups_]: the
    groups of the next render. *)
Definition loadGroupsFromStorage (groups_ : list Group.t) : M (list Group.t) :=
  try_catch
    (savedGroups <- getItem systemGroups ;;
     match truthy savedGroups with
     | Some text =>
         parsedGroups <- JSON_parse text ;;
         console_log "Loaded groups from storage:" ;;
         ret parsedGroups
     | None => ret groups_
     end)
    (fun error => console_error "Error loading groups from storage:" ;; ret groups_).

(* ================================================================== *)
(** * AdminPortal.tsx                                                  *)
(* ================================================================== *)

(** [a || b] on two lookups *)
Definition either (a b : option User.t) : option User.t :=
  match a with
  | Some _ => a
  | None => b
  end.

(** [errors.join(', ')] *)
Fixpoint join (sep : string) (l : list string) : string :=
  match l with
  | [] => ""
  | [x] => x
  | x :: r => (x ++ sep ++ join sep r)%string
  end.

(** A character of the class [[^\s@]] *)
Definition plain (c : ascii) : bool := negb (is_space c || Ascii.eqb c "@").

(** [[^\s@]+\.[^\s@]+$] on the rest of the text: plain characters only,
    with a dot that is neither the first nor the last of them *)
Definition domain_shape (d : list ascii) : bool :=
  forallb plain d && existsb (Ascii.eqb ".") (removelast (tl d)).

(** [^[^\s@]+@] and then the rest: a plain character, plain characters up
    to the first [@], and [domain_shape] after it *)
Fixpoint local_shape (seen : bool) (s : list ascii) : bool :=
  match s with
  | [] => false
  | c :: r =>
      if Ascii.eqb c "@" then seen && domain_shape r
      else if is_space c then false
      else local_shape true r
  end.

(** [/^[^\s@]+@[^\s@]+\.[^\s@]+$/.test(s)] *)
Definition email_shape (s : string) : bool :=
  local_shape false (list_ascii_of_string s).

(** [!cell || cell.trim() === '']: [trim] is a method of texts, so the
    call throws on a number other than [0] and on [true]. *)
Definition missing_text (cell : option Cell.t) : M bool :=
  match cell with
  | None => ret true
  | Some c =>
      if negb (Cell.truthy c) then ret true
      else
        match c with
        | Cell.Str s => ret (seq (trim s) "")
        | _ => throw "TypeError"
        end
  end.

(** [!cell || cell.toString().trim() === ''] *)
Definition missing (cell : option Cell.t) : bool :=
  match cell with
  | None => true
  | Some c => negb (Cell.truthy c) || seq (trim (Cell.toString c)) ""
  end.

(** [cell?.toString().trim() || ''] *)
Definition trimmed (cell : option Cell.t) : string :=
  match cell with
  | None => ""
  | Some c => trim (Cell.toString c)
  end.

(** The cell as an argument that has [toLowerCase]: a text.  [None] is any
    other value ([undefined], a number, a boolean). *)
Definition as_text (cell : option Cell.t) : option string :=
  match cell with
  | Some (Cell.Str s) => Some s
  | _ => None
  end.

(** [regex.test(cell)] reads the cell as a text. *)
Definition cell_text (cell : option Cell.t) : string :=
  match cell with
  | Some c => Cell.toString c
  | None => "undefined"
  end.

Section AdminPortal.

Context {engine : ArraySort}.

(** [passwordType === 'secure' ? generateSecurePassword() : generateSimplePassword()] *)
Definition generatePassword (passwordType : PasswordType) : M string :=
  match passwordType with
  | secure => liftRand (generateSecurePassword 12)
  | simple => liftRand generateSimplePassword
  end.

Definition handleCreateUser : M unit :=
  newUser <- gets (fun w => newUser (admin w)) ;;
  allUsers_ <- getAllUsers ;;
  user <- gets (fun w => user (auth w)) ;;
  passwordType <- gets (fun w => passwordType (admin w)) ;;
  byEmail <- getUserByEmail allUsers_ (Some (NewUser.email newUser)) ;;
  existingUser <-
    match byEmail with
    | Some _ => ret byEmail
    | None => getUserByEmployeeId allUsers_ (Some (NewUser.employeeId newUser))
    end ;;
  match existingUser with
  | Some _ => alert "User with this email or employee ID already exists!"
  | None =>
      password <- generatePassword passwordType ;;
      now <- Date_now ;;
      stamp <- Date_now ;;
      let newUserData :=
        {| User.id := Z_toString now;
           User.email := NewUser.email newUser;
           User.name := NewUser.name newUser;
           User.phone := NewUser.phone newUser;
           User.employeeId := NewUser.employeeId newUser;
           User.location := NewUser.location newUser;
           User.isAdmin := NewUser.isAdmin newUser;
           User.groups := [];
           User.password := Some password;
           User.passwordGeneratedAt := Some stamp;
           User.createdBy := Some (or_else (option_map User.id user) "unknown");
           User.createdAt := None |} in
      addUser newUserData ;;
      console_log "User created successfully:" ;;
      setGeneratedPasswords
        [ {| GeneratedPassword.userId := User.id newUserData;
             GeneratedPassword.userName := User.name newUserData;
             GeneratedPassword.email := User.email newUserData;
             GeneratedPassword.password := password |} ] ;;
      setNewUser NewUser.blank ;;
      setAddUserDialogOpen false
  end.

Definition handleCreateGroup : M unit :=
  newGroup <- gets (fun w => newGroup (admin w)) ;;
  groups <- gets (fun w => groups (admin w)) ;;
  user <- gets (fun w => user (auth w)) ;;
  if seq (trim (NewGroup.name newGroup)) "" then alert "Group name is required"
  else
    now <- Date_now ;;
    let group :=
      {| Group.id := Z_toString now;
         Group.name := NewGroup.name newGroup;
         Group.description := NewGroup.description newGroup;
         Group.members := [];
         Group.createdBy := or_else (option_map User.id user) "" |} in
    setGroups (groups ++ [group]) ;;
    setNewGroup NewGroup.blank ;;
    console_log "Group created:".

Definition handleAddUserToGroup (userId groupId : string) : M unit :=
  allSystemUsers <- getAllUsers ;;
  groups <- gets (fun w => groups (admin w)) ;;
  let currentUser := find (fun u => seq (User.id u) userId) allSystemUsers in
  match currentUser with
  | Some cu =>
      if negb (includes (User.groups cu) groupId) then
        updateUser userId (User.only_groups (User.groups cu ++ [groupId]))
      else ret tt
  | None => ret tt
  end ;;
  setGroups
    (map (fun g =>
            if seq (Group.id g) groupId && negb (includes (Group.members g) userId)
            then Group.with_members g (Group.members g ++ [userId])
            else g)
         groups) ;;
  console_log "User".

Definition handleRemoveUserFromGroup (userId groupId : string) : M unit :=
  allSystemUsers <- getAllUsers ;;
  groups <- gets (fun w => groups (admin w)) ;;
  let currentUser := find (fun u => seq (User.id u) userId) allSystemUsers in
  match currentUser with
  | Some cu =>
      updateUser userId
        (User.only_groups
           (filter (fun gId => negb (seq gId groupId)) (User.groups cu)))
  | None => ret tt
  end ;;
  setGroups
    (map (fun g =>
            if seq (Group.id g) groupId
            then Group.with_members g
                   (filter (fun m => negb (seq m userId)) (Group.members g))
            else g)
         groups) ;;
  console_log "User".

Definition handlePasswordRegenerate (userId newPassword : string) : M unit :=
  allSystemUsers <- getAllUsers ;;
  updateUserPassword userId newPassword ;;
  let userData := find (fun u => seq (User.id u) userId) allSystemUsers in
  match userData with
  | Some ud =>
      setGeneratedPasswords
        [ {| GeneratedPassword.userId := userId;
             GeneratedPassword.userName := User.name ud;
             GeneratedPassword.email := User.email ud;
             GeneratedPassword.password := newPassword |} ]
  | None => ret tt
  end.

(** [confirmed] is the answer given to [window.confirm]. *)
Definition handleDeleteUser (confirmed : bool) (userId : string) : M unit :=
  groups <- gets (fun w => groups (admin w)) ;;
  if confirmed then
    setGroups
      (map (fun g =>
              Group.with_members g
                (filter (fun m => negb (seq m userId)) (Group.members g)))
           groups) ;;
    deleteUser userId
  else ret tt.

(** [validateUserData] of a render whose user list was [allUsers_]. *)
Definition validateUserData (allUsers_ : list User.t) (userData : Row.t) (rowIndex : nat)
  : M (list string) :=
  let errors := [] in
  nameMissing <- missing_text (Row.Name userData) ;;
  let errors := if nameMissing then errors ++ ["Name is required"] else errors in
  emailMissing <- missing_text (Row.Email userData) ;;
  let errors :=
    if emailMissing then errors ++ ["Email is required"]
    else if negb (email_shape (cell_text (Row.Email userData)))
         then errors ++ ["Invalid email format"]
         else errors in
  let errors :=
    if missing (Row.EmployeeID userData) then errors ++ ["Employee ID is required"]
    else errors in
  let errors :=
    if missing (Row.Phone userData) then errors ++ ["Phone is required"] else errors in
  locationMissing <- missing_text (Row.Location userData) ;;
  let errors :=
    if locationMissing then errors ++ ["Location is required"] else errors in
  byEmail <- getUserByEmail allUsers_ (as_text (Row.Email userData)) ;;
  existingUser <-
    match byEmail with
    | Some _ => ret byEmail
    | None =>
        getUserByEmployeeId allUsers_ (option_map Cell.toString (Row.EmployeeID userData))
    end ;;
  match existingUser with
  | Some _ => ret (errors ++ ["Email or Employee ID already exists"])
  | None => ret errors
  end.

(** The body of the [for] loop of [processBulkUpload], from row [i] on;
    [total] is [jsonData.length]. *)
Fixpoint uploadRows (allUsers_ : list User.t) (user : option User.t)
         (passwordType : PasswordType) (total : nat)
         (i : nat) (jsonData : list Row.t) (result : BulkUploadResult.t)
  : M BulkUploadResult.t :=
  match jsonData with
  | [] => ret result
  | userData :: rest =>
      setUploadProgress
        ((inject_Z (Z.of_nat (i + 1)) / inject_Z (Z.of_nat total)) * 100) ;;
      validationErrors <- validateUserData allUsers_ userData (i + 2) ;;
      match validationErrors with
      | _ :: _ =>
          uploadRows allUsers_ user passwordType total (S i) rest
            {| BulkUploadResult.success := BulkUploadResult.success result;
               BulkUploadResult.errors :=
                 BulkUploadResult.errors result ++
                 [ {| RowError.row := i + 2;
                      RowError.error := join ", " validationErrors;
                      RowError.data := Some userData |} ];
               BulkUploadResult.passwords := BulkUploadResult.passwords result |}
      | [] =>
          password <- generatePassword passwordType ;;
          now <- Date_now ;;
          stamp <- Date_now ;;
          let newUser :=
            {| User.id := (Z_toString now ++ "_" ++ nat_toString i)%string;
               User.name := trimmed (Row.Name userData);
               User.email := toLowerCase (trimmed (Row.Email userData));
               User.phone := trimmed (Row.Phone userData);
               User.employeeId := trimmed (Row.EmployeeID userData);
               User.location := trimmed (Row.Location userData);
               User.isAdmin :=
                 match Row.IsAdmin userData with
                 | Some c => seq (toLowerCase (Cell.toString c)) "true"
                 | None => false
                 end;
               User.groups := [];
               User.password := Some password;
               User.passwordGeneratedAt := Some stamp;
               User.createdBy := Some (or_else (option_map User.id user) "bulk-upload");
               User.createdAt := None |} in
          uploadRows allUsers_ user passwordType total (S i) rest
            {| BulkUploadResult.success := BulkUploadResult.success result ++ [newUser];
               BulkUploadResult.errors := BulkUploadResult.errors result;
               BulkUploadResult.passwords :=
                 BulkUploadResult.passwords result ++
                 [ {| GeneratedPassword.userId := User.id newUser;
                      GeneratedPassword.userName := User.name newUser;
                      GeneratedPassword.email := User.email newUser;
                      GeneratedPassword.password := password |} ] |}
      end
  end.

Definition processBulkUpload : M unit :=
  uploadFile <- gets (fun w => uploadFile (admin w)) ;;
  allUsers_ <- getAllUsers ;;
  user <- gets (fun w => user (auth w)) ;;
  passwordType <- gets (fun w => passwordType (admin w)) ;;
  match uploadFile with
  | None => ret tt
  | Some sheet =>
      setIsUploading true ;;
      setUploadProgress 0 ;;
      setUploadResult None ;;
      try_finally
        (try_catch
           (jsonData <-
              match sheet with
              | Some rows => ret rows
              | None => throw "Error"
              end ;;
            result <-
              uploadRows allUsers_ user passwordType (List.length jsonData) 0 jsonData
                (BulkUploadResult.mk [] [] []) ;;
            addUsers (BulkUploadResult.success result) ;;
            setUploadResult (Some result) ;;
            match BulkUploadResult.passwords result with
            | _ :: _ => setGeneratedPasswords (BulkUploadResult.passwords result)
            | [] => ret tt
            end)
           (fun error =>
              console_error "Error processing file:" ;;
              setUploadResult
                (Some (BulkUploadResult.mk []
                         [ {| RowError.row := 0;
                              RowError.error :=
                                "Failed to process file. Please ensure it's a valid Excel file.";
                              RowError.data := None |} ]
                         []))))
        (setIsUploading false ;; setUploadProgress 100)
  end.

(** The effect that follows every change of [groups]. *)
Definition saveGroupsEffect : M unit :=
  groups <- gets (fun w => groups (admin w)) ;;
  set_systemGroups (Some (Json groups)) ;;
  console_log "Groups saved to localStorage:".

End AdminPortal.

(* ================================================================== *)
(** * Messages, questions and statistics (AdminPortal.tsx,              *)
(**   UserPortal.tsx)                                                   *)
(* ================================================================== *)

(** The state of the two portals that [World] does not hold (messages, the
    forms of the chat and of the questions, the responses the admin has
    polled) and the [systemMessages] key of [localStorage] are passed to
    the handlers, which return their next values. *)

Module Message.

Inductive kind := text | image | file | mcq.

(** [content] is a text: what was typed, or [JSON.stringify(mcqData)],
    from which [JSON.parse] gives [mcqData] back. *)
Inductive body :=
| Typed (s : string)
| Stringified (mcqData : MCQQuestion.t).

Record t := mk {
  id : string;
  senderId : string;
  senderName : string;
  content : body;
  type : kind;
  timestamp : Date;
  groupId : string
}.

End Message.

(** The text under the [systemMessages] key. *)
Definition MessageStore := option (Text (list Message.t)).

Module AdminChat.

Record t := mk {
  messages : list Message.t;
  selectedChat : option string;
  chatMessage : string;
  selectedMCQGroup : option string;
  mcqQuestion : string;
  mcqOptions : list string;
  mcqCorrectAnswer : string
}.

End AdminChat.

Module PortalChat.

Record t := mk {
  messages : list Message.t;
  newMessage : string
}.

End PortalChat.

Module MCQStats.

Record t := mk {
  totalResponses : nat;
  correctResponses : nat;
  incorrectResponses : nat;
  accuracy : PrimFloat.float
}.

End MCQStats.

(** [!!s] on a text that may be [null] *)
Definition given (s : option string) : bool :=
  match s with
  | Some "" => false
  | Some _ => true
  | None => false
  end.

(** The number [n] of a length, as a double. *)
Definition number (n : nat) : PrimFloat.float :=
  PrimFloat.of_uint63 (Uint63.of_Z (Z.of_nat n)).

(** [Math.round(x)]: the integer nearest to [x], the greater one of two
    that are as near; zeros, infinities and NaN are returned as they are. *)
Definition Math_round (x : PrimFloat.float) : PrimFloat.float :=
  match FloatOps.Prim2SF x with
  | SpecFloat.S754_finite s m e =>
      if (0 <=? e)%Z then x
      else
        let n := if s then Z.neg m else Z.pos m in
        let r := ((2 * n + 2 ^ (- e)) / 2 ^ (1 - e))%Z in
        if (r =? 0)%Z then (if s then PrimFloat.opp PrimFloat.zero else PrimFloat.zero)
        else if (r <? 0)%Z then PrimFloat.opp (PrimFloat.of_uint63 (Uint63.of_Z (- r)))
             else PrimFloat.of_uint63 (Uint63.of_Z r)
  | _ => x
  end.

(** ** AdminPortal.tsx *)

(** The effect that follows every change of [messages]: the text it
    writes under [systemMessages]. *)
Definition saveMessagesEffect (c : AdminChat.t) : M MessageStore :=
  console_log "Messages saved to localStorage:" ;;
  ret (Some (Json (AdminChat.messages c))).

(** The callback of the interval that polls the responses; [mcqResponses]
    is the state of the render, the result the next state. *)
Definition pollResponses (mcqResponses : list MCQResponse.t) : M (list MCQResponse.t) :=
  try_catch
    (savedResponses <- getItem systemMCQResponses ;;
     match truthy savedResponses with
     | Some text =>
         parsedResponses <- JSON_parse text ;;
         ret parsedResponses
     | None => ret mcqResponses
     end)
    (fun error => console_error "Error loading MCQ responses:" ;; ret mcqResponses).

Definition handleSendChatMessage (c : AdminChat.t) : M AdminChat.t :=
  user <- gets (fun w => user (auth w)) ;;
  match user with
  | Some user =>
      if seq (trim (AdminChat.chatMessage c)) "" || negb (given (AdminChat.selectedChat c))
      then ret c
      else
        now <- Date_now ;;
        stamp <- Date_now ;;
        let message :=
          {| Message.id := Z_toString now;
             Message.senderId := User.id user;
             Message.senderName := User.name user;
             Message.content := Message.Typed (AdminChat.chatMessage c);
             Message.type := Message.text;
             Message.timestamp := stamp;
             Message.groupId := or_else (AdminChat.selectedChat c) "" |} in
        console_log "Chat message sent to group" ;;
        ret {| AdminChat.messages := AdminChat.messages c ++ [message];
               AdminChat.selectedChat := AdminChat.selectedChat c;
               AdminChat.chatMessage := "";
               AdminChat.selectedMCQGroup := AdminChat.selectedMCQGroup c;
               AdminChat.mcqQuestion := AdminChat.mcqQuestion c;
               AdminChat.mcqOptions := AdminChat.mcqOptions c;
               AdminChat.mcqCorrectAnswer := AdminChat.mcqCorrectAnswer c |}
  | None => ret c
  end.

Definition handleSendMCQ (c : AdminChat.t) : M AdminChat.t :=
  user <- gets (fun w => user (auth w)) ;;
  match user with
  | Some user =>
      if seq (trim (AdminChat.mcqQuestion c)) ""
         || negb (given (AdminChat.selectedMCQGroup c))
      then ret c
      else if existsb (fun opt => seq (trim opt) "") (AdminChat.mcqOptions c)
      then alert "Please fill all MCQ options" ;; ret c
      else if seq (trim (AdminChat.mcqCorrectAnswer c)) ""
      then alert "Please specify the correct answer" ;; ret c
      else
        let mcqData :=
          {| MCQQuestion.question := AdminChat.mcqQuestion c;
             MCQQuestion.options :=
               filter (fun opt => negb (seq (trim opt) "")) (AdminChat.mcqOptions c);
             MCQQuestion.correctAnswer := AdminChat.mcqCorrectAnswer c |} in
        now <- Date_now ;;
        stamp <- Date_now ;;
        let message :=
          {| Message.id := Z_toString now;
             Message.senderId := User.id user;
             Message.senderName := User.name user;
             Message.content := Message.Stringified mcqData;
             Message.type := Message.mcq;
             Message.timestamp := stamp;
             Message.groupId := or_else (AdminChat.selectedMCQGroup c) "" |} in
        console_log "MCQ sent to group" ;;
        ret {| AdminChat.messages := AdminChat.messages c ++ [message];
               AdminChat.selectedChat := AdminChat.selectedChat c;
               AdminChat.chatMessage := AdminChat.chatMessage c;
               AdminChat.selectedMCQGroup := None;
               AdminChat.mcqQuestion := "";
               AdminChat.mcqOptions := [""; ""; ""; ""];
               AdminChat.mcqCorrectAnswer := "" |}
  | None => ret c
  end.

(** [getGroupMessages], the same in the two portals *)
Definition getGroupMessages (messages : list Message.t) (groupId : string)
  : list Message.t :=
  filter (fun m => seq (Message.groupId m) groupId) messages.

Definition getMCQMessages (messages : list Message.t) : list Message.t :=
  filter (fun m => match Message.type m with Message.mcq => true | _ => false end)
         messages.

Definition getResponsesForMessage (mcqResponses : list MCQResponse.t) (messageId : string)
  : list MCQResponse.t :=
  filter (fun r => seq (MCQResponse.messageId r) messageId) mcqResponses.

Definition getGroupResponses (mcqResponses : list MCQResponse.t) (groupId : string)
  : list MCQResponse.t :=
  filter (fun r => seq (MCQResponse.groupId r) groupId) mcqResponses.

Definition calculateMCQStats (mcqResponses : list MCQResponse.t) (messageId : string)
  : MCQStats.t :=
  let responses := getResponsesForMessage mcqResponses messageId in
  let totalResponses := List.length responses in
  let correctResponses := List.length (filter MCQResponse.isCorrect responses) in
  let accuracy :=
    if (0 <? totalResponses)%nat
    then PrimFloat.mul (PrimFloat.div (number correctResponses) (number totalResponses))
                       (number 100)
    else PrimFloat.zero in
  {| MCQStats.totalResponses := totalResponses;
     MCQStats.correctResponses := correctResponses;
     MCQStats.incorrectResponses := totalResponses - correctResponses;
     MCQStats.accuracy := Math_round accuracy |}.

(** ** UserPortal.tsx *)

Definition loadMessagesFromStorage (store : MessageStore) (c : PortalChat.t)
  : M PortalChat.t :=
  try_catch
    (match truthy store with
     | Some text =>
         parsedMessages <- JSON_parse text ;;
         console_log "Loaded messages from storage:" ;;
         ret {| PortalChat.messages := parsedMessages;
                PortalChat.newMessage := PortalChat.newMessage c |}
     | None => ret c
     end)
    (fun error => console_error "Error loading messages from storage:" ;; ret c).

(** What is under [systemMessages] after the call, [store] being what was
    under it before. *)
Definition saveMessagesToStorage (store : MessageStore) (newMessages : list Message.t)
  : M MessageStore :=
  try_catch
    (console_log "Messages saved to storage" ;;
     ret (Some (Json newMessages)))
    (fun error => console_error "Error saving messages to storage:" ;; ret store).

Definition handleSendMessage (store : MessageStore) (c : PortalChat.t)
  : M (PortalChat.t * MessageStore) :=
  user <- gets (fun w => user (auth w)) ;;
  selectedGroup <- gets (fun w => selectedGroup (portal w)) ;;
  match user with
  | Some user =>
      if seq (trim (PortalChat.newMessage c)) "" || negb (given selectedGroup)
      then ret (c, store)
      else
        now <- Date_now ;;
        stamp <- Date_now ;;
        let message :=
          {| Message.id := Z_toString now;
             Message.senderId := User.id user;
             Message.senderName := User.name user;
             Message.content := Message.Typed (PortalChat.newMessage c);
             Message.type := Message.text;
             Message.timestamp := stamp;
             Message.groupId := or_else selectedGroup "" |} in
        let updatedMessages := PortalChat.messages c ++ [message] in
        store' <- saveMessagesToStorage store updatedMessages ;;
        ret ({| PortalChat.messages := updatedMessages;
                PortalChat.newMessage := "" |},
             store')
  | None => ret (c, store)
  end.

(* ================================================================== *)
(** * Login (Login.tsx) and App.tsx                                    *)
(* ================================================================== *)

(** [handleSubmit] of the login form with [email] and [password] typed:
    the text of [error] it leaves. *)
Definition handleSubmit (email password : string) : M string :=
  if seq email "" || seq password "" then ret "Please enter both email and password"
  else
    success <- login email password ;;
    if success then ret ""
    else ret "Invalid email or password. Please check your credentials and try again.".

Inductive Screen :=
| LoadingScreen
| AdminCredentialsScreen
| LoginScreen
| AdminPortalScreen
| UserPortalScreen.

(** What [AppContent] renders. *)
Definition AppContent (showCredentials : bool) (w : World) : Screen :=
  if isLoading (auth w) then LoadingScreen
  else
    match user (auth w) with
    | None => if showCredentials then AdminCredentialsScreen else LoginScreen
    | Some user => if User.isAdmin user then AdminPortalScreen else UserPortalScreen
    end.

(* ================================================================== *)
(** * Vocabulary of the properties                                     *)
(* ================================================================== *)

(** ** Users, sessions and storage *)

(** The users that a read of the users partition yields. *)
Definition storedUsers (w : World) : list User.t :=
  match truthy (systemUsers (localStorage (browser w))) with
  | Some (Json v) => v
  | _ => initialUsers (loadedAt (browser w))
  end.

(** The read of the users partition fails: the key is missing, or its text
    is empty or is not JSON. *)
Definition readFails (w : World) : Prop :=
  match systemUsers (localStorage (browser w)) with
  | Some (Json _) => False
  | _ => True
  end.

(** No two users of the list share a normalized email or an employee id. *)
Fixpoint uniqueIdentity (us : list User.t) : Prop :=
  match us with
  | [] => True
  | u :: r => (forall v, In v r -> sameIdentity u v = false) /\ uniqueIdentity r
  end.

(** The user that [login] looks for. *)
Definition findByEmail (email : string) (us : list User.t) : option User.t :=
  find (fun u => seq (toLowerCase (User.email u)) (toLowerCase email)) us.

(** The world with another console trace. *)
Definition with_console (c : list (Level * string)) : World -> World :=
  on_browser (fun b =>
    mkBrowser (localStorage b) c (alerts b) (timers b) (clock b) (random b) (loadedAt b)).

(** A first visit: nothing is stored, the users are the initial users, the
    clock starts at [t0] and the random source gives the sevenths in turn. *)
Definition firstVisit : World :=
  let t0 := 1700000000000%Z in
  mkWorld
    (mkAuth None false (initialUsers t0))
    (mkAdmin [] NewUser.blank NewGroup.blank simple [] false None 0 None false)
    (mkPortal [] None)
    (mkBrowser (mkStorage None None None None) [] [] []
               (mkOracle (fun n => (t0 + 1 + Z.of_nat n)%Z) 0)
               (mkOracle (fun n => Z.of_nat (n mod 7) # 7) 0)
               t0).

(** A visit with two users in memory while the stored text of the users
    partition is not JSON. *)
Definition corruptVisit : World :=
  let bob :=
    User.mk "2" "bob@company.com" "Bob" "+1" "EMP002" "Lab" false []
            (Some "HappyTiger123") None (Some "1") None in
  on_storage (fun s => mkStorage (Some Garbled) (currentUser s) (systemGroups s)
                                 (systemMCQResponses s))
    (on_auth (fun a => mkAuth (user a) (isLoading a) (allUsers a ++ [bob])) firstVisit).

(** The identity of a user: the email in lower case, and the employee id. *)
Definition identityOf (u : User.t) : string * string :=
  (toLowerCase (User.email u), User.employeeId u).

Definition clash (a b : string * string) : bool :=
  seq (fst b) (fst a) || seq (snd b) (snd a).

Fixpoint uniqueKeys (ks : list (string * string)) : Prop :=
  match ks with
  | [] => True
  | k :: r => (forall k', In k' r -> clash k k' = false) /\ uniqueKeys r
  end.

(** The drafts stamped with the clock values from position [k] on. *)
Fixpoint stampAll (vals : nat -> Date) (k : nat) (l : list User.t) : list User.t :=
  match l with
  | [] => []
  | u :: r => User.assign u (User.only_createdAt (vals k)) :: stampAll vals (S k) r
  end.

(** The world in which [n] more clock values were taken. *)
Definition tick (n : nat) : World -> World :=
  on_browser (fun b =>
    mkBrowser (localStorage b) (console b) (alerts b) (timers b)
              (mkOracle (values (clock b)) (n + taken (clock b)))
              (random b) (loadedAt b)).

(** The repository operations on users. *)
Inductive RepoOp :=
| AddUser (u : User.t)
| AddUsers (us : list User.t)
| UpdateUser (userId : string) (updates : User.partial).

Definition runRepoOp (op : RepoOp) : M unit :=
  match op with
  | AddUser u => addUser u
  | AddUsers us => addUsers us
  | UpdateUser userId updates => updateUser userId updates
  end.

(** The worlds reached from [w0] through the operations that [allowed] admits. *)
Inductive reachableBy (allowed : RepoOp -> Prop) (w0 : World) : World -> Prop :=
| reach_start : reachableBy allowed w0 w0
| reach_step (w : World) (op : RepoOp) :
    reachableBy allowed w0 w -> allowed op ->
    reachableBy allowed w0 (exec (runRepoOp op) w).

(** The operations on which the amended C1 relies: any [addUser]; an
    [addUsers] whose drafts do not share an identity among themselves; an
    [updateUser] that carries neither an email nor an employee id. *)
Definition keepsIdentity (op : RepoOp) : Prop :=
  match op with
  | AddUser _ => True
  | AddUsers us => uniqueIdentity us
  | UpdateUser _ updates =>
      User.p_email updates = None /\ User.p_employeeId updates = None
  end.

Definition bob : User.t :=
  User.mk "2" "bob@company.com" "Bob" "+1" "EMP002" "Lab" false []
          (Some "HappyTiger123") None (Some "1") None.

Definition carol : User.t :=
  User.mk "3" "carol@company.com" "Carol" "+2" "EMP003" "Lab" false []
          (Some "CalmWolf456") None (Some "1") None.

(** ** Passwords *)

(** The contract of [Math.random]: every value is in [[0, 1)]. *)
Definition unitRandom (o : Oracle Q) : Prop :=
  forall i, (0 <= values o i)%Q /\ (values o i < 1)%Q.

(** The source after one more value was taken. *)
Definition next (o : Oracle Q) : Oracle Q := mkOracle (values o) (S (taken o)).

Definition is_symbol (c : ascii) : bool :=
  existsb (Ascii.eqb c) (list_ascii_of_string symbols).

(** The insertion sort rearranges its input, so it makes an engine. *)
Lemma insert_by_perm {A} (comparefn : A -> A -> Rand Q) (x : A) (l : list A)
      (o : Oracle Q) :
  Permutation (x :: l) (fst (insert_by comparefn x l o)).
Proof.
  revert o. induction l as [ | y r IH]; intros o; cbn.
  - apply Permutation_refl.
  - unfold rbind. destruct (comparefn x y o) as [c o1].
    destruct (Qle_bool c 0); cbn.
    + apply Permutation_refl.
    + specialize (IH o1). destruct (insert_by comparefn x r o1) as [r' o2]. cbn in *.
      eapply Permutation_trans; [ apply perm_swap | ].
      apply perm_skip. exact IH.
Qed.

Lemma insertion_sort_by_perm {A} (comparefn : A -> A -> Rand Q) (l : list A)
      (o : Oracle Q) :
  Permutation l (fst (insertion_sort_by comparefn l o)).
Proof.
  revert o. induction l as [ | x r IH]; intros o; cbn.
  - apply Permutation_refl.
  - unfold rbind. specialize (IH o).
    destruct (insertion_sort_by comparefn r o) as [r' o1]. cbn in IH.
    eapply Permutation_trans; [ apply perm_skip; exact IH | ].
    apply insert_by_perm.
Qed.

(** An engine whose sort is the insertion sort. *)
Definition insertionEngine : ArraySort :=
  {| Array_sort := @insertion_sort_by;
     Array_sort_perm := @insertion_sort_by_perm |}.

(** ** Responses *)

(** The number of responses of [userId] to [messageId]. *)
Definition responseCount (messageId userId : string) (rs : list MCQResponse.t) : nat :=
  List.length (filter (answers messageId (Some userId)) rs).

(** At most one response for every pair of a message and a user. *)
Definition atMostOneResponse (rs : list MCQResponse.t) : Prop :=
  forall messageId userId, (responseCount messageId userId rs <= 1)%nat.

(** A visit of Bob in which he has answered message [m1] with [B]. *)
Definition answeredVisit : World :=
  let r1 := MCQResponse.mk "1700000000500" "m1" "2" "Bob" "bob@company.com" "g1" "B"
                           1700000000500%Z true in
  mkWorld (mkAuth (Some (User.assign bob User.no_password)) false
                  (allUsers (auth firstVisit) ++ [bob]))
          (admin firstVisit)
          (mkPortal [r1] (Some "g1"))
          (browser firstVisit).

(** ** The admin portal *)

(** The members of a group without [userId]. *)
Definition without (userId : string) (g : Group.t) : Group.t :=
  Group.with_members g (filter (fun m => negb (seq m userId)) (Group.members g)).

(** Bob in two groups, and logged in. *)
Definition twoGroupsVisit : World :=
  let g1 := Group.mk "g1" "Maths" "" ["2"] "1" in
  let g2 := Group.mk "g2" "Physics" "" ["3"; "2"] "1" in
  let bob' := User.assign bob (User.only_groups ["g1"; "g2"]) in
  mkWorld (mkAuth (Some (User.assign bob' User.no_password)) false
                  (allUsers (auth firstVisit) ++ [bob'; carol]))
          (mkAdmin [g1; g2] NewUser.blank NewGroup.blank simple [] false None 0 None false)
          (portal firstVisit)
          (on_storage (fun s =>
             mkStorage (systemUsers s) (Some (Json (User.assign bob' User.no_password)))
                       (systemGroups s) (systemMCQResponses s)) firstVisit).(browser).

(** A user of [us] has the email of the form, compared in lower case, or
    its employee id. *)
Definition formClashes (d : NewUser.t) (us : list User.t) : bool :=
  existsb (fun u => seq (toLowerCase (User.email u)) (toLowerCase (NewUser.email d))
                    || seq (User.employeeId u) (NewUser.employeeId d)) us.

(** The world with another random source. *)
Definition with_random (o : Oracle Q) : World -> World :=
  on_browser (fun b =>
    mkBrowser (localStorage b) (console b) (alerts b) (timers b) (clock b) o (loadedAt b)).

(** The admin fills in the create-user form and submits it. *)
Definition submitUserForm {engine : ArraySort} (d : NewUser.t) : M unit :=
  setNewUser d ;; handleCreateUser.

(** The users and the groups of [w'] are those of [w]. *)
Definition keeps (w w' : World) : Prop :=
  auth w' = auth w /\ groups (admin w') = groups (admin w).

(** Two rows of one sheet with the same email, apart from the case. *)
Definition duplicateRows : list Row.t :=
  [ Row.mk (text_cell "Bob") (text_cell "bob@company.com") (text_cell "+1")
           (text_cell "EMP002") (text_cell "Lab") (text_cell "FALSE");
    Row.mk (text_cell "Robert") (text_cell "Bob@Company.com") (text_cell "+3")
           (text_cell "EMP009") (text_cell "Office") (text_cell "FALSE") ].


(** The users after [handleAddUserToGroup]. *)
Definition addMemberUsers (userId groupId : string) (us : list User.t) : list User.t :=
  match find (fun u => seq (User.id u) userId) us with
  | Some cu =>
      if negb (includes (User.groups cu) groupId) then
        map (fun u => if seq (User.id u) userId
                      then User.assign u (User.only_groups (User.groups cu ++ [groupId]))
                      else u) us
      else us
  | None => us
  end.

(** The groups after [handleAddUserToGroup]. *)
Definition addMemberGroups (userId groupId : string) (gs : list Group.t) : list Group.t :=
  map (fun g => if seq (Group.id g) groupId && negb (includes (Group.members g) userId)
                then Group.with_members g (Group.members g ++ [userId])
                else g) gs.

(** The users after [handleRemoveUserFromGroup]. *)
Definition removeMemberUsers (userId groupId : string) (us : list User.t) : list User.t :=
  match find (fun u => seq (User.id u) userId) us with
  | Some cu =>
      map (fun u => if seq (User.id u) userId
                    then User.assign u
                           (User.only_groups
                              (filter (fun gId => negb (seq gId groupId)) (User.groups cu)))
                    else u) us
  | None => us
  end.

(** The groups after [handleRemoveUserFromGroup]. *)
Definition removeMemberGroups (userId groupId : string) (gs : list Group.t)
  : list Group.t :=
  map (fun g => if seq (Group.id g) groupId then without userId g else g) gs.

Inductive AdminAction :=
| FillUserForm (d : NewUser.t)
| FillGroupForm (d : NewGroup.t)
| ChoosePasswordType (t : PasswordType)
| ChooseFile (sheet : option (list Row.t))
| CreateUser
| CreateGroup
| AddUserToGroup (userId groupId : string)
| RemoveUserFromGroup (userId groupId : string)
| DeleteUser (confirmed : bool) (userId : string)
| BulkUpload.

Definition perform {engine : ArraySort} (a : AdminAction) : M unit :=
  match a with
  | FillUserForm d => setNewUser d
  | FillGroupForm d => setNewGroup d
  | ChoosePasswordType t => setPasswordType t
  | ChooseFile sheet => setUploadFile (Some sheet)
  | CreateUser => handleCreateUser
  | CreateGroup => handleCreateGroup
  | AddUserToGroup userId groupId => handleAddUserToGroup userId groupId
  | RemoveUserFromGroup userId groupId => handleRemoveUserFromGroup userId groupId
  | DeleteUser confirmed userId => handleDeleteUser confirmed userId
  | BulkUpload => processBulkUpload
  end.




(** From a first visit, the admin creates Bob and the group Maths. *)
Definition staffedVisit : World :=
  exec (@perform insertionEngine CreateGroup)
    (exec (@perform insertionEngine (FillGroupForm (NewGroup.mk "Maths" "")))
       (exec (@perform insertionEngine CreateUser)
          (exec (@perform insertionEngine
                   (FillUserForm
                      (NewUser.mk "bob@company.com" "Bob" "+1" "EMP002" "Lab" false)))
                firstVisit))).

(** Then Bob is added to Maths. *)
Definition enrolledVisit : World :=
  exec (@perform insertionEngine (AddUserToGroup "1700000000001" "1700000000004"))
       staffedVisit.

(** ** Further vocabulary *)

(** The users after [updateUserPassword]: a user with the id gets the
    password and the next clock value, from position [k] on. *)
Fixpoint rotated (vals : nat -> Date) (k : nat) (userId newPassword : string)
         (us : list User.t) : list User.t :=
  match us with
  | [] => []
  | u :: r =>
      if seq (User.id u) userId
      then User.assign u (User.only_password newPassword (vals k))
           :: rotated vals (S k) userId newPassword r
      else u :: rotated vals k userId newPassword r
  end.

(** How many users have the id. *)
Definition holders (userId : string) (us : list User.t) : nat :=
  List.length (filter (fun u => seq (User.id u) userId) us).

(** The stored responses, when the text of the partition parses. *)
Definition storedResponses (w : World) : option (list MCQResponse.t) :=
  match systemMCQResponses (localStorage (browser w)) with
  | Some (Json l) => Some l
  | _ => None
  end.

(** What a user does in the portal, and the periodic refresh. *)
Inductive PortalAction :=
| Answer (messageId selectedOption : string) (mcqData : MCQQuestion.t)
| Refresh
| Login (email password : string)
| Logout.

Definition portalStep (a : PortalAction) : M unit :=
  match a with
  | Answer messageId selectedOption mcqData =>
      handleMCQAnswer messageId selectedOption mcqData
  | Refresh => loadResponsesFromStorage
  | Login email password => _ <- login email password ;; ret tt
  | Logout => logout
  end.

(** The responses in memory and the stored ones both hold at most one
    response for every pair of a message and a user. *)
Definition responsesOk (w : World) : Prop :=
  atMostOneResponse (responses (portal w)) /\
  forall l, storedResponses w = Some l -> atMostOneResponse l.

(** The response that [handleMCQAnswer] builds in [w] for the user [u]. *)
Definition responseOf (messageId selectedOption : string) (mcqData : MCQQuestion.t)
           (u : User.t) (w : World) : MCQResponse.t :=
  let c := clock (browser w) in
  {| MCQResponse.id := Z_toString (values c (taken c));
     MCQResponse.messageId := messageId;
     MCQResponse.userId := User.id u;
     MCQResponse.userName := User.name u;
     MCQResponse.userEmail := User.email u;
     MCQResponse.groupId := or_else (selectedGroup (portal w)) "";
     MCQResponse.selectedAnswer := selectedOption;
     MCQResponse.timestamp := values c (S (taken c));
     MCQResponse.isCorrect := seq selectedOption (MCQQuestion.correctAnswer mcqData) |}.

(** Bob's portal in a second tab: since its last refresh he has answered
    [m1] with [B] in the first tab, where the answer was stored; this
    portal has not loaded it. *)
Definition staleVisit : World :=
  mkWorld (auth answeredVisit) (admin answeredVisit) (mkPortal [] (Some "g1"))
          (on_storage
             (fun s => mkStorage (systemUsers s) (currentUser s) (systemGroups s)
                                 (Some (Json (responses (portal answeredVisit)))))
             answeredVisit).(browser).

(** Bob's portal before he has answered anything, while the store holds a
    response of Carol that the portal has not loaded. *)
Definition unansweredVisit : World :=
  let r2 := MCQResponse.mk "1700000000400" "m1" "3" "Carol" "carol@company.com" "g1" "A"
                           1700000000400%Z false in
  mkWorld (mkAuth (Some (User.assign bob User.no_password)) false
                  (allUsers (auth firstVisit) ++ [bob; carol]))
          (admin firstVisit)
          (mkPortal [] (Some "g1"))
          (on_storage (fun s =>
             mkStorage (systemUsers s) (currentUser s) (systemGroups s)
                       (Some (Json [r2]))) firstVisit).(browser).

(** The same portal after a refresh: it holds the stored responses. *)
Definition refreshedVisit : World := exec loadResponsesFromStorage unansweredVisit.

(** No member list names a user twice and no user lists a group twice. *)
Definition duplicateFree (w : World) : Prop :=
  (forall g, In g (groups (admin w)) -> NoDup (Group.members g)) /\
  (forall u, In u (allUsers (auth w)) -> NoDup (User.groups u)).

(** A text of white space only, the empty text included. *)
Definition blank (s : string) : bool := forallb is_space (list_ascii_of_string s).

(** ** Bulk upload *)

(** The cell holds a text that is not white space only. *)
Definition filled (cell : option Cell.t) : bool :=
  match cell with
  | Some (Cell.Str s) => negb (blank s)
  | _ => false
  end.

(** [trim] can be called on the cell when it is reached: the cell is a
    text, or it is absent or falsy ([0], [false]). *)
Definition trimmable (cell : option Cell.t) : bool :=
  match cell with
  | Some (Cell.Str _) => true
  | Some c => negb (Cell.truthy c)
  | None => true
  end.

(** [validateUserData] returns on the row, against the users [us]: the
    name, email and location cells can be trimmed, and the email cell is a
    text when there is a user to compare it with. *)
Definition rowReadable (us : list User.t) (row : Row.t) : bool :=
  trimmable (Row.Name row)
  && trimmable (Row.Email row)
  && trimmable (Row.Location row)
  && match us, as_text (Row.Email row) with
     | _ :: _, None => false
     | _, _ => true
     end.

(** The rows that [validateUserData] accepts against the users [us]: the
    name, the email and the location are texts with more than white space,
    the employee id and the phone have more than white space when shown as
    texts, the email has the shape of an address, and no user of [us] has
    the email of the row (compared in lower case) or the text of its
    employee id cell. *)
Definition rowAccepted (us : list User.t) (row : Row.t) : bool :=
  filled (Row.Name row)
  && filled (Row.Email row)
  && email_shape (cell_text (Row.Email row))
  && negb (missing (Row.EmployeeID row))
  && negb (missing (Row.Phone row))
  && filled (Row.Location row)
  && match as_text (Row.Email row) with
     | Some e =>
         negb (existsb (fun u => seq (toLowerCase (User.email u)) (toLowerCase e)) us)
     | None => true
     end
  && match Row.EmployeeID row with
     | Some k =>
         negb (existsb (fun u => seq (User.employeeId u) (Cell.toString k)) us)
     | None => true
     end.

(** The account [u] carries the cells of [row], trimmed, with the email in
    lower case; it is in no group and has a password. *)
Definition builtFrom (row : Row.t) (u : User.t) : Prop :=
  User.name u = trimmed (Row.Name row) /\
  User.email u = toLowerCase (trimmed (Row.Email row)) /\
  User.phone u = trimmed (Row.Phone row) /\
  User.employeeId u = trimmed (Row.EmployeeID row) /\
  User.location u = trimmed (Row.Location row) /\
  User.isAdmin u = match Row.IsAdmin row with
                   | Some c => seq (toLowerCase (Cell.toString c)) "true"
                   | None => false
                   end /\
  User.groups u = [] /\
  User.createdAt u = None /\
  exists password, User.password u = Some password.

(** The entry of the password list for an account. *)
Definition credentialOf (u : User.t) : GeneratedPassword.t :=
  {| GeneratedPassword.userId := User.id u;
     GeneratedPassword.userName := User.name u;
     GeneratedPassword.email := User.email u;
     GeneratedPassword.password := match User.password u with
                                   | Some p => p
                                   | None => ""
                                   end |}.

(** [validateUserData] returns on every row of the sheet. *)
Definition readable (us : list User.t) (rows : list Row.t) : Prop :=
  forallb (rowReadable us) rows = true.

(** The report of a file that could not be processed. *)
Definition failureReport : BulkUploadResult.t :=
  BulkUploadResult.mk []
    [ {| RowError.row := 0;
         RowError.error := "Failed to process file. Please ensure it's a valid Excel file.";
         RowError.data := None |} ]
    [].

(** What the loop of [processBulkUpload] leaves alone. *)
Definition uploading (w w' : World) : Prop :=
  auth w' = auth w /\
  portal w' = portal w /\
  groups (admin w') = groups (admin w) /\
  generatedPasswords (admin w') = generatedPasswords (admin w) /\
  uploadFile (admin w') = uploadFile (admin w) /\
  localStorage (browser w') = localStorage (browser w) /\
  alerts (browser w') = alerts (browser w) /\
  values (clock (browser w')) = values (clock (browser w)).

(** An account with text in every field, a lower-case email with the shape
    of an address that no user of [us] has, no group and a password. *)
Definition wellFormed (us : list User.t) (u : User.t) : Prop :=
  User.name u <> ""%string /\
  User.phone u <> ""%string /\
  User.employeeId u <> ""%string /\
  User.location u <> ""%string /\
  email_shape (User.email u) = true /\
  toLowerCase (User.email u) = User.email u /\
  (forall x, In x us -> toLowerCase (User.email x) <> User.email u) /\
  User.groups u = [] /\
  User.password u <> None.

(** A sheet of two good rows, the second with numbers for the phone and
    the employee id and a boolean for the admin flag, and the same sheet
    with a number for the second name. *)
Definition numberRows (name : option Cell.t) : list Row.t :=
  [ Row.mk (text_cell "Bob") (text_cell "bob@company.com") (text_cell "+1")
           (text_cell "EMP002") (text_cell "Lab") (Some (Cell.Boolean false));
    Row.mk name (text_cell "carol@company.com") (Some (Cell.Num 5550100))
           (Some (Cell.Num 1003)) (text_cell "Lab") (Some (Cell.Boolean true)) ].

(** A sheet with a good row, a row without an email cell and a row whose
    employee id cell is the admin's, with a space after it. *)
Definition threeRows : list Row.t :=
  [ Row.mk (text_cell "Bob") (text_cell "Bob@Company.com") (text_cell "+1")
           (text_cell "EMP002") (text_cell "Lab") (text_cell "FALSE");
    Row.mk (text_cell "Dan") None (text_cell "+4") (text_cell "EMP004")
           (text_cell "Lab") None;
    Row.mk (text_cell "Root") (text_cell "root@company.com") (text_cell "+9")
           (text_cell "ADMIN001 ") (text_cell "Lab") (text_cell "true") ].

(** ** Messages and questions *)

(** The question form is complete: the question, the four options and the
    correct answer have text other than white space, and a group is
    selected. *)
Definition complete (c : AdminChat.t) : bool :=
  negb (blank (AdminChat.mcqQuestion c))
  && given (AdminChat.selectedMCQGroup c)
  && forallb (fun opt => negb (blank opt)) (AdminChat.mcqOptions c)
  && negb (blank (AdminChat.mcqCorrectAnswer c)).

(** The admin's chat state after a message was sent from the chat form. *)
Definition chatSent (c : AdminChat.t) (message : Message.t) : AdminChat.t :=
  {| AdminChat.messages := AdminChat.messages c ++ [message];
     AdminChat.selectedChat := AdminChat.selectedChat c;
     AdminChat.chatMessage := "";
     AdminChat.selectedMCQGroup := AdminChat.selectedMCQGroup c;
     AdminChat.mcqQuestion := AdminChat.mcqQuestion c;
     AdminChat.mcqOptions := AdminChat.mcqOptions c;
     AdminChat.mcqCorrectAnswer := AdminChat.mcqCorrectAnswer c |}.

(** The admin's chat state after a question was sent. *)
Definition questionSent (c : AdminChat.t) (message : Message.t) : AdminChat.t :=
  {| AdminChat.messages := AdminChat.messages c ++ [message];
     AdminChat.selectedChat := AdminChat.selectedChat c;
     AdminChat.chatMessage := AdminChat.chatMessage c;
     AdminChat.selectedMCQGroup := None;
     AdminChat.mcqQuestion := "";
     AdminChat.mcqOptions := [""; ""; ""; ""];
     AdminChat.mcqCorrectAnswer := "" |}.

(** The admin's question form with a correct answer that is none of the
    options (an upper-case letter for a lower-case option). *)
Definition mistypedForm : AdminChat.t :=
  AdminChat.mk [] None "" (Some "g1") "Which one?" ["a"; "b"; "c"; "d"] "B".

(** The admin logged in on a first visit. *)
Definition adminVisit : World :=
  exec (login "admin@company.com" "admin123") firstVisit.

(** The message that a portal builds in [w] for the user [u], with what
    was typed and for the group selected. *)
Definition typedMessage (u : User.t) (typed : string) (group : option string) (w : World)
  : Message.t :=
  let c := clock (browser w) in
  {| Message.id := Z_toString (values c (taken c));
     Message.senderId := User.id u;
     Message.senderName := User.name u;
     Message.content := Message.Typed typed;
     Message.type := Message.text;
     Message.timestamp := values c (S (taken c));
     Message.groupId := or_else group "" |}.

(** Bob's portal with a message typed for the group [g1]. *)
Definition bobTyping : PortalChat.t := PortalChat.mk [] "Hello".

(** The admin's chat, opened before Bob wrote, with a message typed for
    the group [g1]. *)
Definition adminTyping : AdminChat.t :=
  AdminChat.mk [] (Some "g1") "Welcome" None "" [""; ""; ""; ""] "".

(** Running the state operations of a computation. *)
Ltac run_js :=
  cbv beta iota zeta delta
    [exec eval bind ret gets modify throw try_catch try_finally
     setUser setIsLoading putAllUsers setAllUsers setGroups setNewUser setNewGroup
     setGeneratedPasswords setAddUserDialogOpen setUploadProgress setUploadResult
     setIsUploading setPasswordType setUploadFile setResponses
     console_emit console_log console_warn console_error alert setTimeout Date_now
     getItem set_systemUsers set_currentUser set_systemGroups set_systemMCQResponses
     on_auth on_admin on_portal on_browser on_storage
     getAllUsers logout fst snd
     auth admin portal browser user isLoading allUsers groups newUser newGroup
     passwordType generatedPasswords addUserDialogOpen uploadFile uploadProgress
     uploadResult isUploading responses selectedGroup localStorage console alerts
     timers clock random loadedAt systemUsers currentUser systemGroups
     systemMCQResponses values taken].

(* ================================================================== *)
(** * Properties of AuthContext.tsx                                    *)
(* ================================================================== *)

Lemma loadUsersFromStorage_spec (w : World) :
  exists c, loadUsersFromStorage w = (Normal (storedUsers w), with_console c w).
Proof.
  destruct w as [a ad po [[su cu sg sr] co al ti cl ra la]].
  unfold loadUsersFromStorage, storedUsers, with_console.
  destruct su as [[ | | v] | ]; cbn; eexists; reflexivity.
Qed.

Lemma find_unique (email : string) (us : list User.t) (u : User.t) :
  uniqueIdentity us ->
  In u us ->
  toLowerCase (User.email u) = toLowerCase email ->
  findByEmail email us = Some u.
Proof.
  unfold findByEmail.
  induction us as [ | x r IH]; intros Huniq Hin Hmail; [ contradiction | ].
  destruct Huniq as [Hx Hr]. cbn [find].
  destruct Hin as [-> | Hin].
  - unfold seq. rewrite Hmail, String.eqb_refl. reflexivity.
  - destruct (seq (toLowerCase (User.email x)) (toLowerCase email)) eqn:E.
    + apply String.eqb_eq in E.
      specialize (Hx u Hin). unfold sameIdentity, seq in Hx.
      rewrite Hmail, <- E, String.eqb_refl in Hx. discriminate.
    + apply IH; assumption.
Qed.

Lemma login_spec (email password : string) (w : World) :
  match findByEmail email (storedUsers w) with
  | Some fu =>
      if oseq (User.password fu) password then
        eval (login email password) w = Normal true /\
        user (auth (exec (login email password) w))
          = Some (User.assign fu User.no_password) /\
        currentUser (localStorage (browser (exec (login email password) w)))
          = Some (Json (User.assign fu User.no_password))
      else
        eval (login email password) w = Normal false /\
        user (auth (exec (login email password) w)) = user (auth w) /\
        localStorage (browser (exec (login email password) w)) = localStorage (browser w)
  | None =>
      eval (login email password) w = Normal false /\
      user (auth (exec (login email password) w)) = user (auth w) /\
      localStorage (browser (exec (login email password) w)) = localStorage (browser w)
  end /\
  allUsers (auth (exec (login email password) w)) = allUsers (auth w) /\
  isLoading (auth (exec (login email password) w)) = false.
Proof.
  unfold exec, eval.
  destruct (login email password w) as [r w'] eqn:E.
  unfold login in E.
  unfold bind at 1 in E. cbn [setIsLoading modify] in E.
  unfold try_catch in E. unfold bind at 1 in E.
  destruct (loadUsersFromStorage_spec
              (on_auth (fun a => mkAuth (user a) true (allUsers a)) w)) as [c Hload].
  rewrite Hload in E.
  replace (storedUsers (on_auth (fun a => mkAuth (user a) true (allUsers a)) w))
    with (storedUsers w) in E by reflexivity.
  unfold findByEmail.
  destruct w as [a ad po [[su cu sg sr] co al ti cl ra la]].
  destruct (find _ (storedUsers _)) as [fu | ].
  - destruct (oseq (User.password fu) password);
      cbn in E; injection E as <- <-; cbn; auto.
  - cbn in E; injection E as <- <-; cbn; auto.
Qed.

(** C4. With the seed admin admin@company.com / admin123 among the stored
    users, and no two stored users sharing an identity,
    [login("ADMIN@COMPANY.COM", "admin123")] returns [true]; the session it
    sets and persists is the admin record without a password; and
    [login("admin@company.com", "wrong")] returns [false]. *)
Theorem login_seed_admin (w : World) (t0 : Date) :
  incl (initialUsers t0) (storedUsers w) ->
  uniqueIdentity (storedUsers w) ->
  let w' := exec (login "ADMIN@COMPANY.COM" "admin123") w in
  eval (login "ADMIN@COMPANY.COM" "admin123") w = Normal true /\
  (exists session,
      user (auth w') = Some session /\
      currentUser (localStorage (browser w')) = Some (Json session) /\
      User.password session = None /\
      [session] = map (fun u => User.assign u User.no_password) (initialUsers t0)) /\
  eval (login "admin@company.com" "wrong") w = Normal false.
Proof.
  intros Hin Huniq w'.
  set (seed := User.mk "1" "admin@company.com" "System Admin" "+1234567890" "ADMIN001"
                       "Head Office" true [] (Some "admin123") (Some t0)
                       (Some "system") (Some t0)).
  assert (Hseed : In seed (storedUsers w)) by (apply Hin; left; reflexivity).
  assert (Hup : findByEmail "ADMIN@COMPANY.COM" (storedUsers w) = Some seed)
    by (apply find_unique; auto).
  assert (Hlo : findByEmail "admin@company.com" (storedUsers w) = Some seed)
    by (apply find_unique; auto).
  pose proof (login_spec "ADMIN@COMPANY.COM" "admin123" w) as [H1 _].
  pose proof (login_spec "admin@company.com" "wrong" w) as [H2 _].
  rewrite Hup in H1. rewrite Hlo in H2. cbn in H1, H2.
  destruct H1 as (Ht & Hu & Hc). destruct H2 as (Hf & _).
  repeat split; auto.
  exists (User.assign seed User.no_password). repeat split; auto.
Qed.

Lemma login_seed_admin_witness :
  eval (login "ADMIN@COMPANY.COM" "admin123") firstVisit = Normal true /\
  eval (login "admin@company.com" "wrong") firstVisit = Normal false.
Proof.
  destruct (login_seed_admin firstVisit 1700000000000%Z) as (H1 & _ & H2).
  - intros u Hu. exact Hu.
  - cbn. split; [ intros v [] | exact I ].
  - split; [ exact H1 | exact H2 ].
Defined.

(** C10. A login attempt that finds no user with the email, compared in
    lower case, or finds one whose password differs, returns [false] and
    leaves the user set, the session and everything persisted (the stored
    session record and the stored users) as they were. *)
Theorem failed_login_changes_nothing (email password : string) (w : World) :
  match findByEmail email (storedUsers w) with
  | Some fu => oseq (User.password fu) password = false
  | None => True
  end ->
  let w' := exec (login email password) w in
  eval (login email password) w = Normal false /\
  allUsers (auth w') = allUsers (auth w) /\
  user (auth w') = user (auth w) /\
  localStorage (browser w') = localStorage (browser w) /\
  storedUsers w' = storedUsers w.
Proof.
  intros Hfail w'.
  destruct (login_spec email password w) as (H & Hus & _).
  assert (Hgoal : eval (login email password) w = Normal false /\
                  user (auth w') = user (auth w) /\
                  localStorage (browser w') = localStorage (browser w)).
  { destruct (findByEmail email (storedUsers w)) as [fu | ].
    - rewrite Hfail in H. exact H.
    - exact H. }
  destruct Hgoal as (Hr & Hu & Hs).
  repeat split; auto.
  unfold storedUsers. rewrite Hs.
  assert (Hl : loadedAt (browser w') = loadedAt (browser w)).
  { subst w'. unfold exec.
    destruct (login email password w) as [r w1] eqn:E.
    unfold login in E.
    unfold bind at 1 in E. cbn [setIsLoading modify] in E.
    unfold try_catch in E. unfold bind at 1 in E.
    destruct (loadUsersFromStorage_spec
                (on_auth (fun a => mkAuth (user a) true (allUsers a)) w)) as [c Hload].
    rewrite Hload in E.
    destruct w as [a ad po [[su cu sg sr] co al ti cl ra la]].
    destruct (find _ (storedUsers _)) as [fu | ].
    - destruct (oseq (User.password fu) password);
        cbn in E; injection E as <- <-; reflexivity.
    - cbn in E; injection E as <- <-; reflexivity. }
  rewrite Hl. reflexivity.
Qed.

Lemma failed_login_changes_nothing_witness :
  eval (login "admin@company.com" "wrong") firstVisit = Normal false /\
  user (auth (exec (login "admin@company.com" "wrong") firstVisit)) = None.
Proof.
  destruct (failed_login_changes_nothing "admin@company.com" "wrong" firstVisit)
    as (H1 & _ & H2 & _).
  - reflexivity.
  - split; [ exact H1 | exact H2 ].
Defined.

(** C8, as stated, fails: after a read that fails, [refreshUserData] does
    not keep the users held in memory. *)
Lemma failed_read_keeps_snapshot_counterexample :
  readFails corruptVisit /\
  allUsers (auth (exec refreshUserData corruptVisit)) <> allUsers (auth corruptVisit).
Proof.
  split; [ exact I | ].
  cbn. discriminate.
Qed.

(** C8, amended. A read of the users partition that fails (the key is
    missing, or its text is empty or is not JSON) does not throw:
    [loadUsersFromStorage] returns the initial users, [refreshUserData]
    makes them the users held in memory, and the console gets an error
    entry for a text that does not parse and only log entries otherwise. *)
Theorem failed_read_falls_back_to_initial_users (w : World) :
  readFails w ->
  eval loadUsersFromStorage w = Normal (initialUsers (loadedAt (browser w))) /\
  eval refreshUserData w = Normal tt /\
  allUsers (auth (exec refreshUserData w)) = initialUsers (loadedAt (browser w)) /\
  console (browser (exec loadUsersFromStorage w))
    = console (browser w) ++
      match systemUsers (localStorage (browser w)) with
      | Some Garbled =>
          [(Log, "Raw localStorage data:"); (Error, "Error loading users from storage:")]
      | _ =>
          [(Log, "Raw localStorage data:");
           (Log, "No users in storage, returning initial users")]
      end.
Proof.
  intros Hfail.
  destruct w as [a ad po [[su cu sg sr] co al ti cl ra la]].
  unfold readFails in Hfail. cbn in Hfail.
  destruct su as [[ | | v] | ]; try contradiction; cbn;
    rewrite <- ?app_assoc; repeat split; reflexivity.
Qed.

Lemma failed_read_falls_back_to_initial_users_witness :
  allUsers (auth (exec refreshUserData corruptVisit)) = initialUsers 1700000000000%Z.
Proof.
  destruct (failed_read_falls_back_to_initial_users corruptVisit) as (_ & _ & H & _).
  - exact I.
  - exact H.
Defined.

(** ** The user store *)

Lemma sameIdentity_clash (a b : User.t) :
  sameIdentity a b = clash (identityOf a) (identityOf b).
Proof. reflexivity. Qed.

Lemma clash_sym (a b : string * string) : clash a b = clash b a.
Proof.
  unfold clash, seq.
  rewrite (String.eqb_sym (fst b)), (String.eqb_sym (snd b)). reflexivity.
Qed.

Lemma uniqueIdentity_keys (l : list User.t) :
  uniqueIdentity l <-> uniqueKeys (map identityOf l).
Proof.
  induction l as [ | u r IH]; cbn; [ tauto | ].
  rewrite IH. split; intros [H1 H2]; split; auto.
  - intros k' Hk'. apply in_map_iff in Hk' as (v & <- & Hv).
    rewrite <- sameIdentity_clash. auto.
  - intros v Hv. rewrite sameIdentity_clash. apply H1. apply in_map. exact Hv.
Qed.

Lemma uniqueKeys_app (l1 l2 : list (string * string)) :
  uniqueKeys (l1 ++ l2) <->
  uniqueKeys l1 /\ uniqueKeys l2 /\
  (forall a b, In a l1 -> In b l2 -> clash a b = false).
Proof.
  induction l1 as [ | k r IH]; cbn.
  - split; [ intros H; repeat split; auto; intros a b [] | tauto ].
  - rewrite IH. split.
    + intros (Hk & Hr & H2 & Hx). repeat split; auto.
      * intros k' Hk'. apply Hk. apply in_or_app. left. exact Hk'.
      * intros a b [<- | Ha] Hb; [ apply Hk; apply in_or_app; right; exact Hb | auto ].
    + intros ((Hk & Hr) & H2 & Hx). repeat split; auto.
      intros k' Hk'. apply in_app_or in Hk' as [Hk' | Hk']; auto.
Qed.

Lemma existsb_sameIdentity_false (x : User.t) (l : list User.t) :
  existsb (sameIdentity x) l = false <->
  (forall k, In k (map identityOf l) -> clash k (identityOf x) = false).
Proof.
  split.
  - intros H k Hk. apply in_map_iff in Hk as (v & <- & Hv).
    rewrite clash_sym, <- sameIdentity_clash.
    destruct (sameIdentity x v) eqn:E; [ | reflexivity ].
    assert (existsb (sameIdentity x) l = true)
      by (apply existsb_exists; exists v; auto).
    congruence.
  - intros H. destruct (existsb (sameIdentity x) l) eqn:E; [ | reflexivity ].
    apply existsb_exists in E as (v & Hv & Hs).
    rewrite sameIdentity_clash, clash_sym in Hs.
    rewrite H in Hs; [ discriminate | apply in_map; exact Hv ].
Qed.

Lemma stampAll_keys (vals : nat -> Date) (k : nat) (l : list User.t) :
  map identityOf (stampAll vals k l) = map identityOf l.
Proof.
  revert k. induction l as [ | u r IH]; intros k; cbn; [ | rewrite IH ]; reflexivity.
Qed.

Lemma stampAll_length (vals : nat -> Date) (k : nat) (l : list User.t) :
  List.length (stampAll vals k l) = List.length l.
Proof.
  revert k. induction l as [ | u r IH]; intros k; cbn; [ | rewrite IH ]; reflexivity.
Qed.

Lemma stampAll_groups (vals : nat -> Date) (k : nat) (l : list User.t) (v : User.t) :
  In v (stampAll vals k l) ->
  exists u, In u l /\ User.id v = User.id u /\ User.groups v = User.groups u.
Proof.
  revert k. induction l as [ | u r IH]; intros k; cbn; [ contradiction | ].
  intros [<- | Hv].
  - exists u. auto.
  - destruct (IH _ Hv) as (u' & Hu' & Hid). exists u'. auto.
Qed.

Lemma mapM_stamp (l : list User.t) (w : World) :
  mapM (fun u => now <- Date_now ;; ret (User.assign u (User.only_createdAt now))) l w
  = (Normal (stampAll (values (clock (browser w))) (taken (clock (browser w))) l),
     tick (List.length l) w).
Proof.
  revert w. induction l as [ | u r IH]; intros w.
  - destruct w as [a ad po [st co al ti [cv ct] ra la]]. reflexivity.
  - cbn [mapM]. unfold bind at 1. unfold bind at 1. cbn [Date_now ret].
    unfold bind at 1. rewrite IH.
    destruct w as [a ad po [st co al ti [cv ct] ra la]]. cbn.
    unfold tick, on_browser. cbn. rewrite Nat.add_succ_r. reflexivity.
Qed.

Lemma addUser_users (u : User.t) (w : World) :
  allUsers (auth (exec (addUser u) w)) =
  if existsb (sameIdentity u) (allUsers (auth w)) then allUsers (auth w)
  else allUsers (auth w) ++
       [User.assign u (User.only_createdAt
                         (values (clock (browser w)) (taken (clock (browser w)))))].
Proof.
  destruct w as [a ad po [st co al ti [cv ct] ra la]].
  unfold exec, addUser, setAllUsers. unfold bind at 1. cbn [gets auth allUsers].
  destruct (existsb (sameIdentity u) (allUsers a)); reflexivity.
Qed.

Lemma addUsers_users (new : list User.t) (w : World) :
  allUsers (auth (exec (addUsers new) w)) =
  allUsers (auth w) ++
  stampAll (values (clock (browser w))) (taken (clock (browser w)))
    (filter (fun n => negb (existsb (sameIdentity n) (allUsers (auth w)))) new).
Proof.
  unfold exec, addUsers, setAllUsers. unfold bind at 1. cbn [gets].
  unfold bind at 1. unfold bind at 1. rewrite mapM_stamp.
  destruct w as [a ad po [st co al ti [cv ct] ra la]]. reflexivity.
Qed.

(** [addUsers] appends, in the order of the drafts, those that share no
    identity with a user of the store, and leaves the others out. *)
Lemma addUsers_created (new : list User.t) (w : World) :
  let fresh n := negb (existsb (sameIdentity n) (allUsers (auth w))) in
  exists created,
    allUsers (auth (exec (addUsers new) w)) = allUsers (auth w) ++ created /\
    map identityOf created = map identityOf (filter fresh new) /\
    map User.id created = map User.id (filter fresh new) /\
    (List.length created + List.length (filter (fun n => negb (fresh n)) new)
     = List.length new)%nat.
Proof.
  cbv zeta. rewrite addUsers_users. eexists. split; [ reflexivity | ].
  split; [ apply stampAll_keys | split ].
  - generalize (taken (clock (browser w))).
    induction (filter _ new) as [ | u r IH]; intros k; cbn; [ | rewrite IH ]; reflexivity.
  - rewrite stampAll_length.
    induction new as [ | n r IH]; cbn; [ reflexivity | ].
    destruct (existsb (sameIdentity n) (allUsers (auth w))); cbn; lia.
Qed.

Lemma updateUser_users (userId : string) (updates : User.partial) (w : World) :
  allUsers (auth (exec (updateUser userId updates) w)) =
  map (fun u => if seq (User.id u) userId then User.assign u updates else u)
      (allUsers (auth w)).
Proof.
  destruct w as [a ad po br]. reflexivity.
Qed.

(** C1, as stated, fails: [updateUser] can give a user the email of
    another one. *)
Lemma uniqueness_invariant_counterexample :
  let w := exec (runRepoOp (UpdateUser "2" (User.only_email "Admin@Company.com")))
             (exec (runRepoOp (AddUser bob)) firstVisit) in
  uniqueIdentity (allUsers (auth firstVisit)) /\
  reachableBy (fun _ => True) firstVisit w /\
  ~ uniqueIdentity (allUsers (auth w)).
Proof.
  cbv zeta. split; [ | split ].
  - cbn. split; [ intros v [] | exact I ].
  - apply reach_step; [ apply reach_step; [ apply reach_start | exact I ] | exact I ].
  - cbn. intros [H _].
    specialize (H _ (or_introl eq_refl)). discriminate H.
Qed.

Lemma keepsIdentity_step (op : RepoOp) (w : World) :
  keepsIdentity op ->
  uniqueIdentity (allUsers (auth w)) ->
  uniqueIdentity (allUsers (auth (exec (runRepoOp op) w))).
Proof.
  intros Hop Huniq. destruct op as [u | us | userId updates]; cbn [runRepoOp].
  - rewrite addUser_users.
    destruct (existsb (sameIdentity u) (allUsers (auth w))) eqn:E; [ exact Huniq | ].
    apply uniqueIdentity_keys. rewrite map_app. apply uniqueKeys_app.
    apply uniqueIdentity_keys in Huniq.
    split; [ exact Huniq | split ].
    + cbn. split; [ intros k' [] | exact I ].
    + intros a b Ha [<- | []].
      apply (proj1 (existsb_sameIdentity_false u _) E). exact Ha.
  - rewrite addUsers_users.
    apply uniqueIdentity_keys. rewrite map_app, stampAll_keys. apply uniqueKeys_app.
    split; [ apply uniqueIdentity_keys; exact Huniq | split ].
    + cbn in Hop. clear Huniq.
      induction us as [ | x r IH]; cbn; [ exact I | ].
      destruct Hop as [Hx Hr].
      destruct (negb (existsb (sameIdentity x) (allUsers (auth w)))); cbn; auto.
      split; auto.
      intros k' Hk'. apply in_map_iff in Hk' as (v & <- & Hv).
      apply filter_In in Hv as [Hv _].
      rewrite <- sameIdentity_clash. auto.
    + intros a b Ha Hb. apply in_map_iff in Hb as (v & <- & Hv).
      apply filter_In in Hv as [_ Hv]. apply negb_true_iff in Hv.
      apply (proj1 (existsb_sameIdentity_false v _) Hv). exact Ha.
  - rewrite updateUser_users. destruct Hop as [He Hi].
    apply uniqueIdentity_keys. rewrite map_map.
    apply uniqueIdentity_keys in Huniq.
    erewrite map_ext; [ exact Huniq | ].
    intros u. cbn. destruct (seq (User.id u) userId); [ | reflexivity ].
    unfold identityOf, User.assign. cbn. rewrite He, Hi. reflexivity.
Qed.

(** C1, amended. From a store in which no two users share a normalized
    email or an employee id, every state reached through [addUser],
    through [addUsers] with drafts that share no identity among themselves,
    and through [updateUser] with updates that carry neither an email nor an
    employee id, is again such a store. *)
Theorem uniqueness_invariant (w0 w : World) :
  uniqueIdentity (allUsers (auth w0)) ->
  reachableBy keepsIdentity w0 w ->
  uniqueIdentity (allUsers (auth w)).
Proof.
  intros H0 Hreach. induction Hreach as [ | w op Hreach IH Hop]; [ exact H0 | ].
  apply keepsIdentity_step; assumption.
Qed.

Lemma uniqueness_invariant_witness :
  uniqueIdentity
    (allUsers (auth (exec (runRepoOp (AddUsers [bob; carol]))
                       (exec (runRepoOp (AddUser bob)) firstVisit)))).
Proof.
  apply (uniqueness_invariant firstVisit).
  - cbn. split; [ intros v [] | exact I ].
  - apply reach_step; [ apply reach_step; [ apply reach_start | exact I ] | ].
    cbn. split; [ intros v [<- | []]; reflexivity | ].
    split; [ intros v [] | exact I ].
Defined.

(* ================================================================== *)
(** * Properties of PasswordGenerator.tsx                              *)
(* ================================================================== *)

Lemma floor_scaled_range (r : Q) (n : nat) :
  (0 <= r)%Q -> (r < 1)%Q -> (0 < n)%nat ->
  (0 <= floor_scaled r n < Z.of_nat n)%Z.
Proof.
  intros H0 H1 Hn. unfold floor_scaled.
  assert (Hpos : (0 < inject_Z (Z.of_nat n))%Q)
    by (rewrite <- (Zlt_Qlt 0); lia).
  split.
  - change 0%Z with (Qfloor 0). apply Qfloor_resp_le.
    apply Qmult_le_0_compat; [ exact H0 | apply Qlt_le_weak; exact Hpos ].
  - rewrite Zlt_Qlt.
    eapply Qle_lt_trans; [ apply Qfloor_le | ].
    rewrite <- (Qmult_1_l (inject_Z (Z.of_nat n))) at 2.
    apply Qmult_lt_compat_r; assumption.
Qed.

Lemma get_in (s : string) (i : nat) :
  (i < String.length s)%nat ->
  exists c, String.get i s = Some c /\ In c (list_ascii_of_string s).
Proof.
  revert i. induction s as [ | a r IH]; intros i Hi; cbn in *; [ lia | ].
  destruct i as [ | i].
  - exists a. auto.
  - destruct (IH i) as (c & Hc & Hin); [ lia | ]. exists c. auto.
Qed.

Lemma pick_spec (chars : string) (o : Oracle Q) :
  unitRandom o -> (0 < String.length chars)%nat ->
  exists c, pick chars o = (Some c, next o) /\ In c (list_ascii_of_string chars).
Proof.
  intros Hr Hlen. unfold pick, rbind, Math_random, rret, next.
  destruct (Hr (taken o)) as [H0 H1].
  pose proof (floor_scaled_range _ _ H0 H1 Hlen) as [Hlo Hhi].
  unfold charAt.
  destruct (Z.ltb_spec (floor_scaled (values o (taken o)) (String.length chars)) 0);
    [ lia | ].
  destruct (get_in chars
              (Z.to_nat (floor_scaled (values o (taken o)) (String.length chars))))
    as (c & Hc & Hin); [ lia | ].
  exists c. rewrite Hc. auto.
Qed.

Lemma unitRandom_next (o : Oracle Q) : unitRandom o -> unitRandom (next o).
Proof. intros H i. apply H. Qed.

Lemma list_ascii_app (s1 s2 : string) :
  list_ascii_of_string (s1 ++ s2)
  = list_ascii_of_string s1 ++ list_ascii_of_string s2.
Proof. induction s1 as [ | a r IH]; cbn; [ | rewrite IH ]; reflexivity. Qed.

Lemma fill_spec (n : nat) (password : string) (o : Oracle Q) :
  unitRandom o ->
  exists rest o',
    fill n password o = (string_of_list_ascii rest, o') /\
    exists tail,
      rest = list_ascii_of_string password ++ tail /\ List.length tail = n.
Proof.
  revert password o. induction n as [ | n IH]; intros password o Hr; cbn [fill].
  - exists (list_ascii_of_string password), o. unfold rret.
    rewrite string_of_list_ascii_of_string. split; [ reflexivity | ].
    exists []. rewrite app_nil_r. auto.
  - unfold rbind.
    destruct (pick_spec allChars o Hr) as (c & Hp & _); [ cbn; lia | ].
    rewrite Hp.
    destruct (IH (append_char password (Some c)) (next o) (unitRandom_next _ Hr))
      as (rest & o' & Hf & tail & Hrest & Hlen).
    exists rest, o'. split; [ exact Hf | ].
    exists (c :: tail). split; [ | cbn; lia ].
    rewrite Hrest. cbn [append_char]. rewrite list_ascii_app, <- app_assoc.
    reflexivity.
Qed.

Lemma lowercase_class (c : ascii) :
  In c (list_ascii_of_string lowercase) -> is_lower c = true.
Proof. cbn. intros H. repeat destruct H as [<- | H]; try reflexivity. contradiction. Qed.

Lemma uppercase_class (c : ascii) :
  In c (list_ascii_of_string uppercase) -> is_upper c = true.
Proof. cbn. intros H. repeat destruct H as [<- | H]; try reflexivity. contradiction. Qed.

Lemma numbers_class (c : ascii) :
  In c (list_ascii_of_string numbers) -> is_digit c = true.
Proof. cbn. intros H. repeat destruct H as [<- | H]; try reflexivity. contradiction. Qed.

Lemma symbols_class (c : ascii) :
  In c (list_ascii_of_string symbols) -> is_symbol c = true.
Proof.
  intros H. unfold is_symbol. apply existsb_exists. exists c.
  split; [ exact H | apply Ascii.eqb_refl ].
Qed.

Lemma string_length_list (l : list ascii) :
  String.length (string_of_list_ascii l) = List.length l.
Proof. induction l as [ | a r IH]; cbn; [ | rewrite IH ]; reflexivity. Qed.

(** C9. Whatever values in [[0, 1)] the random source gives, and whatever
    rearrangement the engine's sort makes, [generateSecurePassword(12)] has
    exactly 12 characters, among them a lowercase letter, an uppercase
    letter, a digit and a symbol. *)
Theorem generateSecurePassword_classes (engine : ArraySort) (o : Oracle Q) :
  unitRandom o ->
  let password := list_ascii_of_string (fst (generateSecurePassword 12 o)) in
  String.length (fst (generateSecurePassword 12 o)) = 12%nat /\
  existsb is_lower password = true /\
  existsb is_upper password = true /\
  existsb is_digit password = true /\
  existsb is_symbol password = true.
Proof.
  intros Hr. cbv zeta.
  unfold generateSecurePassword, rbind.
  destruct (pick_spec lowercase o Hr) as (c1 & -> & H1); [ cbn; lia | ].
  pose proof (unitRandom_next _ Hr) as Hr1.
  destruct (pick_spec uppercase _ Hr1) as (c2 & -> & H2); [ cbn; lia | ].
  pose proof (unitRandom_next _ Hr1) as Hr2.
  destruct (pick_spec numbers _ Hr2) as (c3 & -> & H3); [ cbn; lia | ].
  pose proof (unitRandom_next _ Hr2) as Hr3.
  destruct (pick_spec symbols _ Hr3) as (c4 & -> & H4); [ cbn; lia | ].
  pose proof (unitRandom_next _ Hr3) as Hr4.
  cbn [append_char Nat.sub].
  destruct (fill_spec 8
              ((((("" ++ String c1 "") ++ String c2 "") ++ String c3 "")
                  ++ String c4 "")%string)
              _ Hr4) as (rest & o5 & -> & tail & Hrest & Hlen).
  cbn in Hrest.
  rewrite list_ascii_of_string_of_list_ascii.
  pose proof (Array_sort_perm ascii
                (fun _ _ o0 => let (a, o') := Math_random o0 in rret (a - (1 # 2)) o')
                rest o5) as Hperm.
  destruct (Array_sort _ rest o5) as [shuffled o6]. cbn [fst] in *.
  unfold rret. cbn [fst].
  rewrite list_ascii_of_string_of_list_ascii, string_length_list.
  split; [ | repeat split ].
  - rewrite <- (Permutation_length Hperm), Hrest. cbn. rewrite Hlen. reflexivity.
  - apply existsb_exists. exists c1. split; [ | apply lowercase_class; exact H1 ].
    apply (Permutation_in _ Hperm). rewrite Hrest. cbn. auto.
  - apply existsb_exists. exists c2. split; [ | apply uppercase_class; exact H2 ].
    apply (Permutation_in _ Hperm). rewrite Hrest. cbn. auto.
  - apply existsb_exists. exists c3. split; [ | apply numbers_class; exact H3 ].
    apply (Permutation_in _ Hperm). rewrite Hrest. cbn. auto.
  - apply existsb_exists. exists c4. split; [ | apply symbols_class; exact H4 ].
    apply (Permutation_in _ Hperm). rewrite Hrest. cbn. auto.
Qed.

Lemma generateSecurePassword_classes_witness :
  let o := mkOracle (fun n => Z.of_nat (n mod 7) # 7) 0 in
  let password :=
    list_ascii_of_string (fst (@generateSecurePassword insertionEngine 12 o)) in
  String.length (fst (@generateSecurePassword insertionEngine 12 o)) = 12%nat /\
  existsb is_lower password = true /\
  existsb is_upper password = true /\
  existsb is_digit password = true /\
  existsb is_symbol password = true.
Proof.
  apply (generateSecurePassword_classes insertionEngine).
  intros i. cbn [values]. unfold Qle, Qlt. cbn [Qnum Qden].
  assert (H : (i mod 7 < 7)%nat) by (apply Nat.mod_upper_bound; discriminate).
  split; lia.
Defined.

(* ================================================================== *)
(** * Properties of UserPortal.tsx                                     *)
(* ================================================================== *)

Lemma find_existsb {A} (p : A -> bool) (l : list A) :
  existsb p l = true -> exists x, find p l = Some x.
Proof.
  induction l as [ | a r IH]; cbn; [ discriminate | ].
  destruct (p a); [ eauto | exact IH ].
Qed.

Lemma find_none_count {A} (p : A -> bool) (l : list A) :
  find p l = None -> filter p l = [].
Proof.
  induction l as [ | a r IH]; cbn; [ reflexivity | ].
  destruct (p a); [ discriminate | exact IH ].
Qed.

Lemma handleMCQAnswer_answered (messageId selectedOption : string)
      (mcqData : MCQQuestion.t) (u : User.t) (w : World) :
  user (auth w) = Some u ->
  existsb (answers messageId (Some (User.id u))) (responses (portal w)) = true ->
  exec (handleMCQAnswer messageId selectedOption mcqData) w
  = with_console (console (browser w) ++ [(Log, "User has already answered this question")]) w.
Proof.
  intros Hu Hex. apply find_existsb in Hex as (r & Hr).
  destruct w as [[us il al] ad [rs sg] [st co alerts ti cl ra la]].
  cbn in Hu, Hr. subst us.
  unfold exec, handleMCQAnswer. unfold bind at 1. cbn [gets auth user].
  unfold bind at 1. cbn [gets portal responses]. rewrite Hr. reflexivity.
Qed.

Lemma handleMCQAnswer_first (messageId selectedOption : string)
      (mcqData : MCQQuestion.t) (u : User.t) (w : World) :
  user (auth w) = Some u ->
  existsb (answers messageId (Some (User.id u))) (responses (portal w)) = false ->
  exists r,
    responses (portal (exec (handleMCQAnswer messageId selectedOption mcqData) w))
      = responses (portal w) ++ [r] /\
    MCQResponse.messageId r = messageId /\
    MCQResponse.userId r = User.id u /\
    MCQResponse.selectedAnswer r = selectedOption /\
    MCQResponse.isCorrect r = seq selectedOption (MCQQuestion.correctAnswer mcqData).
Proof.
  intros Hu Hex.
  assert (Hr : find (answers messageId (Some (User.id u))) (responses (portal w)) = None).
  { destruct (find _ _) as [r | ] eqn:E; [ | reflexivity ].
    apply find_some in E as [Hin Hans].
    assert (existsb (answers messageId (Some (User.id u))) (responses (portal w)) = true)
      by (apply existsb_exists; eauto).
    congruence. }
  destruct w as [[us il al] ad [rs sg] [st co alerts ti [cv ct] ra la]].
  cbn in Hu, Hr. subst us.
  unfold exec, handleMCQAnswer. unfold bind at 1. cbn [gets auth user].
  unfold bind at 1. cbn [gets portal responses]. rewrite Hr.
  eexists. cbn. repeat split; reflexivity.
Qed.

(** Answering keeps at most one response for every pair. *)
Lemma handleMCQAnswer_atMostOne (messageId selectedOption : string)
      (mcqData : MCQQuestion.t) (w : World) :
  atMostOneResponse (responses (portal w)) ->
  atMostOneResponse
    (responses (portal (exec (handleMCQAnswer messageId selectedOption mcqData) w))).
Proof.
  intros Hinv.
  destruct (user (auth w)) as [u | ] eqn:Hu.
  - destruct (existsb (answers messageId (Some (User.id u))) (responses (portal w)))
      eqn:Hex.
    + rewrite (handleMCQAnswer_answered _ selectedOption mcqData u w Hu Hex).
      destruct w as [a ad po br]. exact Hinv.
    + destruct (handleMCQAnswer_first _ selectedOption mcqData u w Hu Hex)
        as (r & -> & Hm & Hi & _).
      intros m i. unfold responseCount. rewrite filter_app, length_app. cbn [filter].
      destruct (answers m (Some i) r) eqn:Ea.
      * unfold answers, seq in Ea. apply andb_true_iff in Ea as [E1 E2].
        apply String.eqb_eq in E1, E2. rewrite Hm in E1. rewrite Hi in E2. subst m i.
        assert (Hnone : filter (answers messageId (Some (User.id u)))
                               (responses (portal w)) = []).
        { apply find_none_count.
          destruct (find _ _) as [x | ] eqn:E; [ | reflexivity ].
          apply find_some in E as [Hin Hans].
          assert (existsb (answers messageId (Some (User.id u)))
                          (responses (portal w)) = true)
            by (apply existsb_exists; eauto).
          congruence. }
        rewrite Hnone. cbn. lia.
      * cbn. rewrite Nat.add_0_r. apply Hinv.
  - destruct w as [[us il al] ad po br]. cbn in Hu. subst us. exact Hinv.
Qed.

(** C3, as stated, fails for the stored responses: [handleMCQAnswer] looks
    for an earlier answer among the responses the portal holds in memory
    only.  A first answer that is stored and that the portal has not loaded
    is not seen, and the second answer takes its place in the store. *)
Lemma second_answer_overwrites_stored_first_counterexample :
  let seen (w : World) :=
    option_map (fun rs => (responseCount "m1" "2" rs,
                           map MCQResponse.selectedAnswer rs,
                           map MCQResponse.isCorrect rs))
               (storedResponses w) in
  seen staleVisit = Some (1%nat, ["B"], [true]) /\
  seen (exec (handleMCQAnswer "m1" "A" (MCQQuestion.mk "Which one?" ["A"; "B"] "B"))
             staleVisit)
  = Some (1%nat, ["A"], [false]).
Proof. cbv zeta. split; vm_compute; reflexivity. Qed.

(** C3, amended. When the responses that the portal holds in memory have
    at most one response for every pair and hold an answer of the user of
    the session to the message, answering it again changes no response,
    stored or in memory: the number of responses of the pair stays 1, and
    the response found for the pair, with its selected answer and its
    correctness, is the first one. *)
Theorem second_answer_is_ignored (messageId selectedOption : string)
        (mcqData : MCQQuestion.t) (u : User.t) (w : World) :
  user (auth w) = Some u ->
  atMostOneResponse (responses (portal w)) ->
  existsb (answers messageId (Some (User.id u))) (responses (portal w)) = true ->
  let w' := exec (handleMCQAnswer messageId selectedOption mcqData) w in
  responseCount messageId (User.id u) (responses (portal w')) = 1%nat /\
  responses (portal w') = responses (portal w) /\
  systemMCQResponses (localStorage (browser w'))
    = systemMCQResponses (localStorage (browser w)) /\
  eval (getUserResponse messageId) w' = eval (getUserResponse messageId) w /\
  exists first,
    eval (getUserResponse messageId) w' = Normal (Some first) /\
    find (answers messageId (Some (User.id u))) (responses (portal w)) = Some first.
Proof.
  intros Hu Hinv Hex w'. subst w'.
  rewrite (handleMCQAnswer_answered _ selectedOption mcqData u w Hu Hex).
  pose proof (find_existsb _ _ Hex) as (first & Hfirst).
  assert (Hcount : responseCount messageId (User.id u) (responses (portal w)) = 1%nat).
  { specialize (Hinv messageId (User.id u)).
    apply find_some in Hfirst as [Hin Hans].
    assert (Hf : In first (filter (answers messageId (Some (User.id u)))
                                  (responses (portal w))))
      by (apply filter_In; auto).
    unfold responseCount in *.
    destruct (filter _ _) as [ | x r]; [ contradiction | cbn in *; lia ]. }
  destruct w as [[us il al] ad [rs sg] [st co alerts ti cl ra la]].
  cbn in Hu, Hfirst, Hcount |- *. subst us.
  repeat split; auto.
  exists first. cbn. rewrite Hfirst. auto.
Qed.

Lemma second_answer_is_ignored_witness :
  responseCount "m1" "2"
    (responses (portal (exec (handleMCQAnswer "m1" "A"
                                 (MCQQuestion.mk "Which one?" ["A"; "B"] "B"))
                             answeredVisit))) = 1%nat.
Proof.
  destruct (second_answer_is_ignored "m1" "A" (MCQQuestion.mk "Which one?" ["A"; "B"] "B")
              (User.assign bob User.no_password) answeredVisit) as (H & _).
  - reflexivity.
  - intros m i. unfold responseCount. cbn.
    destruct (answers m (Some i) _); cbn; lia.
  - reflexivity.
  - exact H.
Defined.

(* ================================================================== *)
(** * Properties of AdminPortal.tsx                                    *)
(* ================================================================== *)

Lemma filter_not_in (userId : string) (ms : list string) :
  ~ In userId (filter (fun m => negb (seq m userId)) ms).
Proof.
  intros H. apply filter_In in H as [_ H].
  unfold seq in H. rewrite String.eqb_refl in H. discriminate.
Qed.


(** C7. Deleting a user (the admin confirms) removes the id from the member
    list of every group and the user from the user set in one step; when
    the id is the one of the session, the session is ended and its stored
    record removed; otherwise the session stays. *)
Theorem delete_user_cascades (userId : string) (w : World) :
  let w' := exec (handleDeleteUser true userId) w in
  groups (admin w') = map (without userId) (groups (admin w)) /\
  (forall g, In g (groups (admin w')) -> ~ In userId (Group.members g)) /\
  allUsers (auth w')
    = filter (fun u => negb (seq (User.id u) userId)) (allUsers (auth w)) /\
  (forall u, In u (allUsers (auth w')) -> User.id u <> userId) /\
  match user (auth w) with
  | Some u =>
      if seq (User.id u) userId
      then user (auth w') = None /\ currentUser (localStorage (browser w')) = None
      else user (auth w') = Some u
  | None => user (auth w') = None
  end.
Proof.
  cbv zeta.
  assert (Hg : groups (admin (exec (handleDeleteUser true userId) w))
               = map (without userId) (groups (admin w))).
  { destruct w as [[[u | ] il us] [gs nu ng pt gp ad uf up ur iu] po br];
      unfold handleDeleteUser, deleteUser; run_js;
      [ destruct (seq (User.id u) userId) | ]; reflexivity. }
  assert (Hu : allUsers (auth (exec (handleDeleteUser true userId) w))
               = filter (fun u => negb (seq (User.id u) userId)) (allUsers (auth w))).
  { destruct w as [[[u | ] il us] [gs nu ng pt gp ad uf up ur iu] po br];
      unfold handleDeleteUser, deleteUser; run_js;
      [ destruct (seq (User.id u) userId) | ]; reflexivity. }
  split; [ exact Hg | split; [ | split; [ exact Hu | split ] ] ].
  - rewrite Hg. intros g Hin. apply in_map_iff in Hin as (g0 & <- & _).
    apply filter_not_in.
  - rewrite Hu. intros u Hin. apply filter_In in Hin as [_ Hne].
    apply negb_true_iff in Hne. apply String.eqb_neq. exact Hne.
  - destruct w as [[[u | ] il us] [gs nu ng pt gp ad uf up ur iu] po
                     [[su cu sg sr] co al ti cl ra la]];
      unfold handleDeleteUser, deleteUser; run_js;
      [ destruct (seq (User.id u) userId); auto | reflexivity ].
Qed.

Lemma delete_user_cascades_witness :
  let w' := exec (handleDeleteUser true "2") twoGroupsVisit in
  (forall g, In g (groups (admin w')) -> ~ In "2" (Group.members g)) /\
  user (auth w') = None /\
  currentUser (localStorage (browser w')) = None.
Proof.
  cbv zeta.
  destruct (delete_user_cascades "2" twoGroupsVisit) as (_ & Hg & _ & _ & Hs).
  split; [ exact Hg | exact Hs ].
Defined.

Example delete_user_in_two_groups :
  let w' := exec (handleDeleteUser true "2") twoGroupsVisit in
  map Group.members (groups (admin w')) = [[]; ["3"]] /\
  map User.id (allUsers (auth w')) = ["1"; "3"] /\
  user (auth w') = None /\
  currentUser (localStorage (browser w')) = None.
Proof. cbn. repeat split; reflexivity. Qed.

(** ** Creating a user *)

Lemma generatePassword_run (engine : ArraySort) (t : PasswordType) (w : World) :
  exists p o, generatePassword t w = (Normal p, with_random o w).
Proof.
  destruct t; unfold generatePassword, liftRand.
  - destruct (generateSimplePassword (random (browser w))) as [p o].
    exists p, o. reflexivity.
  - destruct (generateSecurePassword 12 (random (browser w))) as [p o].
    exists p, o. reflexivity.
Qed.

Lemma find_either_none {A} (p q : A -> bool) (l : list A) :
  existsb (fun x => p x || q x) l = false ->
  find p l = None /\ find q l = None.
Proof.
  induction l as [ | a r IH]; cbn; [ auto | ].
  intros H. apply orb_false_iff in H as [Ha Hr]. apply orb_false_iff in Ha as [-> ->].
  auto.
Qed.

Lemma find_either_some {A} (p q : A -> bool) (l : list A) :
  existsb (fun x => p x || q x) l = true ->
  (exists x, find p l = Some x) \/ (find p l = None /\ exists x, find q l = Some x).
Proof.
  intros H. destruct (find p l) as [x | ] eqn:Ep; [ left; eauto | right ].
  split; [ reflexivity | ].
  apply find_existsb. apply existsb_exists in H as (x & Hin & Hx).
  apply existsb_exists. exists x. split; [ exact Hin | ].
  apply orb_true_iff in Hx as [Hx | Hx]; [ | exact Hx ].
  pose proof (find_none _ _ Ep x Hin). congruence.
Qed.

Lemma handleCreateUser_spec (engine : ArraySort) (w : World) :
  let w' := exec handleCreateUser w in
  let d := newUser (admin w) in
  groups (admin w') = groups (admin w) /\
  user (auth w') = user (auth w) /\
  if formClashes d (allUsers (auth w)) then
    allUsers (auth w') = allUsers (auth w) /\
    newUser (admin w') = d /\
    localStorage (browser w') = localStorage (browser w) /\
    alerts (browser w')
      = alerts (browser w) ++ ["User with this email or employee ID already exists!"]
  else
    alerts (browser w') = alerts (browser w) /\
    newUser (admin w') = NewUser.blank /\
    exists created,
      allUsers (auth w') = allUsers (auth w) ++ [created] /\
      User.email created = NewUser.email d /\
      User.employeeId created = NewUser.employeeId d /\
      User.groups created = [] /\
      User.id created
        = Z_toString (values (clock (browser w)) (taken (clock (browser w)))).
Proof.
  destruct w as [[se il us] [gs d ng pt gp ad uf up ur iu] po
                 [[su cu sg sr] co al ti [cv ct] ra la]].
  cbv zeta.
  cbn [admin newUser auth allUsers browser alerts clock values taken groups user
       localStorage].
  destruct (formClashes d us) eqn:Hclash.
  - unfold formClashes in Hclash.
    apply find_either_some in Hclash as [(x & Hx) | (Hn & x & Hx)];
      unfold handleCreateUser, getUserByEmail, getUserByEmployeeId; run_js;
      [ rewrite Hx | rewrite Hn, Hx ]; repeat split; reflexivity.
  - pose proof Hclash as Hfind. unfold formClashes in Hfind.
    apply find_either_none in Hfind as [Hn1 Hn2].
    unfold handleCreateUser, getUserByEmail, getUserByEmployeeId; run_js.
    rewrite Hn1, Hn2.
    match goal with
    | |- context [generatePassword ?t ?w0] =>
        destruct (generatePassword_run engine t w0) as (p & o & ->)
    end.
    unfold with_random, addUser. run_js.
    match goal with
    | |- context [existsb (sameIdentity ?nu) us] =>
        change (existsb (sameIdentity nu) us) with (formClashes d us)
    end.
    rewrite Hclash. cbn.
    repeat split; auto. eexists. repeat split; reflexivity.
Qed.

Lemma submitUserForm_exec (engine : ArraySort) (d : NewUser.t) (w : World) :
  exec (submitUserForm d) w = exec handleCreateUser (exec (setNewUser d) w).
Proof. reflexivity. Qed.

Lemma setNewUser_frame (d : NewUser.t) (w : World) :
  newUser (admin (exec (setNewUser d) w)) = d /\
  auth (exec (setNewUser d) w) = auth w /\
  browser (exec (setNewUser d) w) = browser w /\
  groups (admin (exec (setNewUser d) w)) = groups (admin w).
Proof. destruct w as [a [gs d0 ng pt gp ad uf up ur iu] po br]. cbn. auto. Qed.

Lemma formClashes_last (d1 d2 : NewUser.t) (us : list User.t) (created : User.t) :
  User.email created = NewUser.email d1 ->
  User.employeeId created = NewUser.employeeId d1 ->
  toLowerCase (NewUser.email d1) = toLowerCase (NewUser.email d2)
  \/ NewUser.employeeId d1 = NewUser.employeeId d2 ->
  formClashes d2 (us ++ [created]) = true.
Proof.
  intros He Hi Hsame. unfold formClashes. rewrite existsb_app. cbn.
  rewrite He, Hi. unfold seq.
  destruct Hsame as [-> | ->]; rewrite String.eqb_refl;
    rewrite ?orb_true_r; reflexivity.
Qed.

(** C6. When two drafts have the same email, compared in lower case, or the
    same employee id, and the first is created, submitting the second
    creates nothing: the handler reports it with an alert and leaves the
    users, in memory and stored, as they were; [addUser] itself refuses a
    user with the second draft's identity as well. *)
Theorem second_create_is_rejected (engine : ArraySort) (d1 d2 : NewUser.t) (w : World) :
  formClashes d1 (allUsers (auth w)) = false ->
  toLowerCase (NewUser.email d1) = toLowerCase (NewUser.email d2)
  \/ NewUser.employeeId d1 = NewUser.employeeId d2 ->
  let w1 := exec (submitUserForm d1) w in
  let w2 := exec (submitUserForm d2) w1 in
  (exists created,
      allUsers (auth w1) = allUsers (auth w) ++ [created] /\
      User.email created = NewUser.email d1 /\
      User.employeeId created = NewUser.employeeId d1) /\
  allUsers (auth w2) = allUsers (auth w1) /\
  localStorage (browser w2) = localStorage (browser w1) /\
  alerts (browser w2)
    = alerts (browser w1) ++ ["User with this email or employee ID already exists!"] /\
  (forall u2, User.email u2 = NewUser.email d2 ->
              User.employeeId u2 = NewUser.employeeId d2 ->
              allUsers (auth (exec (addUser u2) w1)) = allUsers (auth w1)).
Proof.
  intros Hfree Hsame w1 w2.
  assert (H1 : exists created,
             allUsers (auth w1) = allUsers (auth w) ++ [created] /\
             User.email created = NewUser.email d1 /\
             User.employeeId created = NewUser.employeeId d1).
  { subst w1. rewrite submitUserForm_exec.
    pose proof (handleCreateUser_spec engine (exec (setNewUser d1) w)) as (_ & _ & H).
    destruct (setNewUser_frame d1 w) as (Hn & Ha & Hb & _).
    rewrite Hn, Ha, Hfree in H. destruct H as (_ & _ & created & Hus & He & Hi & _).
    exists created. auto. }
  destruct H1 as (created & Hus & He & Hi).
  assert (Hclash : formClashes d2 (allUsers (auth w1)) = true)
    by (rewrite Hus; eapply formClashes_last; eauto).
  split; [ exists created; auto | ].
  assert (H2 : allUsers (auth w2) = allUsers (auth w1) /\
               localStorage (browser w2) = localStorage (browser w1) /\
               alerts (browser w2)
               = alerts (browser w1)
                 ++ ["User with this email or employee ID already exists!"]).
  { subst w2. rewrite submitUserForm_exec.
    pose proof (handleCreateUser_spec engine (exec (setNewUser d2) w1)) as (_ & _ & H).
    destruct (setNewUser_frame d2 w1) as (Hn & Ha & Hb & _).
    rewrite Hn, Ha, Hb, Hclash in H. destruct H as (H & _ & Hs & Hal). auto. }
  destruct H2 as (Hu2 & Hs2 & Ha2).
  repeat split; auto.
  intros u2 He2 Hi2. rewrite addUser_users.
  replace (existsb (sameIdentity u2) (allUsers (auth w1)))
    with (formClashes d2 (allUsers (auth w1))).
  - rewrite Hclash. reflexivity.
  - unfold formClashes, sameIdentity. rewrite He2, Hi2. reflexivity.
Qed.

Lemma second_create_is_rejected_witness :
  let d1 := NewUser.mk "Bob@Company.com" "Bob" "+1" "EMP002" "Lab" false in
  let d2 := NewUser.mk "bob@company.com" "Robert" "+3" "EMP009" "Office" false in
  let w1 := exec (@submitUserForm insertionEngine d1) firstVisit in
  let w2 := exec (@submitUserForm insertionEngine d2) w1 in
  allUsers (auth w2) = allUsers (auth w1) /\
  alerts (browser w2) = ["User with this email or employee ID already exists!"].
Proof.
  cbv zeta.
  destruct (second_create_is_rejected insertionEngine
              (NewUser.mk "Bob@Company.com" "Bob" "+1" "EMP002" "Lab" false)
              (NewUser.mk "bob@company.com" "Robert" "+3" "EMP009" "Office" false)
              firstVisit) as (_ & H1 & _ & H2 & _).
  - reflexivity.
  - left. reflexivity.
  - split; [ exact H1 | ]. rewrite H2. reflexivity.
Defined.

(** ** Bulk upload *)

Lemma keeps_refl (w : World) : keeps w w.
Proof. split; reflexivity. Qed.

Lemma keeps_trans (w1 w2 w3 : World) : keeps w1 w2 -> keeps w2 w3 -> keeps w1 w3.
Proof. intros [H1 H2] [H3 H4]. split; congruence. Qed.

Lemma missing_text_pure (cell : option Cell.t) (w : World) :
  (exists b, missing_text cell w = (Normal b, w)) \/
  missing_text cell w = (Thrown "TypeError", w).
Proof.
  destruct cell as [[s | n | b] | ]; cbn [missing_text Cell.truthy]; unfold ret, throw.
  - left. destruct (negb (seq s "")); cbn [negb]; eexists; reflexivity.
  - destruct (negb (n =? 0)%Z); cbn [negb]; [ right | left; eexists ]; reflexivity.
  - destruct b; cbn [negb]; [ right | left; eexists ]; reflexivity.
  - left. eexists. reflexivity.
Qed.

Lemma validateUserData_pure (us : list User.t) (userData : Row.t) (i : nat) (w : World) :
  exists c, validateUserData us userData i w = (c, w).
Proof.
  unfold validateUserData.
  unfold bind at 1.
  destruct (missing_text_pure (Row.Name userData) w) as [[b1 ->] | ->]; [ | eauto ].
  unfold bind at 1.
  destruct (missing_text_pure (Row.Email userData) w) as [[b2 ->] | ->]; [ | eauto ].
  unfold bind at 1.
  destruct (missing_text_pure (Row.Location userData) w) as [[b3 ->] | ->]; [ | eauto ].
  unfold getUserByEmail, getUserByEmployeeId.
  destruct (as_text (Row.Email userData)) as [e | ]; [ | destruct us as [ | u r] ].
  - unfold bind at 1. cbn [ret].
    destruct (find _ us) as [x | ].
    + unfold bind, ret. eauto.
    + destruct (Row.EmployeeID userData) as [k | ]; unfold bind, ret; cbn [option_map];
        [ destruct (find _ us) | ]; eauto.
  - unfold bind at 1. cbn [ret].
    destruct (Row.EmployeeID userData) as [k | ]; unfold bind, ret; cbn; eauto.
  - unfold bind, throw. eauto.
Qed.

Lemma uploadRows_frame (engine : ArraySort) (us : list User.t) (se : option User.t)
      (t : PasswordType) (total : nat) (rows : list Row.t) :
  forall (i : nat) (result : BulkUploadResult.t) (w : World)
         (c : Completion BulkUploadResult.t) (w' : World),
    uploadRows us se t total i rows result w = (c, w') ->
    keeps w w' /\
    match c with
    | Normal res =>
        Forall (fun u => User.groups u = []) (BulkUploadResult.success result) ->
        Forall (fun u => User.groups u = []) (BulkUploadResult.success res)
    | Thrown _ => True
    end.
Proof.
  induction rows as [ | userData rest IH]; intros i result w c w' E.
  - cbn in E. injection E as <- <-. split; [ apply keeps_refl | auto ].
  - cbn [uploadRows] in E. unfold bind at 1 in E. cbn [setUploadProgress modify] in E.
    unfold bind at 1 in E.
    match type of E with
    | context [validateUserData us userData ?k ?w0] =>
        destruct (validateUserData_pure us userData k w0) as (c0 & Hv);
        rewrite Hv in E;
        assert (Hk0 : keeps w w0)
          by (destruct w as [a [gs d ng pt gp ad uf up ur iu] po br];
              split; reflexivity)
    end.
    destruct c0 as [[ | err errs] | e].
    + unfold bind at 1 in E.
      match type of E with
      | context [generatePassword t ?w0] =>
          destruct (generatePassword_run engine t w0) as (p & o & Hp);
          rewrite Hp in E
      end.
      unfold bind at 1 in E. cbn [Date_now] in E.
      unfold bind at 1 in E. cbn [Date_now] in E.
      match type of E with
      | uploadRows us se t total (S i) rest ?r ?w0 = _ =>
          destruct (IH (S i) r w0 c w' E) as [Hk Hres];
          assert (Hk1 : keeps w w0)
            by (destruct w as [a [gs d ng pt gp ad uf up ur iu] po
                                 [st co al ti [cv ct] ra la]];
                split; reflexivity)
      end.
      split; [ eapply keeps_trans; eassumption | ].
      destruct c as [res | e]; [ | exact I ].
      intros Hall. apply Hres. cbn [BulkUploadResult.success].
      apply Forall_app. split; [ exact Hall | ].
      apply Forall_cons; [ reflexivity | apply Forall_nil ].
    + destruct (IH _ _ _ c w' E) as [Hk Hres].
      split; [ exact (keeps_trans _ _ _ Hk0 Hk) | ].
      destruct c as [res | e']; [ | exact I ].
      intros Hall. apply Hres. exact Hall.
    + injection E as <- <-. split; [ exact Hk0 | exact I ].
Qed.

Lemma addUsers_run (new : list User.t) (w : World) :
  exists w1,
    addUsers new w = (Normal tt, w1) /\
    allUsers (auth w1)
      = allUsers (auth w) ++
        stampAll (values (clock (browser w))) (taken (clock (browser w)))
          (filter (fun n => negb (existsb (sameIdentity n) (allUsers (auth w)))) new) /\
    groups (admin w1) = groups (admin w).
Proof.
  unfold addUsers, setAllUsers. unfold bind at 1. cbn [gets].
  unfold bind at 1. unfold bind at 1. rewrite mapM_stamp.
  destruct w as [a ad po [st co al ti [cv ct] ra la]].
  eexists. split; [ reflexivity | ]. split; reflexivity.
Qed.

Lemma processBulkUpload_spec (engine : ArraySort) (w : World) :
  groups (admin (exec processBulkUpload w)) = groups (admin w) /\
  exists new,
    allUsers (auth (exec processBulkUpload w)) = allUsers (auth w) ++ new /\
    Forall (fun u => User.groups u = []) new.
Proof.
  unfold exec. destruct (processBulkUpload w) as [c w'] eqn:E. cbn [snd].
  unfold processBulkUpload in E.
  do 4 (unfold bind at 1 in E; cbn [gets getAllUsers] in E).
  destruct (uploadFile (admin w)) as [[rows | ] | ].
  - unfold bind at 1 in E. cbn [setIsUploading modify] in E.
    unfold bind at 1 in E. cbn [setUploadProgress modify] in E.
    unfold bind at 1 in E. cbn [setUploadResult modify] in E.
    unfold try_finally, try_catch in E.
    unfold bind at 1 in E. cbn [ret] in E. unfold bind at 1 in E.
    match type of E with
    | context [uploadRows ?us ?se ?t ?n 0 rows ?r ?w0] =>
        destruct (uploadRows us se t n 0 rows r w0) as [c1 w1] eqn:Eu;
        apply uploadRows_frame in Eu as [[Ha Hg] Hres];
        assert (Hk0 : keeps w w0)
          by (destruct w as [a [gs d ng pt gp ad uf up ur iu] po br];
              split; reflexivity)
    end.
    destruct Hk0 as [Ha0 Hg0].
    destruct c1 as [res | e].
    + unfold bind at 1 in E.
      destruct (addUsers_run (BulkUploadResult.success res) w1) as (w2 & Hrun & Hus & Hg2).
      rewrite Hrun in E.
      unfold bind at 1 in E. cbn [setUploadResult modify] in E.
      assert (Hnew : Forall (fun u => User.groups u = [])
                       (stampAll (values (clock (browser w1))) (taken (clock (browser w1)))
                          (filter (fun n => negb (existsb (sameIdentity n)
                                                          (allUsers (auth w1))))
                                  (BulkUploadResult.success res)))).
      { apply Forall_forall. intros v Hv.
        apply stampAll_groups in Hv as (u & Hu & _ & ->).
        apply filter_In in Hu as [Hu _].
        specialize (Hres (Forall_nil _)). rewrite Forall_forall in Hres. auto. }
      rewrite Ha, Ha0 in Hus, Hnew. rewrite Hg, Hg0 in Hg2.
      destruct w2 as [a2 [gs d ng pt gp ad uf up ur iu] po br].
      destruct (BulkUploadResult.passwords res); cbn in E; injection E as <- <-;
        (split; [ exact Hg2 | ]);
        eexists; (split; [ exact Hus | exact Hnew ]).
    + rewrite Ha0 in Ha. rewrite Hg0 in Hg.
      destruct w1 as [a1 [gs d ng pt gp ad uf up ur iu] po br].
      cbn in E. injection E as <- <-.
      split; [ exact Hg | ].
      exists []. rewrite app_nil_r. split; [ | constructor ].
      cbn in Ha |- *. rewrite Ha. reflexivity.
  - destruct w as [a [gs d ng pt gp ad uf up ur iu] po br].
    cbn in E. injection E as <- <-. cbn.
    split; [ reflexivity | ].
    exists []. rewrite app_nil_r. split; [ reflexivity | constructor ].
  - injection E as <- <-. split; [ reflexivity | ].
    exists []. rewrite app_nil_r. split; [ reflexivity | constructor ].
Qed.

(** C2, at a failing input. A sheet of two rows with the same email, none
    of them colliding with a stored user: the upload reports two users
    created and no error, and the user set then holds two users with that
    email. *)
Theorem bulk_upload_keeps_duplicates_of_the_batch :
  let w := exec (setUploadFile (Some (Some duplicateRows))) firstVisit in
  let w' := exec (@processBulkUpload insertionEngine) w in
  map User.email (allUsers (auth w'))
    = ["admin@company.com"; "bob@company.com"; "bob@company.com"] /\
  option_map (fun r => (List.length (BulkUploadResult.success r),
                        List.length (BulkUploadResult.errors r)))
             (uploadResult (admin w'))
    = Some (2%nat, 0%nat) /\
  ~ uniqueIdentity (allUsers (auth w')).
Proof.
  cbv zeta. split; [ vm_compute; reflexivity | split; [ vm_compute; reflexivity | ] ].
  intros H.
  apply uniqueIdentity_keys in H.
  assert (Hk : map identityOf
                 (allUsers (auth (exec (@processBulkUpload insertionEngine)
                    (exec (setUploadFile (Some (Some duplicateRows))) firstVisit))))
               = [ ("admin@company.com", "ADMIN001");
                   ("bob@company.com", "EMP002");
                   ("bob@company.com", "EMP009") ])
    by (vm_compute; reflexivity).
  rewrite Hk in H.
  destruct H as (_ & Hb & _).
  specialize (Hb _ (or_introl eq_refl)). discriminate Hb.
Qed.

(** A row that collides with a stored user is reported and not created,
    and the other rows are created in the order of the sheet. *)
Example bulk_upload_reports_stored_duplicates :
  let rows :=
    [ Row.mk (text_cell "Carol") (text_cell "carol@company.com") (text_cell "+2")
             (text_cell "EMP003") (text_cell "Lab") None;
      Row.mk (text_cell "Root") (text_cell "ADMIN@company.com") (text_cell "+9")
             (text_cell "EMP010") (text_cell "Lab") None;
      Row.mk (text_cell "Bob") (text_cell "bob@company.com") (text_cell "+1")
             (text_cell "EMP002") (text_cell "Lab") None ] in
  let w := exec (setUploadFile (Some (Some rows))) firstVisit in
  let w' := exec (@processBulkUpload insertionEngine) w in
  map User.email (allUsers (auth w'))
    = ["admin@company.com"; "carol@company.com"; "bob@company.com"] /\
  option_map (fun r => map (fun e => (RowError.row e, RowError.error e))
                           (BulkUploadResult.errors r))
             (uploadResult (admin w'))
    = Some [(3%nat, "Email or Employee ID already exists")].
Proof. cbv zeta. split; vm_compute; reflexivity. Qed.

(** ** Group membership *)

Lemma includes_In (l : list string) (x : string) : includes l x = true <-> In x l.
Proof.
  unfold includes. rewrite existsb_exists. split.
  - intros (y & Hy & E). apply String.eqb_eq in E. subst. exact Hy.
  - intros H. exists x. split; [ exact H | apply String.eqb_refl ].
Qed.

Lemma includes_not_In (l : list string) (x : string) : includes l x = false <-> ~ In x l.
Proof.
  rewrite <- includes_In. destruct (includes l x); split; congruence.
Qed.




Lemma find_user_none (userId : string) (us : list User.t) (u : User.t) :
  find (fun u => seq (User.id u) userId) us = None ->
  In u us -> User.id u <> userId.
Proof.
  intros H Hin. apply String.eqb_neq. exact (find_none _ _ H u Hin).
Qed.






(** *** What the handlers do to the users and the groups *)

Lemma handleAddUserToGroup_data (userId groupId : string) (w : World) :
  allUsers (auth (exec (handleAddUserToGroup userId groupId) w))
    = addMemberUsers userId groupId (allUsers (auth w)) /\
  groups (admin (exec (handleAddUserToGroup userId groupId) w))
    = addMemberGroups userId groupId (groups (admin w)).
Proof.
  destruct w as [[se il us] [gs d ng pt gp ad uf up ur iu] po br].
  unfold handleAddUserToGroup, updateUser, addMemberUsers. run_js.
  destruct (find _ us) as [cu | ];
    [ destruct (negb (includes (User.groups cu) groupId)) | ];
    split; reflexivity.
Qed.

Lemma handleRemoveUserFromGroup_data (userId groupId : string) (w : World) :
  allUsers (auth (exec (handleRemoveUserFromGroup userId groupId) w))
    = removeMemberUsers userId groupId (allUsers (auth w)) /\
  groups (admin (exec (handleRemoveUserFromGroup userId groupId) w))
    = removeMemberGroups userId groupId (groups (admin w)).
Proof.
  destruct w as [[se il us] [gs d ng pt gp ad uf up ur iu] po br].
  unfold handleRemoveUserFromGroup, updateUser, removeMemberUsers. run_js.
  destruct (find _ us) as [cu | ]; split; reflexivity.
Qed.

Lemma handleDeleteUser_data (confirmed : bool) (userId : string) (w : World) :
  allUsers (auth (exec (handleDeleteUser confirmed userId) w))
    = (if confirmed
       then filter (fun u => negb (seq (User.id u) userId)) (allUsers (auth w))
       else allUsers (auth w)) /\
  groups (admin (exec (handleDeleteUser confirmed userId) w))
    = (if confirmed then map (without userId) (groups (admin w)) else groups (admin w)).
Proof.
  destruct w as [[[u | ] il us] [gs d ng pt gp ad uf up ur iu] po br];
    destruct confirmed; unfold handleDeleteUser, deleteUser; run_js;
    try destruct (seq (User.id u) userId); split; reflexivity.
Qed.

Lemma handleCreateGroup_data (w : World) :
  allUsers (auth (exec handleCreateGroup w)) = allUsers (auth w) /\
  (groups (admin (exec handleCreateGroup w)) = groups (admin w) \/
   exists n,
     groups (admin (exec handleCreateGroup w)) = groups (admin w) ++ [n] /\
     Group.members n = [] /\
     Group.id n = Z_toString (values (clock (browser w)) (taken (clock (browser w))))).
Proof.
  destruct w as [[se il us] [gs d ng pt gp ad uf up ur iu] po
                 [st co al ti [cv ct] ra la]].
  unfold handleCreateGroup. run_js.
  destruct (seq (trim (NewGroup.name ng)) ""); split; try reflexivity.
  - left. reflexivity.
  - right. eexists. repeat split; reflexivity.
Qed.

Lemma addMember_group_side (userId groupId : string) (gs : list Group.t) (g' : Group.t) :
  In g' (addMemberGroups userId groupId gs) ->
  Group.id g' = groupId ->
  In userId (Group.members g').
Proof.
  intros Hin Hid. unfold addMemberGroups in Hin.
  apply in_map_iff in Hin as (g & <- & Hg).
  destruct (seq (Group.id g) groupId) eqn:Eid; cbn [andb] in *.
  - destruct (includes (Group.members g) userId) eqn:Ei; cbn [negb] in *.
    + apply includes_In. exact Ei.
    + cbn. apply in_or_app. right. left. reflexivity.
  - apply String.eqb_neq in Eid. contradiction.
Qed.


Lemma removeMember_group_side (userId groupId : string) (gs : list Group.t)
      (g' : Group.t) :
  In g' (removeMemberGroups userId groupId gs) ->
  Group.id g' = groupId ->
  ~ In userId (Group.members g').
Proof.
  intros Hin Hid. unfold removeMemberGroups in Hin.
  apply in_map_iff in Hin as (g & <- & Hg).
  destruct (seq (Group.id g) groupId) eqn:Eid.
  - apply filter_not_in.
  - apply String.eqb_neq in Eid. contradiction.
Qed.


(** *** The admin's actions *)




Example enrolledVisit_members :
  map (fun u => (User.id u, User.groups u)) (allUsers (auth enrolledVisit))
    = [("1", []); ("1700000000001", ["1700000000004"])] /\
  map (fun g => (Group.id g, Group.members g)) (groups (admin enrolledVisit))
    = [("1700000000004", ["1700000000001"])].
Proof. split; vm_compute; reflexivity. Qed.


(* ================================================================== *)
(** * Further properties of AuthContext.tsx                            *)
(* ================================================================== *)

(** X1. What [saveUsersToStorage] writes is what [loadUsersFromStorage]
    reads, also for the empty list; so after the effect that saves the
    users, [refreshUserData] leaves the users in memory as they are. *)
Theorem users_round_trip (us : list User.t) (w : World) :
  eval (saveUsersToStorage us ;; loadUsersFromStorage) w = Normal us /\
  storedUsers (exec saveUsersEffect w) = allUsers (auth w) /\
  allUsers (auth (exec (saveUsersEffect ;; refreshUserData) w)) = allUsers (auth w).
Proof.
  destruct w as [[se il au] ad po [[su cu sg sr] co al ti cl ra la]].
  repeat split; reflexivity.
Qed.

Lemma mapM_rotate (userId newPassword : string) (us : list User.t) (w : World) :
  mapM (fun u =>
          if seq (User.id u) userId then
            now <- Date_now ;;
            ret (User.assign u (User.only_password newPassword now))
          else ret u) us w
  = (Normal (rotated (values (clock (browser w))) (taken (clock (browser w)))
                     userId newPassword us),
     tick (holders userId us) w).
Proof.
  revert w. induction us as [ | u r IH]; intros w.
  - destruct w as [a ad po [st co al ti [cv ct] ra la]]. reflexivity.
  - cbn [mapM rotated]. unfold holders. cbn [filter].
    destruct (seq (User.id u) userId).
    + unfold bind at 1. unfold bind at 1. cbn [Date_now ret].
      unfold bind at 1. rewrite IH.
      destruct w as [a ad po [st co al ti [cv ct] ra la]]. cbn.
      unfold tick, on_browser, holders. cbn. rewrite Nat.add_succ_r. reflexivity.
    + unfold bind at 1. cbn [ret]. unfold bind at 1. rewrite IH.
      destruct w as [a ad po [st co al ti [cv ct] ra la]]. reflexivity.
Qed.

Lemma updateUserPassword_users (userId newPassword : string) (w : World) :
  allUsers (auth (exec (updateUserPassword userId newPassword) w))
  = rotated (values (clock (browser w))) (taken (clock (browser w)))
            userId newPassword (allUsers (auth w)).
Proof.
  unfold exec, updateUserPassword, setAllUsers. unfold bind at 1. cbn [gets].
  unfold bind at 1. unfold bind at 1. rewrite mapM_rotate.
  destruct w as [a ad po [st co al ti [cv ct] ra la]]. reflexivity.
Qed.

Lemma rotated_unknown (vals : nat -> Date) (k : nat) (userId newPassword : string)
      (us : list User.t) :
  (forall u, In u us -> User.id u <> userId) ->
  rotated vals k userId newPassword us = us.
Proof.
  induction us as [ | u r IH]; intros H; cbn; [ reflexivity | ].
  assert (E : seq (User.id u) userId = false)
    by (apply String.eqb_neq; apply H; left; reflexivity).
  rewrite E, IH; [ reflexivity | ]. intros v Hv. apply H. right. exact Hv.
Qed.

Lemma deleteUser_users (userId : string) (w : World) :
  allUsers (auth (exec (deleteUser userId) w))
  = filter (fun u => negb (seq (User.id u) userId)) (allUsers (auth w)).
Proof.
  destruct w as [[[u | ] il us] ad po br]; unfold deleteUser; run_js;
    [ destruct (seq (User.id u) userId) | ]; reflexivity.
Qed.

(** X2. With an id that no user has, [updateUser], [updateUserPassword] and
    [deleteUser] leave the users as they are; nothing reports the id as
    not found. *)
Theorem unknown_id_changes_no_user (userId newPassword : string)
        (updates : User.partial) (w : World) :
  (forall u, In u (allUsers (auth w)) -> User.id u <> userId) ->
  allUsers (auth (exec (updateUser userId updates) w)) = allUsers (auth w) /\
  allUsers (auth (exec (updateUserPassword userId newPassword) w)) = allUsers (auth w) /\
  allUsers (auth (exec (deleteUser userId) w)) = allUsers (auth w) /\
  alerts (browser (exec (updateUser userId updates) w)) = alerts (browser w) /\
  eval (updateUser userId updates) w = Normal tt.
Proof.
  intros Hnone.
  assert (Hneq : forall u, In u (allUsers (auth w)) -> seq (User.id u) userId = false)
    by (intros u Hu; apply String.eqb_neq; auto).
  split; [ | split; [ | split; [ | split ] ] ].
  - rewrite updateUser_users. rewrite <- (map_id (allUsers (auth w))) at 2.
    apply map_ext_in. intros u Hu. rewrite (Hneq u Hu). reflexivity.
  - rewrite updateUserPassword_users. apply rotated_unknown. exact Hnone.
  - rewrite deleteUser_users. apply forallb_filter_id.
    apply forallb_forall. intros u Hu. rewrite (Hneq u Hu). reflexivity.
  - destruct w as [a ad po br]. reflexivity.
  - destruct w as [a ad po br]. reflexivity.
Qed.

Lemma unknown_id_changes_no_user_witness :
  allUsers (auth (exec (deleteUser "7") firstVisit)) = allUsers (auth firstVisit).
Proof.
  destruct (unknown_id_changes_no_user "7" "x" User.no_updates firstVisit)
    as (_ & _ & H & _).
  - intros u [<- | []]. discriminate.
  - exact H.
Defined.

Lemma rotated_keys (vals : nat -> Date) (k : nat) (userId newPassword : string)
      (us : list User.t) :
  map identityOf (rotated vals k userId newPassword us) = map identityOf us /\
  map User.id (rotated vals k userId newPassword us) = map User.id us /\
  map User.groups (rotated vals k userId newPassword us) = map User.groups us.
Proof.
  revert k. induction us as [ | u r IH]; intros k; cbn; [ auto | ].
  destruct (seq (User.id u) userId); cbn;
    [ destruct (IH (S k)) as (-> & -> & ->) | destruct (IH k) as (-> & -> & ->) ];
    auto.
Qed.

Lemma rotated_in (vals : nat -> Date) (k : nat) (userId newPassword : string)
      (us : list User.t) (u : User.t) :
  In u us -> User.id u = userId ->
  exists d, In (User.assign u (User.only_password newPassword d))
               (rotated vals k userId newPassword us).
Proof.
  revert k. induction us as [ | x r IH]; intros k Hin Hid; [ contradiction | ].
  cbn. destruct Hin as [-> | Hin].
  - apply String.eqb_eq in Hid as E. unfold seq. rewrite E. eexists. left. reflexivity.
  - destruct (seq (User.id x) userId);
      [ destruct (IH (S k) Hin Hid) as (d & Hd) | destruct (IH k Hin Hid) as (d & Hd) ];
      exists d; right; exact Hd.
Qed.

Lemma handlePasswordRegenerate_run (userId newPassword : string) (w : World) :
  allUsers (auth (exec (handlePasswordRegenerate userId newPassword) w))
  = rotated (values (clock (browser w))) (taken (clock (browser w)))
            userId newPassword (allUsers (auth w)) /\
  generatedPasswords (admin (exec (handlePasswordRegenerate userId newPassword) w))
  = match find (fun u => seq (User.id u) userId) (allUsers (auth w)) with
    | Some ud => [ GeneratedPassword.mk userId (User.name ud) (User.email ud) newPassword ]
    | None => generatedPasswords (admin w)
    end.
Proof.
  unfold exec. destruct (handlePasswordRegenerate userId newPassword w) as [c w'] eqn:E.
  unfold handlePasswordRegenerate in E. unfold bind at 1 in E.
  cbn [getAllUsers gets] in E. unfold bind at 1 in E.
  unfold updateUserPassword, setAllUsers in E. unfold bind at 1 in E. cbn [gets] in E.
  unfold bind at 1 in E. unfold bind at 1 in E. rewrite mapM_rotate in E.
  destruct w as [a [gs d ng pt gp ad uf up ur iu] po [st co al ti [cv ct] ra la]].
  cbn in E |- *. destruct (find _ (allUsers a)); injection E as <- <-; split; reflexivity.
Qed.

Lemma saveUsersEffect_stored (w : World) :
  storedUsers (exec saveUsersEffect w) = allUsers (auth w) /\
  auth (exec saveUsersEffect w) = auth w /\
  admin (exec saveUsersEffect w) = admin w.
Proof.
  destruct w as [a ad po [[su cu sg sr] co al ti cl ra la]]. repeat split.
Qed.

(** X3. Regenerating the password of a user of a store without shared
    identities changes no id, identity or group list; the password shown to
    the admin is the new one; and once the users are saved, the user logs
    in with the new password and with no other. *)
Theorem regenerated_password_logs_in (userId newPassword : string) (u : User.t)
        (w : World) :
  uniqueIdentity (allUsers (auth w)) ->
  In u (allUsers (auth w)) ->
  User.id u = userId ->
  let w1 := exec (handlePasswordRegenerate userId newPassword) w in
  let w2 := exec saveUsersEffect w1 in
  map identityOf (allUsers (auth w1)) = map identityOf (allUsers (auth w)) /\
  map User.id (allUsers (auth w1)) = map User.id (allUsers (auth w)) /\
  map User.groups (allUsers (auth w1)) = map User.groups (allUsers (auth w)) /\
  (exists shown, generatedPasswords (admin w1) = [shown] /\
                 GeneratedPassword.userId shown = userId /\
                 GeneratedPassword.password shown = newPassword) /\
  eval (login (User.email u) newPassword) w2 = Normal true /\
  (forall other, other <> newPassword ->
                 eval (login (User.email u) other) w2 = Normal false).
Proof.
  intros Huniq Hin Hid w1 w2.
  destruct (handlePasswordRegenerate_run userId newPassword w) as (Hus & Hgp).
  fold w1 in Hus, Hgp.
  destruct (rotated_keys (values (clock (browser w))) (taken (clock (browser w)))
              userId newPassword (allUsers (auth w))) as (Hk & Hi & Hg).
  rewrite <- Hus in Hk, Hi, Hg.
  destruct (rotated_in (values (clock (browser w))) (taken (clock (browser w)))
              userId newPassword _ u Hin Hid) as (d & Hd).
  rewrite <- Hus in Hd.
  destruct (saveUsersEffect_stored w1) as (Hst & _). fold w2 in Hst.
  assert (Huniq1 : uniqueIdentity (allUsers (auth w1)))
    by (apply uniqueIdentity_keys; rewrite Hk; apply uniqueIdentity_keys; exact Huniq).
  assert (Hfind : findByEmail (User.email u) (storedUsers w2)
                  = Some (User.assign u (User.only_password newPassword d)))
    by (rewrite Hst; apply find_unique; auto).
  split; [ exact Hk | split; [ exact Hi | split; [ exact Hg | split; [ | split ] ] ] ].
  - destruct (find (fun v => seq (User.id v) userId) (allUsers (auth w))) as [ud | ] eqn:Ef.
    + eexists. split; [ exact Hgp | split; reflexivity ].
    + exfalso. exact (find_user_none _ _ _ Ef Hin Hid).
  - pose proof (login_spec (User.email u) newPassword w2) as [H _].
    rewrite Hfind in H. cbn in H. unfold oseq in H. cbn in H.
    rewrite String.eqb_refl in H. apply H.
  - intros other Hother.
    pose proof (login_spec (User.email u) other w2) as [H _].
    rewrite Hfind in H. cbn in H.
    apply String.eqb_neq in Hother. rewrite String.eqb_sym in Hother.
    rewrite Hother in H. apply H.
Qed.

Lemma regenerated_password_logs_in_witness :
  let w1 := exec (handlePasswordRegenerate "1" "CalmWolf456") firstVisit in
  eval (login "admin@company.com" "CalmWolf456") (exec saveUsersEffect w1) = Normal true.
Proof.
  cbv zeta.
  destruct (regenerated_password_logs_in "1" "CalmWolf456"
              (hd bob (allUsers (auth firstVisit))) firstVisit) as (_ & _ & _ & _ & H & _).
  - cbn. split; [ intros v [] | exact I ].
  - left. reflexivity.
  - reflexivity.
  - exact H.
Defined.

Lemma handleCreateUser_created (engine : ArraySort) (w : World) :
  formClashes (newUser (admin w)) (allUsers (auth w)) = false ->
  exists created p,
    allUsers (auth (exec handleCreateUser w)) = allUsers (auth w) ++ [created] /\
    User.email created = NewUser.email (newUser (admin w)) /\
    User.name created = NewUser.name (newUser (admin w)) /\
    User.isAdmin created = NewUser.isAdmin (newUser (admin w)) /\
    User.password created = Some p /\
    generatedPasswords (admin (exec handleCreateUser w))
      = [ GeneratedPassword.mk (User.id created) (User.name created)
                               (User.email created) p ] /\
    timers (browser (exec handleCreateUser w))
      = timers (browser w) ++ [SaveUsers (allUsers (auth w) ++ [created])].
Proof.
  destruct w as [[se il us] [gs d ng pt gp ad uf up ur iu] po
                 [[su cu sg sr] co al ti [cv ct] ra la]].
  cbn [admin newUser auth allUsers browser timers].
  intros Hclash.
  pose proof Hclash as Hfind. unfold formClashes in Hfind.
  apply find_either_none in Hfind as [Hn1 Hn2].
  unfold handleCreateUser, getUserByEmail, getUserByEmployeeId; run_js.
  rewrite Hn1, Hn2.
  match goal with
  | |- context [generatePassword ?t ?w0] =>
      destruct (generatePassword_run engine t w0) as (p & o & ->)
  end.
  unfold with_random, addUser. run_js.
  match goal with
  | |- context [existsb (sameIdentity ?nu) us] =>
      change (existsb (sameIdentity nu) us) with (formClashes d us)
  end.
  rewrite Hclash. cbn.
  eexists. exists p. repeat split; reflexivity.
Qed.

Lemma find_app_last (email : string) (us : list User.t) (created : User.t) :
  (forall u, In u us ->
     seq (toLowerCase (User.email u)) (toLowerCase email) = false) ->
  toLowerCase (User.email created) = toLowerCase email ->
  findByEmail email (us ++ [created]) = Some created.
Proof.
  intros Hnone Hsame. unfold findByEmail.
  induction us as [ | x r IH]; cbn.
  - unfold seq. rewrite Hsame, String.eqb_refl. reflexivity.
  - rewrite (Hnone x (or_introl eq_refl)). apply IH.
    intros u Hu. apply Hnone. right. exact Hu.
Qed.

(** X4. When the create-user form clashes with no user, [handleCreateUser]
    appends one user, shows exactly one generated password and schedules a
    save of the new user list; once the users are saved, logging in with
    the email of the form and the password shown succeeds, and the session
    is the created user without the password. *)
Theorem created_user_logs_in (engine : ArraySort) (w : World) :
  formClashes (newUser (admin w)) (allUsers (auth w)) = false ->
  let w1 := exec handleCreateUser w in
  let w2 := exec saveUsersEffect w1 in
  exists created shown,
    allUsers (auth w1) = allUsers (auth w) ++ [created] /\
    generatedPasswords (admin w1) = [shown] /\
    GeneratedPassword.email shown = NewUser.email (newUser (admin w)) /\
    GeneratedPassword.userId shown = User.id created /\
    timers (browser w1) = timers (browser w) ++ [SaveUsers (allUsers (auth w1))] /\
    eval (login (GeneratedPassword.email shown) (GeneratedPassword.password shown)) w2
      = Normal true /\
    user (auth (exec (login (GeneratedPassword.email shown)
                            (GeneratedPassword.password shown)) w2))
      = Some (User.assign created User.no_password).
Proof.
  intros Hclash w1 w2.
  destruct (handleCreateUser_created engine w Hclash)
    as (created & p & Hus & He & Hn & Ha & Hp & Hgp & Hti).
  fold w1 in Hus, Hgp, Hti.
  destruct (saveUsersEffect_stored w1) as (Hst & _). fold w2 in Hst.
  assert (Hfind : findByEmail (User.email created) (storedUsers w2) = Some created).
  { rewrite Hst, Hus. apply find_app_last; [ | reflexivity ].
    intros u Hu. rewrite He. unfold formClashes in Hclash.
    destruct (seq (toLowerCase (User.email u))
                  (toLowerCase (NewUser.email (newUser (admin w))))) eqn:E;
      [ | reflexivity ].
    assert (Hex : existsb
                    (fun u0 => seq (toLowerCase (User.email u0))
                                   (toLowerCase (NewUser.email (newUser (admin w))))
                               || seq (User.employeeId u0)
                                      (NewUser.employeeId (newUser (admin w))))
                    (allUsers (auth w)) = true)
      by (apply existsb_exists; exists u; split; [ exact Hu | rewrite E; reflexivity ]).
    congruence. }
  exists created. eexists. split; [ exact Hus | ]. split; [ exact Hgp | ].
  cbn [GeneratedPassword.email GeneratedPassword.userId GeneratedPassword.password].
  split; [ exact He | split; [ reflexivity | split; [ rewrite Hus; exact Hti | ] ] ].
  pose proof (login_spec (User.email created) p w2) as [H _].
  rewrite Hfind, Hp in H. cbn [oseq] in H. rewrite String.eqb_refl in H.
  destruct H as (H1 & H2 & _). split; [ exact H1 | exact H2 ].
Qed.

Lemma created_user_logs_in_witness :
  let w := exec (setNewUser (NewUser.mk "Bob@Company.com" "Bob" "+1" "EMP002" "Lab" false))
                firstVisit in
  let w1 := exec (@handleCreateUser insertionEngine) w in
  exists created shown,
    allUsers (auth w1) = allUsers (auth w) ++ [created] /\
    generatedPasswords (admin w1) = [shown] /\
    eval (login (GeneratedPassword.email shown) (GeneratedPassword.password shown))
         (exec saveUsersEffect w1) = Normal true.
Proof.
  cbv zeta.
  destruct (created_user_logs_in insertionEngine
              (exec (setNewUser (NewUser.mk "Bob@Company.com" "Bob" "+1" "EMP002" "Lab"
                                            false)) firstVisit))
    as (created & shown & H1 & H2 & _ & _ & _ & H3 & _).
  - reflexivity.
  - exists created, shown. split; [ exact H1 | split; [ exact H2 | exact H3 ] ].
Defined.

Lemma loadCurrentUser_run (w : World) :
  let w' := exec loadCurrentUser w in
  eval loadCurrentUser w = Normal tt /\
  isLoading (auth w') = false /\
  allUsers (auth w') = allUsers (auth w) /\
  match truthy (currentUser (localStorage (browser w))) with
  | None =>
      user (auth w') = user (auth w) /\
      currentUser (localStorage (browser w')) = currentUser (localStorage (browser w))
  | Some (Json parsedUser) =>
      match find (fun u => seq (User.id u) (User.id parsedUser)) (allUsers (auth w)) with
      | Some cu =>
          user (auth w') = Some (User.assign cu User.no_password) /\
          currentUser (localStorage (browser w'))
            = currentUser (localStorage (browser w))
      | None =>
          user (auth w') = user (auth w) /\
          currentUser (localStorage (browser w')) = None
      end
  | Some _ =>
      user (auth w') = user (auth w) /\
      currentUser (localStorage (browser w')) = None
  end.
Proof.
  destruct w as [[se il us] ad po [[su cu sg sr] co al ti cl ra la]].
  cbv zeta. unfold loadCurrentUser. run_js.
  destruct cu as [[ | | parsedUser] | ]; cbn; try (repeat split; reflexivity).
  destruct (find _ us) as [x | ]; cbn; repeat split; reflexivity.
Qed.

(** X5. Restoring the session on start never throws and ends the loading
    state.  A stored session whose user still exists becomes the session,
    taken from the current user record and without its password; a stored
    session whose user is gone, or whose text does not parse, is removed
    from storage, and the session in memory is left as it was. *)
Theorem session_restore (w : World) :
  let w' := exec loadCurrentUser w in
  eval loadCurrentUser w = Normal tt /\
  isLoading (auth w') = false /\
  allUsers (auth w') = allUsers (auth w) /\
  (forall s, user (auth w') = Some s ->
             user (auth w) = Some s \/
             (User.password s = None /\
              exists cu, In cu (allUsers (auth w)) /\ s = User.assign cu User.no_password)) /\
  match truthy (currentUser (localStorage (browser w))) with
  | None =>
      user (auth w') = user (auth w) /\
      currentUser (localStorage (browser w')) = currentUser (localStorage (browser w))
  | Some (Json parsedUser) =>
      match find (fun u => seq (User.id u) (User.id parsedUser)) (allUsers (auth w)) with
      | Some cu =>
          user (auth w') = Some (User.assign cu User.no_password) /\
          currentUser (localStorage (browser w'))
            = currentUser (localStorage (browser w))
      | None =>
          user (auth w') = user (auth w) /\
          currentUser (localStorage (browser w')) = None
      end
  | Some _ =>
      user (auth w') = user (auth w) /\
      currentUser (localStorage (browser w')) = None
  end.
Proof.
  cbv zeta. destruct (loadCurrentUser_run w) as (He & Hl & Hus & Hcase).
  split; [ exact He | split; [ exact Hl | split; [ exact Hus | split; [ | exact Hcase ] ] ] ].
  intros s Hs.
  destruct (truthy (currentUser (localStorage (browser w)))) as [[ | | parsedUser] | ].
  - left. destruct Hcase as (<- & _). exact Hs.
  - left. destruct Hcase as (<- & _). exact Hs.
  - destruct (find _ (allUsers (auth w))) as [cu | ] eqn:Ef.
    + right. destruct Hcase as (Hu & _). rewrite Hu in Hs. injection Hs as <-.
      split; [ reflexivity | ]. exists cu. split; [ | reflexivity ].
      apply find_some in Ef. apply Ef.
    + left. destruct Hcase as (<- & _). exact Hs.
  - left. destruct Hcase as (<- & _). exact Hs.
Qed.

Lemma find_by_id_nodup (us : list User.t) (u : User.t) :
  NoDup (map User.id us) -> In u us ->
  find (fun v => seq (User.id v) (User.id u)) us = Some u.
Proof.
  induction us as [ | x r IH]; intros Hnd Hin; [ contradiction | ].
  cbn in Hnd. inversion Hnd as [ | i l Hnotin Hnd' ]; subst. cbn.
  destruct Hin as [-> | Hin].
  - unfold seq. rewrite String.eqb_refl. reflexivity.
  - destruct (seq (User.id x) (User.id u)) eqn:E.
    + apply String.eqb_eq in E. exfalso. apply Hnotin. rewrite E.
      apply in_map. exact Hin.
    + apply IH; assumption.
Qed.

(** X6. After a login that succeeds, with the users in memory those that
    are stored and no id used twice, restoring the session (as a reload of
    the page does) yields the session of the login and keeps its stored
    record. *)
Theorem session_survives_reload (email password : string) (w : World) :
  eval (login email password) w = Normal true ->
  allUsers (auth w) = storedUsers w ->
  NoDup (map User.id (allUsers (auth w))) ->
  let w1 := exec (login email password) w in
  let w2 := exec loadCurrentUser w1 in
  user (auth w1) <> None /\
  user (auth w2) = user (auth w1) /\
  currentUser (localStorage (browser w2)) = currentUser (localStorage (browser w1)).
Proof.
  intros Hok Hsame Hnd w1 w2.
  destruct (login_spec email password w) as (H & Hus & _). fold w1 in H, Hus.
  destruct (findByEmail email (storedUsers w)) as [fu | ] eqn:Ef;
    [ | destruct H as (H & _); congruence ].
  destruct (oseq (User.password fu) password); [ | destruct H as (H & _); congruence ].
  destruct H as (_ & Hu & Hc).
  assert (Hin : In fu (allUsers (auth w1))).
  { rewrite Hus, Hsame. unfold findByEmail in Ef. apply find_some in Ef. apply Ef. }
  destruct (loadCurrentUser_run w1) as (_ & _ & _ & Hcase). fold w2 in Hcase.
  rewrite Hc in Hcase. cbn [truthy] in Hcase.
  change (User.id (User.assign fu User.no_password)) with (User.id fu) in Hcase.
  rewrite find_by_id_nodup in Hcase; [ | rewrite Hus; exact Hnd | exact Hin ].
  destruct Hcase as (Hu2 & Hc2).
  split; [ rewrite Hu; discriminate | split; congruence ].
Qed.

Lemma session_survives_reload_witness :
  let w1 := exec (login "ADMIN@COMPANY.COM" "admin123") firstVisit in
  user (auth (exec loadCurrentUser w1)) = user (auth w1).
Proof.
  cbv zeta.
  destruct (session_survives_reload "ADMIN@COMPANY.COM" "admin123" firstVisit)
    as (_ & H & _).
  - reflexivity.
  - reflexivity.
  - cbn. constructor; [ intros [] | constructor ].
  - exact H.
Defined.

Lemma stampAll_in (vals : nat -> Date) (k : nat) (l : list User.t) (n : User.t) :
  In n l ->
  exists n', In n' (stampAll vals k l) /\ identityOf n' = identityOf n.
Proof.
  revert k. induction l as [ | x r IH]; intros k Hin; [ contradiction | ].
  cbn. destruct Hin as [-> | Hin].
  - eexists. split; [ left; reflexivity | reflexivity ].
  - destruct (IH (S k) Hin) as (n' & Hn' & Hid). exists n'. auto.
Qed.

Lemma sameIdentity_self (a b : User.t) :
  identityOf b = identityOf a -> sameIdentity a b = true.
Proof.
  intros H. rewrite sameIdentity_clash, H. unfold clash, seq.
  rewrite String.eqb_refl. reflexivity.
Qed.

Lemma filter_nothing {A} (p : A -> bool) (l : list A) :
  (forall x, In x l -> p x = false) -> filter p l = [].
Proof.
  induction l as [ | a r IH]; intros H; cbn; [ reflexivity | ].
  rewrite (H a (or_introl eq_refl)). apply IH. intros x Hx. apply H. right. exact Hx.
Qed.

(** X7. Adding is idempotent: a second [addUser] of the same user, and a
    second [addUsers] of the same drafts, change no user. *)
Theorem adding_twice_adds_once (u : User.t) (new : list User.t) (w : World) :
  allUsers (auth (exec (addUser u) (exec (addUser u) w)))
    = allUsers (auth (exec (addUser u) w)) /\
  allUsers (auth (exec (addUsers new) (exec (addUsers new) w)))
    = allUsers (auth (exec (addUsers new) w)).
Proof.
  split.
  - rewrite (addUser_users u (exec (addUser u) w)).
    rewrite (addUser_users u w).
    destruct (existsb (sameIdentity u) (allUsers (auth w))) eqn:E.
    + rewrite E. reflexivity.
    + rewrite existsb_app. cbn [existsb].
      match goal with
      | |- context [sameIdentity u ?x] => rewrite (sameIdentity_self u x eq_refl)
      end.
      rewrite !orb_true_r. reflexivity.
  - pose proof (addUsers_users new w) as H1.
    remember (exec (addUsers new) w) as w1 eqn:Hw1.
    rewrite (addUsers_users new w1).
    assert (Hnone : filter (fun n => negb (existsb (sameIdentity n) (allUsers (auth w1))))
                           new = []).
    { apply filter_nothing. intros n Hn. apply negb_false_iff.
      rewrite H1, existsb_app.
      destruct (existsb (sameIdentity n) (allUsers (auth w))) eqn:E; [ reflexivity | ].
      cbn [orb].
      destruct (stampAll_in (values (clock (browser w))) (taken (clock (browser w)))
                  (filter (fun n0 => negb (existsb (sameIdentity n0) (allUsers (auth w))))
                          new) n) as (n' & Hn' & Hid).
      - apply filter_In. split; [ exact Hn | rewrite E; reflexivity ].
      - apply existsb_exists. exists n'. split; [ exact Hn' | ].
        apply sameIdentity_self. exact Hid. }
    rewrite Hnone. cbn. apply app_nil_r.
Qed.

Lemma find_last {A} (p : A -> bool) (l : list A) (x : A) :
  (forall y, In y l -> p y = false) -> p x = true ->
  find p (l ++ [x]) = Some x.
Proof.
  intros Hnone Hx. induction l as [ | a r IH]; cbn.
  - rewrite Hx. reflexivity.
  - rewrite (Hnone a (or_introl eq_refl)). apply IH.
    intros y Hy. apply Hnone. right. exact Hy.
Qed.

(** X8. After [addUser], looking up the user's email in any letter case or
    the user's employee id finds a user; and when the user clashed with
    nobody, both lookups return the added user, who is the draft with its
    creation date. *)
Theorem added_user_is_found (u : User.t) (email : string) (w : World) :
  toLowerCase email = toLowerCase (User.email u) ->
  let w' := exec (addUser u) w in
  let byEmail := eval (getUserByEmail (allUsers (auth w')) (Some email)) w' in
  let byEmployeeId :=
    eval (getUserByEmployeeId (allUsers (auth w')) (Some (User.employeeId u))) w' in
  ((exists v, byEmail = Normal (Some v)) \/ (exists v, byEmployeeId = Normal (Some v))) /\
  (existsb (sameIdentity u) (allUsers (auth w)) = false ->
   exists now,
     byEmail = Normal (Some (User.assign u (User.only_createdAt now))) /\
     byEmployeeId = Normal (Some (User.assign u (User.only_createdAt now)))).
Proof.
  intros Hcase w' byEmail byEmployeeId. subst byEmail byEmployeeId w'.
  unfold getUserByEmail, getUserByEmployeeId, eval, ret. cbn [fst].
  rewrite addUser_users.
  destruct (existsb (sameIdentity u) (allUsers (auth w))) eqn:E.
  - split; [ | discriminate ].
    apply existsb_exists in E as (v & Hv & Hs).
    unfold sameIdentity in Hs. apply orb_true_iff in Hs as [Hs | Hs].
    + left. rewrite Hcase.
      destruct (find_existsb
                  (fun x => seq (toLowerCase (User.email x)) (toLowerCase (User.email u)))
                  (allUsers (auth w))) as (x & ->);
        [ apply existsb_exists; eauto | eauto ].
    + right.
      destruct (find_existsb (fun x => seq (User.employeeId x) (User.employeeId u))
                             (allUsers (auth w))) as (x & ->);
        [ apply existsb_exists; eauto | eauto ].
  - assert (Hnone : forall y, In y (allUsers (auth w)) -> sameIdentity u y = false).
    { intros y Hy. destruct (sameIdentity u y) eqn:Es; [ | reflexivity ].
      assert (existsb (sameIdentity u) (allUsers (auth w)) = true)
        by (apply existsb_exists; eauto).
      congruence. }
    assert (Hboth :
      find (fun x => seq (toLowerCase (User.email x)) (toLowerCase email))
           (allUsers (auth w) ++
            [User.assign u (User.only_createdAt
               (values (clock (browser w)) (taken (clock (browser w)))))])
      = Some (User.assign u (User.only_createdAt
               (values (clock (browser w)) (taken (clock (browser w)))))) /\
      find (fun x => seq (User.employeeId x) (User.employeeId u))
           (allUsers (auth w) ++
            [User.assign u (User.only_createdAt
               (values (clock (browser w)) (taken (clock (browser w)))))])
      = Some (User.assign u (User.only_createdAt
               (values (clock (browser w)) (taken (clock (browser w))))))).
    { split; apply find_last.
      - intros y Hy. specialize (Hnone y Hy). unfold sameIdentity in Hnone.
        apply orb_false_iff in Hnone as [Hn _]. rewrite Hcase. exact Hn.
      - cbn. rewrite Hcase. apply String.eqb_refl.
      - intros y Hy. specialize (Hnone y Hy). unfold sameIdentity in Hnone.
        apply orb_false_iff in Hnone as [_ Hn]. exact Hn.
      - cbn. apply String.eqb_refl. }
    destruct Hboth as [H1 H2]. rewrite H1, H2.
    split; [ left; eauto | ]. intros _. eexists. split; reflexivity.
Qed.

Lemma added_user_is_found_witness :
  exists v,
    eval (getUserByEmail (allUsers (auth (exec (addUser bob) firstVisit)))
                         (Some "BOB@company.com"))
         (exec (addUser bob) firstVisit) = Normal (Some v) /\
    User.id v = "2".
Proof.
  destruct (added_user_is_found bob "BOB@company.com" firstVisit) as (_ & H).
  - reflexivity.
  - destruct H as (now & H1 & _); [ reflexivity | ].
    eexists. split; [ exact H1 | reflexivity ].
Defined.

Lemma unique_same_email (us : list User.t) (u v : User.t) :
  uniqueIdentity us -> In u us -> In v us ->
  toLowerCase (User.email v) = toLowerCase (User.email u) -> v = u.
Proof.
  induction us as [ | x r IH]; intros Huniq Hu Hv Hmail; [ contradiction | ].
  destruct Huniq as [Hx Hr].
  destruct Hu as [-> | Hu]; destruct Hv as [-> | Hv]; auto.
  - specialize (Hx v Hv). unfold sameIdentity, seq in Hx.
    rewrite Hmail, String.eqb_refl in Hx. discriminate.
  - specialize (Hx u Hu). unfold sameIdentity, seq in Hx.
    rewrite <- Hmail, String.eqb_refl in Hx. discriminate.
Qed.

(** X9. In a store without shared identities, once a user is deleted and
    the users are saved, no password logs in with the email of that user. *)
Theorem deleted_user_cannot_log_in (u : User.t) (password : string) (w : World) :
  uniqueIdentity (allUsers (auth w)) ->
  In u (allUsers (auth w)) ->
  let w2 := exec saveUsersEffect (exec (deleteUser (User.id u)) w) in
  eval (login (User.email u) password) w2 = Normal false /\
  user (auth (exec (login (User.email u) password) w2)) = user (auth w2).
Proof.
  intros Huniq Hin w2.
  destruct (saveUsersEffect_stored (exec (deleteUser (User.id u)) w)) as (Hst & _).
  fold w2 in Hst. rewrite deleteUser_users in Hst.
  assert (Hfind : findByEmail (User.email u) (storedUsers w2) = None).
  { rewrite Hst. unfold findByEmail.
    destruct (find _ _) as [v | ] eqn:Ef; [ | reflexivity ].
    apply find_some in Ef as [Hv Hm]. apply filter_In in Hv as [Hv Hne].
    apply String.eqb_eq in Hm.
    rewrite (unique_same_email _ u v Huniq Hin Hv Hm) in Hne.
    unfold seq in Hne. rewrite String.eqb_refl in Hne. discriminate. }
  pose proof (login_spec (User.email u) password w2) as [H _].
  rewrite Hfind in H. destruct H as (H1 & H2 & _). auto.
Qed.

Lemma deleted_user_cannot_log_in_witness :
  eval (login "admin@company.com" "admin123")
       (exec saveUsersEffect (exec (deleteUser "1") firstVisit)) = Normal false.
Proof.
  destruct (deleted_user_cannot_log_in (hd bob (allUsers (auth firstVisit))) "admin123"
              firstVisit) as (H & _).
  - cbn. split; [ intros v [] | exact I ].
  - left. reflexivity.
  - exact H.
Defined.

(** X10. [clearAllData] removes the stored users, session and groups, makes
    the initial users the users in memory and ends the session, after which
    the seed admin logs in; it keeps the stored responses and the groups
    that the admin portal holds in memory. *)
Theorem clear_all_data_resets (w : World) :
  let w' := exec clearAllData w in
  allUsers (auth w') = initialUsers (loadedAt (browser w)) /\
  user (auth w') = None /\
  systemUsers (localStorage (browser w')) = None /\
  currentUser (localStorage (browser w')) = None /\
  systemGroups (localStorage (browser w')) = None /\
  systemMCQResponses (localStorage (browser w'))
    = systemMCQResponses (localStorage (browser w)) /\
  groups (admin w') = groups (admin w) /\
  eval (login "admin@company.com" "admin123") w' = Normal true.
Proof.
  destruct w as [[se il us] ad po [[su cu sg sr] co al ti cl ra la]].
  cbv zeta. repeat split; reflexivity.
Qed.

(* ================================================================== *)
(** * Further properties of PasswordGenerator.tsx                      *)
(* ================================================================== *)

Lemma item_text_in (arr : list string) (i : Z) :
  (0 <= i < Z.of_nat (List.length arr))%Z -> In (item_text arr i) arr.
Proof.
  intros [Hlo Hhi]. unfold item_text.
  destruct (Z.ltb_spec i 0); [ lia | ]. apply nth_In. lia.
Qed.

(** X11. Whatever values in [[0, 1)] the random source gives,
    [generateSimplePassword] takes three of them and returns one of the
    eight adjectives, one of the eight nouns and a number from 100 to 1098
    (three or four digits), in this order. *)
Theorem generateSimplePassword_shape (o : Oracle Q) :
  unitRandom o ->
  exists adjective noun number,
    fst (generateSimplePassword o) = (adjective ++ noun ++ Z_toString number)%string /\
    In adjective ["Happy"; "Smart"; "Bright"; "Quick"; "Swift"; "Bold"; "Calm"; "Cool"] /\
    In noun ["Tiger"; "Eagle"; "Lion"; "Bear"; "Wolf"; "Fox"; "Hawk"; "Star"] /\
    (100 <= number <= 1098)%Z /\
    snd (generateSimplePassword o) = next (next (next o)).
Proof.
  intros Hr. unfold generateSimplePassword, rbind, Math_random, rret. cbn [fst snd values taken].
  destruct (Hr (taken o)) as [A0 A1].
  destruct (Hr (S (taken o))) as [B0 B1].
  destruct (Hr (S (S (taken o)))) as [C0 C1].
  pose proof (floor_scaled_range _ 999 A0 A1 ltac:(lia)) as Ha.
  pose proof (floor_scaled_range _ 8 B0 B1 ltac:(lia)) as Hb.
  pose proof (floor_scaled_range _ 8 C0 C1 ltac:(lia)) as Hc.
  eexists. eexists. eexists.
  split; [ reflexivity | ].
  split; [ apply item_text_in; exact Hb | ].
  split; [ apply item_text_in; exact Hc | ].
  split; [ lia | reflexivity ].
Qed.

Lemma generateSimplePassword_shape_witness :
  exists adjective noun number,
    fst (generateSimplePassword (mkOracle (fun n => Z.of_nat (n mod 7) # 7) 0))
      = (adjective ++ noun ++ Z_toString number)%string /\
    (100 <= number <= 1098)%Z.
Proof.
  destruct (generateSimplePassword_shape (mkOracle (fun n => Z.of_nat (n mod 7) # 7) 0))
    as (a & n & k & H1 & _ & _ & H2 & _).
  - intros i. cbn [values]. unfold Qle, Qlt. cbn [Qnum Qden].
    assert (H : (i mod 7 < 7)%nat) by (apply Nat.mod_upper_bound; discriminate).
    split; lia.
  - exists a, n, k. split; [ exact H1 | exact H2 ].
Defined.

Lemma fill_chars (n : nat) (password : string) (o : Oracle Q) :
  unitRandom o ->
  exists tail o',
    fill n password o
      = (string_of_list_ascii (list_ascii_of_string password ++ tail), o') /\
    List.length tail = n /\
    Forall (fun c => In c (list_ascii_of_string allChars)) tail.
Proof.
  revert password o. induction n as [ | n IH]; intros password o Hr; cbn [fill].
  - exists [], o. unfold rret. rewrite app_nil_r, string_of_list_ascii_of_string.
    repeat split. constructor.
  - unfold rbind.
    destruct (pick_spec allChars o Hr) as (c & Hp & Hc); [ cbn; lia | ].
    rewrite Hp.
    destruct (IH (append_char password (Some c)) (next o) (unitRandom_next _ Hr))
      as (tail & o' & Hf & Hlen & Hall).
    exists (c :: tail), o'. split; [ | split; [ cbn; lia | constructor; assumption ] ].
    rewrite Hf. cbn [append_char]. rewrite list_ascii_app, <- app_assoc. reflexivity.
Qed.

Lemma allChars_classes (c : ascii) :
  In c (list_ascii_of_string lowercase) \/ In c (list_ascii_of_string uppercase) \/
  In c (list_ascii_of_string numbers) \/ In c (list_ascii_of_string symbols) ->
  In c (list_ascii_of_string allChars).
Proof.
  unfold allChars. rewrite !list_ascii_app, !in_app_iff. tauto.
Qed.

(** X12. For every length asked for, and whatever values in [[0, 1)] the
    random source gives, [generateSecurePassword] returns a lowercase
    letter, an uppercase letter, a digit and a symbol among its characters,
    all of them taken from the 88 characters of the alphabet; its length is
    the length asked for, and 4 when less than 4 is asked for. *)
Theorem generateSecurePassword_any_length (engine : ArraySort) (length : nat)
        (o : Oracle Q) :
  unitRandom o ->
  let password := list_ascii_of_string (fst (generateSecurePassword length o)) in
  List.length password = Nat.max 4 length /\
  Forall (fun c => In c (list_ascii_of_string allChars)) password /\
  existsb is_lower password = true /\
  existsb is_upper password = true /\
  existsb is_digit password = true /\
  existsb is_symbol password = true.
Proof.
  intros Hr. cbv zeta.
  unfold generateSecurePassword, rbind.
  destruct (pick_spec lowercase o Hr) as (c1 & -> & H1); [ cbn; lia | ].
  pose proof (unitRandom_next _ Hr) as Hr1.
  destruct (pick_spec uppercase _ Hr1) as (c2 & -> & H2); [ cbn; lia | ].
  pose proof (unitRandom_next _ Hr1) as Hr2.
  destruct (pick_spec numbers _ Hr2) as (c3 & -> & H3); [ cbn; lia | ].
  pose proof (unitRandom_next _ Hr2) as Hr3.
  destruct (pick_spec symbols _ Hr3) as (c4 & -> & H4); [ cbn; lia | ].
  pose proof (unitRandom_next _ Hr3) as Hr4.
  cbn [append_char].
  destruct (fill_chars (length - 4)
              ((((("" ++ String c1 "") ++ String c2 "") ++ String c3 "")
                  ++ String c4 "")%string)
              _ Hr4) as (tail & o5 & -> & Hlen & Hall).
  cbn [list_ascii_of_string String.append app].
  rewrite list_ascii_of_string_of_list_ascii.
  pose proof (Array_sort_perm ascii
                (fun _ _ o0 => let (a, o') := Math_random o0 in rret (a - (1 # 2)) o')
                (c1 :: c2 :: c3 :: c4 :: tail) o5) as Hperm.
  destruct (Array_sort _ (c1 :: c2 :: c3 :: c4 :: tail) o5) as [shuffled o6].
  cbn [fst] in *. unfold rret. cbn [fst].
  rewrite list_ascii_of_string_of_list_ascii.
  split; [ | split; [ | repeat split ] ].
  - rewrite <- (Permutation_length Hperm). cbn [List.length]. rewrite Hlen. lia.
  - apply (Permutation_Forall Hperm).
    repeat (apply Forall_cons; [ apply allChars_classes; tauto | ]). exact Hall.
  - apply existsb_exists. exists c1. split; [ | apply lowercase_class; exact H1 ].
    apply (Permutation_in _ Hperm). cbn. auto.
  - apply existsb_exists. exists c2. split; [ | apply uppercase_class; exact H2 ].
    apply (Permutation_in _ Hperm). cbn. auto.
  - apply existsb_exists. exists c3. split; [ | apply numbers_class; exact H3 ].
    apply (Permutation_in _ Hperm). cbn. auto.
  - apply existsb_exists. exists c4. split; [ | apply symbols_class; exact H4 ].
    apply (Permutation_in _ Hperm). cbn. auto.
Qed.

Lemma generateSecurePassword_any_length_witness :
  List.length
    (list_ascii_of_string
       (fst (@generateSecurePassword insertionEngine 2
               (mkOracle (fun n => Z.of_nat (n mod 7) # 7) 0)))) = 4%nat.
Proof.
  destruct (generateSecurePassword_any_length insertionEngine 2
              (mkOracle (fun n => Z.of_nat (n mod 7) # 7) 0)) as (H & _).
  - intros i. cbn [values]. unfold Qle, Qlt. cbn [Qnum Qden].
    assert (H : (i mod 7 < 7)%nat) by (apply Nat.mod_upper_bound; discriminate).
    split; lia.
  - exact H.
Defined.

(* ================================================================== *)
(** * Further properties of UserPortal.tsx                             *)
(* ================================================================== *)

Lemma existsb_false_find {A} (p : A -> bool) (l : list A) :
  existsb p l = false -> find p l = None /\ forall y, In y l -> p y = false.
Proof.
  intros H. split.
  - destruct (find p l) as [x | ] eqn:E; [ | reflexivity ].
    apply find_some in E as [Hin Hp].
    assert (existsb p l = true) by (apply existsb_exists; eauto). congruence.
  - intros y Hy. destruct (p y) eqn:E; [ | reflexivity ].
    assert (existsb p l = true) by (apply existsb_exists; eauto). congruence.
Qed.

Lemma handleMCQAnswer_run (messageId selectedOption : string) (mcqData : MCQQuestion.t)
      (u : User.t) (w : World) :
  user (auth w) = Some u ->
  existsb (answers messageId (Some (User.id u))) (responses (portal w)) = false ->
  let r := responseOf messageId selectedOption mcqData u w in
  responses (portal (exec (handleMCQAnswer messageId selectedOption mcqData) w))
    = responses (portal w) ++ [r] /\
  systemMCQResponses
    (localStorage (browser (exec (handleMCQAnswer messageId selectedOption mcqData) w)))
    = Some (Json (responses (portal w) ++ [r])) /\
  auth (exec (handleMCQAnswer messageId selectedOption mcqData) w) = auth w.
Proof.
  intros Hu Hex. apply existsb_false_find in Hex as [Hr _].
  destruct w as [[us il al] ad [rs sg] [st co alerts ti [cv ct] ra la]].
  cbn in Hu, Hr. subst us. unfold exec.
  destruct (handleMCQAnswer messageId selectedOption mcqData _) as [c w'] eqn:E.
  unfold handleMCQAnswer in E. unfold bind at 1 in E. cbn [gets auth user] in E.
  unfold bind at 1 in E. cbn [gets portal responses] in E. rewrite Hr in E.
  cbn in E. injection E as <- <-. cbn. repeat split; reflexivity.
Qed.

(** X13. The first answer of the user of the session to a message is
    recorded: the portal appends one response to its responses, with the
    message, the user's id, name and email, the selected group (or the empty
    text), the option chosen, and [isCorrect] telling whether the option is
    the question's correct answer; the stored responses become the portal's
    responses with the new one, whatever was stored before; and the message
    then shows as answered, with this response. *)
Theorem first_answer_is_recorded (messageId selectedOption : string)
        (mcqData : MCQQuestion.t) (u : User.t) (w : World) :
  user (auth w) = Some u ->
  existsb (answers messageId (Some (User.id u))) (responses (portal w)) = false ->
  let w' := exec (handleMCQAnswer messageId selectedOption mcqData) w in
  let r := responseOf messageId selectedOption mcqData u w in
  responses (portal w') = responses (portal w) ++ [r] /\
  systemMCQResponses (localStorage (browser w'))
    = Some (Json (responses (portal w) ++ [r])) /\
  eval (hasUserAnswered messageId) w' = Normal true /\
  eval (getUserResponse messageId) w' = Normal (Some r).
Proof.
  intros Hu Hex w' r.
  destruct (handleMCQAnswer_run messageId selectedOption mcqData u w Hu Hex)
    as (Hmem & Hsto & Hauth).
  fold w' in Hmem, Hsto, Hauth. fold r in Hmem, Hsto.
  apply existsb_false_find in Hex as [_ Hnone].
  assert (Hr : answers messageId (Some (User.id u)) r = true)
    by (unfold answers, seq; cbn; rewrite !String.eqb_refl; reflexivity).
  assert (Huser : user (auth w') = Some u) by (rewrite Hauth; exact Hu).
  repeat split; auto.
  - unfold eval, hasUserAnswered. run_js.
    change (user (auth w')) with (user (auth w')).
    fold (auth w'). fold (user (auth w')). fold (portal w'). fold (responses (portal w')).
    rewrite Huser, Hmem. cbn [option_map]. rewrite existsb_app. cbn [existsb].
    rewrite Hr. rewrite orb_true_r. reflexivity.
  - unfold eval, getUserResponse. run_js.
    fold (auth w'). fold (user (auth w')). fold (portal w'). fold (responses (portal w')).
    rewrite Huser, Hmem. cbn [option_map].
    rewrite (find_last _ _ r Hnone Hr). reflexivity.
Qed.

Lemma first_answer_is_recorded_witness :
  storedResponses
    (exec (handleMCQAnswer "m1" "B" (MCQQuestion.mk "Which one?" ["A"; "B"] "B"))
          unansweredVisit)
  = Some [MCQResponse.mk "1700000000001" "m1" "2" "Bob" "bob@company.com" "g1" "B"
                         1700000000002%Z true].
Proof.
  destruct (first_answer_is_recorded "m1" "B" (MCQQuestion.mk "Which one?" ["A"; "B"] "B")
              (User.assign bob User.no_password) unansweredVisit) as (_ & H & _).
  - reflexivity.
  - reflexivity.
  - unfold storedResponses. rewrite H. reflexivity.
Defined.

Lemma login_frame (email password : string) (w : World) :
  portal (exec (login email password) w) = portal w /\
  admin (exec (login email password) w) = admin w /\
  systemMCQResponses (localStorage (browser (exec (login email password) w)))
    = systemMCQResponses (localStorage (browser w)) /\
  systemGroups (localStorage (browser (exec (login email password) w)))
    = systemGroups (localStorage (browser w)) /\
  systemUsers (localStorage (browser (exec (login email password) w)))
    = systemUsers (localStorage (browser w)).
Proof.
  unfold exec.
  destruct (login email password w) as [r w'] eqn:E.
  unfold login in E.
  unfold bind at 1 in E. cbn [setIsLoading modify] in E.
  unfold try_catch in E. unfold bind at 1 in E.
  destruct (loadUsersFromStorage_spec
              (on_auth (fun a => mkAuth (user a) true (allUsers a)) w)) as [c Hload].
  rewrite Hload in E.
  destruct w as [a ad po [[su cu sg sr] co al ti cl ra la]].
  destruct (find _ (storedUsers _)) as [fu | ].
  - destruct (oseq (User.password fu) password);
      cbn in E; injection E as <- <-; cbn; auto.
  - cbn in E; injection E as <- <-; cbn; auto.
Qed.

Lemma loadResponsesFromStorage_run (w : World) :
  responses (portal (exec loadResponsesFromStorage w))
    = match storedResponses w with
      | Some l => l
      | None => responses (portal w)
      end /\
  localStorage (browser (exec loadResponsesFromStorage w)) = localStorage (browser w) /\
  auth (exec loadResponsesFromStorage w) = auth w /\
  eval loadResponsesFromStorage w = Normal tt.
Proof.
  destruct w as [a ad [rs sg] [[su cu sgr sr] co al ti cl ra la]].
  unfold loadResponsesFromStorage, storedResponses.
  destruct sr as [[ | | l] | ]; cbn; auto.
Qed.

(** X14. Answering, the periodic refresh of the responses, logging in and
    logging out, in any order and any number of times, keep at most one
    response for every pair of a message and a user, in the portal's
    memory and in the store, when the portal starts so. *)
Theorem responses_stay_unique (actions : list PortalAction) (w : World) :
  responsesOk w ->
  responsesOk (fold_left (fun w a => exec (portalStep a) w) actions w).
Proof.
  revert w. induction actions as [ | a r IH]; intros w Hok; [ exact Hok | ].
  cbn [fold_left]. apply IH. clear IH r.
  destruct Hok as [Hmem Hsto].
  destruct a as [messageId selectedOption mcqData | | email password | ];
    cbn [portalStep].
  - (* an answer *)
    pose proof (handleMCQAnswer_atMostOne messageId selectedOption mcqData w Hmem) as Hm'.
    split; [ exact Hm' | ].
    destruct (user (auth w)) as [u | ] eqn:Hu.
    + destruct (existsb (answers messageId (Some (User.id u))) (responses (portal w)))
        eqn:Hex.
      * rewrite (handleMCQAnswer_answered _ selectedOption mcqData u w Hu Hex).
        destruct w as [a ad po [st co al ti cl ra la]]. exact Hsto.
      * destruct (handleMCQAnswer_run messageId selectedOption mcqData u w Hu Hex)
          as (Hmem' & Hsto' & _).
        intros l Hl. unfold storedResponses in Hl. rewrite Hsto' in Hl.
        injection Hl as <-. rewrite <- Hmem'. exact Hm'.
    + destruct w as [[us il al] ad po br]. cbn in Hu. subst us. exact Hsto.
  - (* a refresh *)
    destruct (loadResponsesFromStorage_run w) as (Hm' & Hs' & _).
    split.
    + rewrite Hm'. destruct (storedResponses w) as [l | ] eqn:E; [ | exact Hmem ].
      apply Hsto. reflexivity.
    + unfold storedResponses in *. rewrite Hs'. exact Hsto.
  - (* a login *)
    destruct (login_frame email password w) as (Hp & _ & Hs & _).
    assert (Hex : exec (_ <- login email password ;; ret tt) w
                  = exec (login email password) w).
    { unfold exec, bind, ret. destruct (login email password w) as [[b | e] w'];
        reflexivity. }
    rewrite Hex. split.
    + rewrite Hp. exact Hmem.
    + unfold storedResponses in *. rewrite Hs. exact Hsto.
  - (* a logout *)
    destruct w as [[us il al] ad po [[su cu sg sr] co al' ti cl ra la]].
    split; [ exact Hmem | exact Hsto ].
Qed.

Lemma responses_stay_unique_witness :
  responsesOk
    (fold_left (fun w a => exec (portalStep a) w)
       [Answer "m1" "B" (MCQQuestion.mk "Which one?" ["A"; "B"] "B");
        Refresh;
        Answer "m1" "A" (MCQQuestion.mk "Which one?" ["A"; "B"] "B");
        Logout]
       unansweredVisit).
Proof.
  apply responses_stay_unique. split.
  - intros m i. cbn. lia.
  - intros l Hl. cbv in Hl. injection Hl as <-.
    intros m i. unfold responseCount. cbn [filter].
    destruct (answers m (Some i) _); cbn; lia.
Defined.

(** X15. An answer recorded in one portal is what any portal reading the
    same store shows after its next refresh: the responses of that portal
    become the responses of the answering portal, the new one included. *)
Theorem answer_reaches_other_portals (messageId selectedOption : string)
        (mcqData : MCQQuestion.t) (u : User.t) (w other : World) :
  user (auth w) = Some u ->
  existsb (answers messageId (Some (User.id u))) (responses (portal w)) = false ->
  systemMCQResponses (localStorage (browser other))
    = systemMCQResponses
        (localStorage (browser (exec (handleMCQAnswer messageId selectedOption mcqData) w))) ->
  responses (portal (exec loadResponsesFromStorage other))
    = responses (portal w) ++ [responseOf messageId selectedOption mcqData u w].
Proof.
  intros Hu Hex Hsame.
  destruct (handleMCQAnswer_run messageId selectedOption mcqData u w Hu Hex)
    as (_ & Hsto & _).
  destruct (loadResponsesFromStorage_run other) as (Hm & _).
  rewrite Hm. unfold storedResponses. rewrite Hsame, Hsto. reflexivity.
Qed.

Lemma answer_reaches_other_portals_witness :
  let w := exec (handleMCQAnswer "m1" "B" (MCQQuestion.mk "Which one?" ["A"; "B"] "B"))
                unansweredVisit in
  responses (portal (exec loadResponsesFromStorage
                          (mkWorld (auth firstVisit) (admin firstVisit) (mkPortal [] None)
                                   (browser w))))
  = [MCQResponse.mk "1700000000001" "m1" "2" "Bob" "bob@company.com" "g1" "B"
                    1700000000002%Z true].
Proof.
  cbv zeta.
  rewrite (answer_reaches_other_portals "m1" "B"
             (MCQQuestion.mk "Which one?" ["A"; "B"] "B")
             (User.assign bob User.no_password) unansweredVisit); reflexivity.
Defined.

(** X16. When nothing is stored under the responses key, or the stored
    text is empty or does not parse, refreshing the responses completes
    without an exception and keeps the responses the portal has in memory;
    it writes nothing to the store. *)
Theorem unreadable_responses_keep_memory (w : World) :
  storedResponses w = None ->
  eval loadResponsesFromStorage w = Normal tt /\
  responses (portal (exec loadResponsesFromStorage w)) = responses (portal w) /\
  localStorage (browser (exec loadResponsesFromStorage w)) = localStorage (browser w).
Proof.
  intros Hnone.
  destruct (loadResponsesFromStorage_run w) as (Hm & Hs & _ & He).
  rewrite Hnone in Hm. auto.
Qed.

Lemma unreadable_responses_keep_memory_witness :
  let w := on_storage (fun s => mkStorage (systemUsers s) (currentUser s) (systemGroups s)
                                          (Some Garbled)) answeredVisit in
  List.length (responses (portal (exec loadResponsesFromStorage w))) = 1%nat.
Proof.
  cbv zeta.
  destruct (unreadable_responses_keep_memory
              (on_storage (fun s => mkStorage (systemUsers s) (currentUser s)
                                              (systemGroups s) (Some Garbled))
                          answeredVisit)) as (_ & H & _).
  - reflexivity.
  - rewrite H. reflexivity.
Defined.

Lemma or_else_id (s : string) : or_else (Some s) "" = s.
Proof. destruct s; reflexivity. Qed.

Lemma handleAddUserToGroup_saved (userId groupId : string) (w : World) :
  systemGroups (localStorage (browser
    (exec (handleAddUserToGroup userId groupId ;; saveGroupsEffect) w)))
  = Some (Json (addMemberGroups userId groupId (groups (admin w)))).
Proof.
  destruct w as [[se il us] [gs d ng pt gp ad uf up ur iu] po
                 [[su cs sg sr] co al ti cl ra la]].
  unfold handleAddUserToGroup, saveGroupsEffect, updateUser. run_js.
  destruct (find _ us) as [cu | ];
    [ destruct (negb (includes (User.groups cu) groupId)) | ]; reflexivity.
Qed.

Lemma handleRemoveUserFromGroup_saved (userId groupId : string)
      (w : World) :
  systemGroups (localStorage (browser
    (exec (handleRemoveUserFromGroup userId groupId ;; saveGroupsEffect) w)))
  = Some (Json (removeMemberGroups userId groupId (groups (admin w)))).
Proof.
  destruct w as [[se il us] [gs d ng pt gp ad uf up ur iu] po
                 [[su cs sg sr] co al ti cl ra la]].
  unfold handleRemoveUserFromGroup, saveGroupsEffect, updateUser. run_js.
  destruct (find _ us) as [cu | ]; reflexivity.
Qed.

Lemma loadGroupsFromStorage_stored (old l : list Group.t) (w : World) :
  systemGroups (localStorage (browser w)) = Some (Json l) ->
  eval (loadGroupsFromStorage old) w = Normal l.
Proof.
  destruct w as [a ad po [[su cu sg sr] co al ti cl ra la]].
  cbn. intros ->. reflexivity.
Qed.

(** X17. A user whom the admin adds to an existing group sees the group:
    once the groups are saved, a portal reading the same store, with this
    user in its session, loads the groups and lists the group among the
    user's groups, with the user among its members. *)
Theorem added_member_sees_group (userId groupId : string)
        (u : User.t) (g : Group.t) (old : list Group.t) (w other : World) :
  User.id u = userId ->
  In g (groups (admin w)) ->
  Group.id g = groupId ->
  systemGroups (localStorage (browser other))
    = systemGroups (localStorage (browser
        (exec (handleAddUserToGroup userId groupId ;; saveGroupsEffect) w))) ->
  exists loaded g',
    eval (loadGroupsFromStorage old) other = Normal loaded /\
    In g' (userGroups (Some u) loaded) /\
    Group.id g' = groupId /\
    Group.name g' = Group.name g /\
    In userId (Group.members g').
Proof.
  intros Hu Hg Hid Hsame.
  rewrite handleAddUserToGroup_saved in Hsame.
  exists (addMemberGroups userId groupId (groups (admin w))).
  set (f := fun g0 : Group.t =>
              if seq (Group.id g0) groupId && negb (includes (Group.members g0) userId)
              then Group.with_members g0 (Group.members g0 ++ [userId])
              else g0).
  exists (f g).
  assert (Hin : In (f g) (addMemberGroups userId groupId (groups (admin w))))
    by (apply in_map; exact Hg).
  assert (Hgid : Group.id (f g) = groupId)
    by (unfold f; destruct (_ && _); cbn; exact Hid).
  assert (Hmem : In userId (Group.members (f g)))
    by (apply (addMember_group_side userId groupId _ _ Hin Hgid)).
  split; [ apply loadGroupsFromStorage_stored; exact Hsame | ].
  split; [ | split; [ exact Hgid | split; [ | exact Hmem ] ] ].
  - unfold userGroups. apply filter_In. split; [ exact Hin | ].
    cbn [option_map]. rewrite or_else_id, Hu.
    apply includes_In in Hmem. rewrite Hmem. reflexivity.
  - unfold f. destruct (_ && _); reflexivity.
Qed.

Lemma added_member_sees_group_witness :
  exists loaded g',
    eval (loadGroupsFromStorage [])
         (on_storage
            (fun s => mkStorage (systemUsers s) (currentUser s)
                        (systemGroups (localStorage (browser
                           (exec (handleAddUserToGroup "3" "g1" ;;
                                  saveGroupsEffect) twoGroupsVisit))))
                        (systemMCQResponses s))
            firstVisit)
      = Normal loaded /\
    In g' (userGroups (Some carol) loaded) /\
    Group.id g' = "g1"%string /\
    Group.name g' = "Maths"%string /\
    In "3"%string (Group.members g').
Proof.
  apply (added_member_sees_group "3" "g1" carol
           (Group.mk "g1" "Maths" "" ["2"] "1") [] twoGroupsVisit).
  - reflexivity.
  - left. reflexivity.
  - reflexivity.
  - reflexivity.
Defined.

(** X18. A user whom the admin removes from a group no longer sees it,
    unless the user created it: once the groups are saved, a portal reading
    the same store with this user in its session lists a group with that
    id only when the user is its creator, and the user is not among its
    members. *)
Theorem removed_member_loses_group (userId groupId : string)
        (u : User.t) (old : list Group.t) (w other : World) :
  User.id u = userId ->
  systemGroups (localStorage (browser other))
    = systemGroups (localStorage (browser
        (exec (handleRemoveUserFromGroup userId groupId ;; saveGroupsEffect) w))) ->
  exists loaded,
    eval (loadGroupsFromStorage old) other = Normal loaded /\
    forall g', In g' (userGroups (Some u) loaded) ->
               Group.id g' = groupId ->
               Group.createdBy g' = userId /\ ~ In userId (Group.members g').
Proof.
  intros Hu Hsame.
  rewrite handleRemoveUserFromGroup_saved in Hsame.
  exists (removeMemberGroups userId groupId (groups (admin w))).
  split; [ apply loadGroupsFromStorage_stored; exact Hsame | ].
  intros g' Hin Hid. unfold userGroups in Hin. apply filter_In in Hin as [Hin Hvis].
  pose proof (removeMember_group_side userId groupId _ _ Hin Hid) as Hout.
  split; [ | exact Hout ].
  cbn [option_map] in Hvis. rewrite or_else_id, Hu in Hvis.
  apply includes_not_In in Hout. rewrite Hout in Hvis. cbn [orb] in Hvis.
  apply String.eqb_eq in Hvis. exact Hvis.
Qed.

Lemma removed_member_loses_group_witness :
  exists loaded,
    eval (loadGroupsFromStorage [])
         (on_storage
            (fun s => mkStorage (systemUsers s) (currentUser s)
                        (systemGroups (localStorage (browser
                           (exec (handleRemoveUserFromGroup "2" "g1" ;;
                                  saveGroupsEffect) twoGroupsVisit))))
                        (systemMCQResponses s))
            firstVisit)
      = Normal loaded /\
    forall g', In g' (userGroups (Some bob) loaded) ->
               Group.id g' = "g1"%string ->
               Group.createdBy g' = "2"%string /\ ~ In "2"%string (Group.members g').
Proof.
  apply (removed_member_loses_group "2" "g1" bob [] twoGroupsVisit).
  - reflexivity.
  - reflexivity.
Defined.

(* ================================================================== *)
(** * Further properties of AdminPortal.tsx                            *)
(* ================================================================== *)

Lemma trimEnd_head (c : ascii) (r : string) :
  is_space c = false -> trimEnd (String c r) <> ""%string.
Proof.
  intros Hc. cbn [trimEnd]. destruct (trimEnd r); [ rewrite Hc | ]; discriminate.
Qed.

Lemma trim_blank (s : string) : seq (trim s) "" = blank s.
Proof.
  unfold trim, blank. induction s as [ | c r IH]; [ reflexivity | ].
  cbn [trimStart list_ascii_of_string forallb].
  destruct (is_space c) eqn:Hc; cbn [andb]; [ exact IH | ].
  pose proof (trimEnd_head c r Hc) as Hne.
  destruct (trimEnd (String c r)); [ contradiction | reflexivity ].
Qed.

(** X19. [handleCreateGroup] refuses a group name made of white space only
    (or empty): it alerts, creates nothing and keeps the form.  With any
    other name it appends exactly one group, with the name and the
    description as typed, no member, and the id of the session's user as
    its creator; it clears the form and alerts nothing. *)
Theorem group_needs_a_name (w : World) :
  let form := newGroup (admin w) in
  let w' := exec handleCreateGroup w in
  if blank (NewGroup.name form) then
    groups (admin w') = groups (admin w) /\
    newGroup (admin w') = form /\
    alerts (browser w') = alerts (browser w) ++ ["Group name is required"]
  else
    (exists g,
        groups (admin w') = groups (admin w) ++ [g] /\
        Group.name g = NewGroup.name form /\
        Group.description g = NewGroup.description form /\
        Group.members g = [] /\
        Group.createdBy g = match user (auth w) with
                            | Some u => User.id u
                            | None => ""
                            end) /\
    newGroup (admin w') = NewGroup.blank /\
    alerts (browser w') = alerts (browser w).
Proof.
  destruct w as [[se il us] [gs d ng pt gp ad uf up ur iu] po
                 [st co al ti [cv ct] ra la]].
  cbv zeta. cbn [admin newGroup]. rewrite <- trim_blank.
  unfold handleCreateGroup. run_js.
  destruct (seq (trim (NewGroup.name ng)) "").
  - repeat split; reflexivity.
  - split; [ | split; reflexivity ].
    eexists. split; [ reflexivity | ]. cbn.
    repeat split. destruct se as [u | ]; [ apply or_else_id | reflexivity ].
Qed.

Lemma find_map_same_id (userId : string) (f : User.t -> User.t) (us : list User.t)
      (cu : User.t) :
  (forall u, User.id (f u) = User.id u) ->
  find (fun u => seq (User.id u) userId) us = Some cu ->
  find (fun u => seq (User.id u) userId)
       (map (fun u => if seq (User.id u) userId then f u else u) us)
  = Some (f cu).
Proof.
  intros Hid. induction us as [ | x r IH]; cbn; [ discriminate | ].
  destruct (seq (User.id x) userId) eqn:E.
  - intros [= ->]. rewrite Hid, E. reflexivity.
  - rewrite E. exact IH.
Qed.

Lemma addMemberUsers_twice (userId groupId : string) (us : list User.t) :
  addMemberUsers userId groupId (addMemberUsers userId groupId us)
  = addMemberUsers userId groupId us.
Proof.
  unfold addMemberUsers at 2.
  destruct (find _ us) as [cu | ] eqn:Ef.
  - destruct (includes (User.groups cu) groupId) eqn:Ei; cbn [negb].
    + unfold addMemberUsers. rewrite Ef, Ei. reflexivity.
    + unfold addMemberUsers.
      rewrite (find_map_same_id userId
                 (fun u => User.assign u (User.only_groups (User.groups cu ++ [groupId])))
                 us cu (fun u => eq_refl) Ef).
      rewrite Ef, Ei.
      cbn [User.assign User.only_groups User.groups User.p_groups User.over negb].
      assert (Hin : includes (User.groups cu ++ [groupId]) groupId = true)
        by (apply includes_In, in_or_app; right; left; reflexivity).
      rewrite Hin. reflexivity.
  - unfold addMemberUsers. rewrite Ef. reflexivity.
Qed.

Lemma addMemberGroups_twice (userId groupId : string) (gs : list Group.t) :
  addMemberGroups userId groupId (addMemberGroups userId groupId gs)
  = addMemberGroups userId groupId gs.
Proof.
  unfold addMemberGroups. rewrite map_map. apply map_ext. intros g.
  destruct (seq (Group.id g) groupId) eqn:Eid; cbn [andb].
  - destruct (includes (Group.members g) userId) eqn:Ei; cbn [negb].
    + rewrite Eid, Ei. reflexivity.
    + cbn [Group.with_members Group.id Group.members]. rewrite Eid. cbn [andb].
      assert (Hin : includes (Group.members g ++ [userId]) userId = true)
        by (apply includes_In, in_or_app; right; left; reflexivity).
      rewrite Hin. reflexivity.
  - rewrite Eid. reflexivity.
Qed.

(** X20. Adding a user to a group a second time changes nothing: after
    [handleAddUserToGroup] has run once, running it again with the same
    user and group leaves every user and every group as they are. *)
Theorem adding_a_member_twice_is_adding_once (userId groupId : string) (w : World) :
  let once := exec (handleAddUserToGroup userId groupId) w in
  let twice := exec (handleAddUserToGroup userId groupId) once in
  allUsers (auth twice) = allUsers (auth once) /\
  groups (admin twice) = groups (admin once).
Proof.
  cbv zeta.
  destruct (handleAddUserToGroup_data userId groupId
              (exec (handleAddUserToGroup userId groupId) w)) as (-> & ->).
  destruct (handleAddUserToGroup_data userId groupId w) as (-> & ->).
  split; [ apply addMemberUsers_twice | apply addMemberGroups_twice ].
Qed.

Lemma NoDup_snoc (x : string) (l : list string) :
  NoDup l -> ~ In x l -> NoDup (l ++ [x]).
Proof.
  intros Hl Hx. apply NoDup_app; [ exact Hl | repeat constructor; intros [] | ].
  intros y Hy [<- | []]. exact (Hx Hy).
Qed.

Lemma perform_duplicateFree (engine : ArraySort) (a : AdminAction) (w : World) :
  duplicateFree w -> duplicateFree (exec (perform a) w).
Proof.
  intros [Hg Hu]. unfold duplicateFree. destruct a; cbn [perform].
  - destruct w as [a [gs d0 ng pt gp ad uf up ur iu] po br]. split; assumption.
  - destruct w as [a [gs d0 ng pt gp ad uf up ur iu] po br]. split; assumption.
  - destruct w as [a [gs d0 ng pt gp ad uf up ur iu] po br]. split; assumption.
  - destruct w as [a [gs d0 ng pt gp ad uf up ur iu] po br]. split; assumption.
  - pose proof (handleCreateUser_spec engine w) as (Hgs & _ & H). cbv zeta in Hgs, H.
    rewrite Hgs. split; [ exact Hg | ].
    destruct (formClashes (newUser (admin w)) (allUsers (auth w))).
    + destruct H as (-> & _). exact Hu.
    + destruct H as (_ & _ & created & -> & _ & _ & Hgroups & _).
      intros u Hin. apply in_app_or in Hin as [Hin | [<- | []]];
        [ apply Hu; exact Hin | rewrite Hgroups; constructor ].
  - destruct (handleCreateGroup_data w) as (-> & [-> | (n & -> & Hm & _)]);
      [ split; assumption | ].
    split; [ | exact Hu ].
    intros g Hin. apply in_app_or in Hin as [Hin | [<- | []]];
      [ apply Hg; exact Hin | rewrite Hm; constructor ].
  - destruct (handleAddUserToGroup_data userId groupId w) as (-> & ->). split.
    + intros g Hin. unfold addMemberGroups in Hin.
      apply in_map_iff in Hin as (g0 & <- & Hin).
      destruct (seq (Group.id g0) groupId && negb (includes (Group.members g0) userId))
        eqn:E; [ | apply Hg; exact Hin ].
      apply andb_true_iff in E as [_ E]. apply negb_true_iff, includes_not_In in E.
      cbn. apply NoDup_snoc; [ apply Hg; exact Hin | exact E ].
    + intros u Hin. unfold addMemberUsers in Hin.
      destruct (find _ (allUsers (auth w))) as [cu | ] eqn:Ef; [ | apply Hu; exact Hin ].
      destruct (includes (User.groups cu) groupId) eqn:Ei; cbn [negb] in Hin;
        [ apply Hu; exact Hin | ].
      apply in_map_iff in Hin as (u0 & <- & Hin).
      destruct (seq (User.id u0) userId); [ | apply Hu; exact Hin ].
      cbn. apply NoDup_snoc.
      * apply Hu. apply find_some in Ef as [Hcu _]. exact Hcu.
      * apply includes_not_In. exact Ei.
  - destruct (handleRemoveUserFromGroup_data userId groupId w) as (-> & ->). split.
    + intros g Hin. unfold removeMemberGroups in Hin.
      apply in_map_iff in Hin as (g0 & <- & Hin).
      destruct (seq (Group.id g0) groupId); [ | apply Hg; exact Hin ].
      cbn. apply NoDup_filter, Hg. exact Hin.
    + intros u Hin. unfold removeMemberUsers in Hin.
      destruct (find _ (allUsers (auth w))) as [cu | ] eqn:Ef; [ | apply Hu; exact Hin ].
      apply in_map_iff in Hin as (u0 & <- & Hin).
      destruct (seq (User.id u0) userId); [ | apply Hu; exact Hin ].
      cbn. apply NoDup_filter, Hu. apply find_some in Ef as [Hcu _]. exact Hcu.
  - destruct (handleDeleteUser_data confirmed userId w) as (-> & ->).
    destruct confirmed; [ | split; assumption ]. split.
    + intros g Hin. apply in_map_iff in Hin as (g0 & <- & Hin).
      cbn. apply NoDup_filter, Hg. exact Hin.
    + intros u Hin. apply filter_In in Hin as [Hin _]. apply Hu. exact Hin.
  - destruct (processBulkUpload_spec engine w) as (-> & new & -> & Hnew).
    split; [ exact Hg | ].
    intros u Hin. apply in_app_or in Hin as [Hin | Hin]; [ apply Hu; exact Hin | ].
    rewrite Forall_forall in Hnew. rewrite (Hnew u Hin). constructor.
Qed.

(** X21. Whatever the admin does, in any order (filling the forms, creating
    users and groups, adding and removing members, deleting users, bulk
    uploads), no group comes to list a member twice and no user comes to
    list a group twice, when none did at the start. *)
Theorem member_lists_stay_duplicate_free (engine : ArraySort)
        (actions : list AdminAction) (w : World) :
  duplicateFree w ->
  duplicateFree (fold_left (fun w a => exec (perform a) w) actions w).
Proof.
  revert w. induction actions as [ | a r IH]; intros w Hok; [ exact Hok | ].
  cbn [fold_left]. apply IH. apply perform_duplicateFree. exact Hok.
Qed.

Lemma member_lists_stay_duplicate_free_witness :
  duplicateFree
    (fold_left (fun w a => exec (@perform insertionEngine a) w)
       [AddUserToGroup "3" "g1"; AddUserToGroup "3" "g1"; RemoveUserFromGroup "2" "g2";
        DeleteUser true "3"]
       twoGroupsVisit).
Proof.
  apply member_lists_stay_duplicate_free. split.
  - intros g [<- | [<- | []]]; cbn; repeat constructor; cbn; intuition discriminate.
  - intros u [<- | [<- | [<- | []]]]; cbn; repeat constructor; cbn; intuition discriminate.
Defined.

(** ** Bulk upload *)

Lemma existsb_find {A} (p : A -> bool) (l : list A) :
  existsb p l = match find p l with Some _ => true | None => false end.
Proof.
  induction l as [ | a r IH]; cbn; [ reflexivity | ].
  destruct (p a); [ reflexivity | exact IH ].
Qed.

Lemma missing_text_run (cell : option Cell.t) (w : World) :
  missing_text cell w
  = if trimmable cell then (Normal (negb (filled cell)), w) else (Thrown "TypeError", w).
Proof.
  destruct cell as [[s | n | b] | ]; cbn [missing_text trimmable filled Cell.truthy];
    unfold ret, throw.
  - destruct (seq s "") eqn:E; cbn [negb].
    + apply String.eqb_eq in E. subst s. reflexivity.
    + rewrite trim_blank, negb_involutive. reflexivity.
  - destruct (n =? 0)%Z; reflexivity.
  - destruct b; reflexivity.
  - reflexivity.
Qed.

Ltac decide_cells :=
  repeat match goal with
         | |- context [filled ?c] => destruct (filled c)
         end;
  repeat match goal with
         | |- context [email_shape ?s] => destruct (email_shape s)
         end;
  cbn; split; intros ?H; try discriminate; try reflexivity.

Lemma validateUserData_run (us : list User.t) (row : Row.t) (k : nat) (w : World) :
  (rowReadable us row = false /\
   validateUserData us row k w = (Thrown "TypeError", w)) \/
  (rowReadable us row = true /\
   exists errs,
     validateUserData us row k w = (Normal errs, w) /\
     (errs = [] <-> rowAccepted us row = true)).
Proof.
  destruct (validateUserData us row k w) as [c w'] eqn:E.
  destruct row as [nm em ph ei lo ia].
  unfold validateUserData in E. unfold rowReadable, rowAccepted.
  cbn [Row.Name Row.Email Row.Phone Row.EmployeeID Row.Location Row.IsAdmin] in *.
  remember (missing ei) as noId eqn:HnoId. remember (missing ph) as noPhone eqn:HnoPhone.
  clear HnoId HnoPhone.
  unfold bind at 1 in E. rewrite missing_text_run in E.
  destruct (trimmable nm);
    [ | injection E as <- <-; left; split; reflexivity ].
  unfold bind at 1 in E. rewrite missing_text_run in E.
  destruct (trimmable em) eqn:Hem;
    [ | injection E as <- <-; left; split; reflexivity ].
  unfold bind at 1 in E. rewrite missing_text_run in E.
  destruct (trimmable lo);
    [ | injection E as <- <-; left; split; reflexivity ].
  cbn [andb]. unfold getUserByEmail, getUserByEmployeeId in E.
  destruct (as_text em) as [e | ] eqn:He; [ | destruct us as [ | u r] ].
  - right. split; [ destruct us; reflexivity | ].
    unfold bind, ret in E.
    destruct ei as [i | ]; cbn [option_map] in E;
      rewrite !existsb_find;
      destruct (find _ us) as [x | ];
      try (destruct (find _ us) as [y | ]);
      injection E as <- <-;
      (eexists; split; [ reflexivity | ]);
      destruct noId, noPhone; decide_cells.
  - right. split; [ reflexivity | ].
    assert (Hfilled : filled em = false)
      by (destruct em as [[e | n | b] | ]; [ discriminate He | reflexivity .. ]).
    rewrite Hfilled in *. unfold bind, ret in E.
    destruct ei as [i | ]; cbn [option_map find existsb negb] in *;
      injection E as <- <-;
      (eexists; split; [ reflexivity | ]);
      destruct noId, noPhone; decide_cells.
  - left. unfold bind, throw in E. injection E as <- <-. split; reflexivity.
Qed.

Lemma uploading_refl (w : World) : uploading w w.
Proof. repeat split. Qed.

Lemma uploading_trans (w1 w2 w3 : World) :
  uploading w1 w2 -> uploading w2 w3 -> uploading w1 w3.
Proof.
  intros (A1 & A2 & A3 & A4 & A5 & A6 & A7 & A8) (B1 & B2 & B3 & B4 & B5 & B6 & B7 & B8).
  repeat split; congruence.
Qed.

Lemma uploadRows_run (engine : ArraySort) (us : list User.t) (se : option User.t)
      (t : PasswordType) (total : nat) (rows : list Row.t) :
  forall (i : nat) (result : BulkUploadResult.t) (w : World),
  exists c w',
    uploadRows us se t total i rows result w = (c, w') /\
    uploading w w' /\
    match c with
    | Normal res =>
        readable us rows /\
        exists created errs,
          BulkUploadResult.success res = BulkUploadResult.success result ++ created /\
          BulkUploadResult.errors res = BulkUploadResult.errors result ++ errs /\
          BulkUploadResult.passwords res
            = BulkUploadResult.passwords result ++ map credentialOf created /\
          Forall2 builtFrom (filter (rowAccepted us) rows) created /\
          map RowError.data errs
            = map Some (filter (fun r => negb (rowAccepted us r)) rows) /\
          Forall (fun e => i + 2 <= RowError.row e < i + 2 + List.length rows)%nat errs
    | Thrown _ => forallb (rowReadable us) rows = false
    end.
Proof.
  unfold readable.
  induction rows as [ | row rest IH]; intros i result w.
  - exists (Normal result), w. cbn. split; [ reflexivity | ].
    split; [ apply uploading_refl | ].
    split; [ reflexivity | ].
    exists [], []. cbn. rewrite !app_nil_r. repeat split; constructor.
  - destruct (uploadRows us se t total i (row :: rest) result w) as [c w'] eqn:E.
    exists c, w'. split; [ reflexivity | ].
    cbn [uploadRows] in E. unfold bind at 1 in E. cbn [setUploadProgress modify] in E.
    unfold bind at 1 in E.
    match type of E with
    | context [validateUserData us row ?k ?w0] =>
        assert (Hk0 : uploading w w0)
          by (destruct w as [a [gs d ng pt gp ad uf up ur iu] po br];
              repeat split);
        destruct (validateUserData_run us row k w0)
          as [(Hread & Hv) | (Hread & errs0 & Hv & Hacc)];
        rewrite Hv in E
    end.
    + injection E as <- <-. split; [ exact Hk0 | ].
      cbn [forallb]. rewrite Hread. reflexivity.
    + cbn [forallb]. rewrite Hread. cbn [andb].
      destruct errs0 as [ | err errs0].
      * assert (Hrow : rowAccepted us row = true) by (apply Hacc; reflexivity).
        unfold bind at 1 in E.
        match type of E with
        | context [generatePassword t ?w0] =>
            destruct (generatePassword_run engine t w0) as (p & o & Hp);
            rewrite Hp in E
        end.
        unfold bind at 1 in E. cbn [Date_now] in E.
        unfold bind at 1 in E. cbn [Date_now] in E.
        match type of E with
        | uploadRows us se t total (S i) rest ?r ?w0 = _ =>
            destruct (IH (S i) r w0) as (c2 & w2 & Hrun & Hk & Hc);
            assert (Hk1 : uploading w w0)
              by (destruct w as [a [gs d ng pt gp ad uf up ur iu] po
                                   [st co al ti [cv ct] ra la]];
                  repeat split)
        end.
        rewrite Hrun in E. injection E as <- <-.
        split; [ exact (uploading_trans _ _ _ Hk1 Hk) | ].
        destruct c2 as [res | e].
        -- destruct Hc as (Hrd & created & errs & Hs & Her & Hpw & Hb & Hd & Hr).
           split; [ exact Hrd | ].
           cbn [BulkUploadResult.success BulkUploadResult.errors
                BulkUploadResult.passwords] in Hs, Her, Hpw.
           rewrite <- app_assoc in Hs, Hpw.
           eexists (_ :: created), errs.
           split; [ exact Hs | ]. split; [ exact Her | ].
           split; [ exact Hpw | ].
           cbn [filter]. rewrite Hrow. cbn [negb].
           split; [ | split; [ exact Hd | ] ].
           ++ constructor; [ | exact Hb ].
              repeat split; try reflexivity. eexists. reflexivity.
           ++ eapply Forall_impl; [ | exact Hr ]. cbn. intros e0 He0. lia.
        -- exact Hc.
      * assert (Hrow : rowAccepted us row = false).
        { destruct (rowAccepted us row); [ | reflexivity ].
          destruct Hacc as [_ Hacc]. discriminate (Hacc eq_refl). }
        match type of E with
        | uploadRows us se t total (S i) rest ?r ?w0 = _ =>
            destruct (IH (S i) r w0) as (c2 & w2 & Hrun & Hk & Hc)
        end.
        rewrite Hrun in E. injection E as <- <-.
        split; [ exact (uploading_trans _ _ _ Hk0 Hk) | ].
        destruct c2 as [res | e].
        -- destruct Hc as (Hrd & created & errs & Hs & Her & Hpw & Hb & Hd & Hr).
           split; [ exact Hrd | ].
           cbn [BulkUploadResult.success BulkUploadResult.errors
                BulkUploadResult.passwords] in Hs, Her, Hpw.
           rewrite <- app_assoc in Her.
           eexists created, (_ :: errs).
           split; [ exact Hs | ]. split; [ exact Her | ].
           split; [ exact Hpw | ].
           cbn [filter]. rewrite Hrow. cbn [negb].
           split; [ exact Hb | split ].
           ++ cbn [map RowError.data]. rewrite Hd. reflexivity.
           ++ constructor.
              ** cbn [RowError.row List.length]. lia.
              ** eapply Forall_impl; [ | exact Hr ]. cbn. intros e0 He0. lia.
        -- exact Hc.
Qed.

Lemma processBulkUpload_run (engine : ArraySort) (rows : list Row.t) (w : World) :
  uploadFile (admin w) = Some (Some rows) ->
  let us := allUsers (auth w) in
  let w' := exec processBulkUpload w in
  eval processBulkUpload w = Normal tt /\
  isUploading (admin w') = false /\
  uploadProgress (admin w') = 100 /\
  groups (admin w') = groups (admin w) /\
  localStorage (browser w') = localStorage (browser w) /\
  ((readable us rows /\
    exists res k,
      uploadResult (admin w') = Some res /\
      allUsers (auth w')
        = us ++ stampAll (values (clock (browser w))) k
                  (filter (fun n => negb (existsb (sameIdentity n) us))
                          (BulkUploadResult.success res)) /\
      generatedPasswords (admin w')
        = match BulkUploadResult.passwords res with
          | [] => generatedPasswords (admin w)
          | _ :: _ => BulkUploadResult.passwords res
          end /\
      BulkUploadResult.passwords res = map credentialOf (BulkUploadResult.success res) /\
      Forall2 builtFrom (filter (rowAccepted us) rows) (BulkUploadResult.success res) /\
      map RowError.data (BulkUploadResult.errors res)
        = map Some (filter (fun r => negb (rowAccepted us r)) rows) /\
      Forall (fun e => 2 <= RowError.row e < 2 + List.length rows)%nat
             (BulkUploadResult.errors res))
   \/
   (forallb (rowReadable us) rows = false /\
    uploadResult (admin w') = Some failureReport /\
    allUsers (auth w') = us /\
    generatedPasswords (admin w') = generatedPasswords (admin w))).
Proof.
  intros Hfile. cbv zeta. unfold exec, eval.
  destruct (processBulkUpload w) as [c w'] eqn:E. cbn [fst snd].
  unfold processBulkUpload in E.
  do 4 (unfold bind at 1 in E; cbn [gets getAllUsers] in E).
  rewrite Hfile in E.
  unfold bind at 1 in E. cbn [setIsUploading modify] in E.
  unfold bind at 1 in E. cbn [setUploadProgress modify] in E.
  unfold bind at 1 in E. cbn [setUploadResult modify] in E.
  unfold try_finally, try_catch in E.
  unfold bind at 1 in E. cbn [ret] in E. unfold bind at 1 in E.
  match type of E with
  | context [uploadRows ?us ?se ?t ?n 0 rows ?r ?w0] =>
      destruct (uploadRows_run engine us se t n rows 0 r w0)
        as (c1 & w1 & Hrun & Hk & Hc);
      assert (Hk0 : uploading w w0)
        by (destruct w as [a [gs d ng pt gp ad uf up ur iu] po br];
            repeat split);
      rewrite Hrun in E
  end.
  pose proof (uploading_trans _ _ _ Hk0 Hk) as (Ha & Hp & Hg & Hgp & Huf & Hls & Hal & Hcv).
  clear Hk Hk0 Hrun.
  destruct c1 as [res | e].
  - destruct Hc as (Hrd & created & errs & Hs & Her & Hpw & Hb & Hd & Hr).
    cbn [BulkUploadResult.success BulkUploadResult.errors BulkUploadResult.passwords app]
      in Hs, Her, Hpw.
    unfold bind at 1 in E.
    destruct (addUsers_run (BulkUploadResult.success res) w1) as (w2 & Hadd & Hus & Hg2).
    rewrite Hadd in E.
    unfold bind at 1 in E. cbn [setUploadResult modify] in E.
    assert (Hframe : generatedPasswords (admin w2) = generatedPasswords (admin w1) /\
                     localStorage (browser w2) = localStorage (browser w1)).
    { unfold addUsers, setAllUsers in Hadd. unfold bind at 1 in Hadd. cbn [gets] in Hadd.
      unfold bind at 1 in Hadd. unfold bind at 1 in Hadd. rewrite mapM_stamp in Hadd.
      destruct w1 as [a1 ad1 po1 [st co al ti [cv ct] ra la]].
      cbn in Hadd. injection Hadd as <-. split; reflexivity. }
    destruct Hframe as [Hgp2 Hls2].
    rewrite Ha, Hcv in Hus. rewrite Hg in Hg2. rewrite Hgp in Hgp2. rewrite Hls in Hls2.
    destruct w2 as [a2 [gs d ng pt gp ad uf up ur iu] po [st co al ti cl ra la]].
    cbn [auth allUsers admin groups generatedPasswords browser localStorage]
      in Hus, Hg2, Hgp2, Hls2.
    rewrite <- Hs in Hb, Hpw. rewrite <- Her in Hd, Hr.
    destruct (BulkUploadResult.passwords res) as [ | p0 ps] eqn:Eps;
      cbn in E; injection E as <- <-; cbn;
      (repeat (split; [ first [ reflexivity | assumption ] | ]));
      left; (split; [ exact Hrd | ]);
      exists res, (taken (clock (browser w1)));
      rewrite ?Eps; repeat split; assumption.
  - destruct w1 as [a1 [gs d ng pt gp ad uf up ur iu] po [st co al ti cl ra la]].
    cbn [auth admin groups generatedPasswords browser localStorage] in Ha, Hg, Hgp, Hls.
    cbn in E. injection E as <- <-. cbn.
    (repeat (split; [ first [ reflexivity | assumption ] | ])).
    right. rewrite Ha. repeat split; assumption.
Qed.

(** X22. A sheet with a row that has no email cell aborts the whole upload
    when there are users to compare it with: the result is the report of a
    file that could not be processed, no account is created, not even from
    the good rows before it, the password list is not touched, and the
    upload is no longer marked as running. *)
Theorem sheet_without_email_cell_aborts (engine : ArraySort) (rows : list Row.t)
        (w : World) :
  uploadFile (admin w) = Some (Some rows) ->
  allUsers (auth w) <> [] ->
  Exists (fun row => Row.Email row = None) rows ->
  let w' := exec processBulkUpload w in
  uploadResult (admin w') = Some failureReport /\
  allUsers (auth w') = allUsers (auth w) /\
  generatedPasswords (admin w') = generatedPasswords (admin w) /\
  isUploading (admin w') = false.
Proof.
  intros Hfile Hne Hex w'.
  destruct (processBulkUpload_run engine rows w Hfile)
    as (_ & Hup & _ & _ & _ & [(Hrd & _) | (_ & Hres & Hus & Hgp)]).
  - exfalso. apply Exists_exists in Hex as (row & Hin & Hnone).
    unfold readable in Hrd. rewrite forallb_forall in Hrd. specialize (Hrd row Hin).
    unfold rowReadable in Hrd. rewrite Hnone in Hrd. cbn [as_text] in Hrd.
    destruct (allUsers (auth w)); [ exact (Hne eq_refl) | ].
    rewrite andb_false_r in Hrd. discriminate Hrd.
  - auto.
Qed.

Lemma sheet_without_email_cell_aborts_witness :
  let w' := exec (@processBulkUpload insertionEngine)
                 (exec (setUploadFile (Some (Some threeRows))) firstVisit) in
  uploadResult (admin w') = Some failureReport /\
  List.length (allUsers (auth w')) = 1%nat.
Proof.
  cbv zeta.
  destruct (sheet_without_email_cell_aborts insertionEngine threeRows
              (exec (setUploadFile (Some (Some threeRows))) firstVisit))
    as (H1 & H2 & _).
  - reflexivity.
  - discriminate.
  - right. left. reflexivity.
  - split; [ exact H1 | rewrite H2; reflexivity ].
Defined.

(** X23. An upload either reports every row once or aborts as a whole.
    When [validateUserData] returns on every row (in each row the name,
    email and location cells are texts, or are absent, [0] or [false], and
    the email cell is a text when there is a user to compare it with), the
    accepted rows give the accounts of the result, in the order of the
    sheet, each with the cells of its row shown as texts and trimmed, and
    the email in lower case; the other rows give the errors, in the order
    of the sheet, each with its row and a row number from 2 to the number
    of rows plus 1; and the passwords are one per account, with the
    account's id, name, email and password.  When it throws on some row (a
    name, email or location cell that is a number other than [0] or is
    [true]; an email cell that is no text while there are users), the
    result is the report of a file that could not be processed and no
    account is created. *)
Theorem bulk_upload_reports_every_row (engine : ArraySort) (rows : list Row.t)
        (w : World) :
  uploadFile (admin w) = Some (Some rows) ->
  let us := allUsers (auth w) in
  let w' := exec processBulkUpload w in
  exists res,
    uploadResult (admin w') = Some res /\
    if forallb (rowReadable us) rows then
      (List.length (BulkUploadResult.success res)
       + List.length (BulkUploadResult.errors res) = List.length rows)%nat /\
      Forall2 builtFrom (filter (rowAccepted us) rows) (BulkUploadResult.success res) /\
      map RowError.data (BulkUploadResult.errors res)
        = map Some (filter (fun r => negb (rowAccepted us r)) rows) /\
      Forall (fun e => 2 <= RowError.row e < 2 + List.length rows)%nat
             (BulkUploadResult.errors res) /\
      BulkUploadResult.passwords res = map credentialOf (BulkUploadResult.success res)
    else
      res = failureReport /\
      allUsers (auth w') = us.
Proof.
  intros Hfile us w'.
  destruct (processBulkUpload_run engine rows w Hfile)
    as (_ & _ & _ & _ & _ &
        [(Hrd & res & k & Hres & _ & _ & Hpw & Hb & Hd & Hr) | (Hno & Hres & Hus & _)]).
  - exists res. split; [ exact Hres | ].
    unfold readable in Hrd. fold us in Hrd. rewrite Hrd.
    repeat split; try assumption.
    apply Forall2_length in Hb. rewrite <- Hb.
    apply (f_equal (@List.length _)) in Hd. rewrite !length_map in Hd. rewrite Hd.
    clear. induction rows as [ | r rest IH]; cbn; [ reflexivity | ].
    destruct (rowAccepted (allUsers (auth w)) r); cbn; lia.
  - exists failureReport. split; [ exact Hres | ].
    fold us in Hno. rewrite Hno. split; [ reflexivity | exact Hus ].
Qed.

Lemma bulk_upload_reports_every_row_witness :
  (exists res,
      uploadResult (admin (exec (@processBulkUpload insertionEngine)
                                (exec (setUploadFile
                                         (Some (Some (numberRows (text_cell "Carol")))))
                                      firstVisit))) = Some res /\
      (List.length (BulkUploadResult.success res)
       + List.length (BulkUploadResult.errors res) = 2)%nat) /\
  uploadResult (admin (exec (@processBulkUpload insertionEngine)
                            (exec (setUploadFile
                                     (Some (Some (numberRows (Some (Cell.Num 7))))))
                                  firstVisit))) = Some failureReport.
Proof.
  split.
  - destruct (bulk_upload_reports_every_row insertionEngine
                (numberRows (text_cell "Carol"))
                (exec (setUploadFile (Some (Some (numberRows (text_cell "Carol")))))
                      firstVisit) eq_refl)
      as (res & H1 & H2 & _).
    exists res. split; [ exact H1 | exact H2 ].
  - destruct (bulk_upload_reports_every_row insertionEngine
                (numberRows (Some (Cell.Num 7)))
                (exec (setUploadFile (Some (Some (numberRows (Some (Cell.Num 7))))))
                      firstVisit) eq_refl)
      as (res & H1 & H2 & _).
    rewrite H1, H2. reflexivity.
Defined.

(** A sheet with numbers: the phone and the employee id are shown as
    texts, the boolean of the admin flag is read, and two accounts are
    created. *)
Example upload_with_number_cells :
  let w' := exec (@processBulkUpload insertionEngine)
                 (exec (setUploadFile (Some (Some (numberRows (text_cell "Carol")))))
                       firstVisit) in
  map (fun u => (User.name u, User.phone u, User.employeeId u, User.isAdmin u))
      (allUsers (auth w'))
  = [("System Admin", "+1234567890", "ADMIN001", true);
     ("Bob", "+1", "EMP002", false);
     ("Carol", "5550100", "1003", true)].
Proof. vm_compute. reflexivity. Qed.

(** X24. Of the accounts that an upload reports, the store receives those
    that share neither the email (in lower case) nor the employee id with a
    user already stored, after the users it had, each stamped with its
    creation time; the password list shows the passwords of all the
    reported accounts, and is left as it was when there is none. *)
Theorem bulk_upload_stores_new_identities (engine : ArraySort) (rows : list Row.t)
        (w : World) :
  uploadFile (admin w) = Some (Some rows) ->
  readable (allUsers (auth w)) rows ->
  let us := allUsers (auth w) in
  let w' := exec processBulkUpload w in
  exists res k,
    uploadResult (admin w') = Some res /\
    allUsers (auth w')
      = us ++ stampAll (values (clock (browser w))) k
                (filter (fun n => negb (existsb (sameIdentity n) us))
                        (BulkUploadResult.success res)) /\
    generatedPasswords (admin w')
      = match BulkUploadResult.success res with
        | [] => generatedPasswords (admin w)
        | _ :: _ => map credentialOf (BulkUploadResult.success res)
        end.
Proof.
  intros Hfile Hrd us w'.
  destruct (processBulkUpload_run engine rows w Hfile)
    as (_ & _ & _ & _ & _ &
        [(_ & res & k & Hres & Hus & Hgp & Hpw & _) | (Hno & _)]).
  - exists res, k. split; [ exact Hres | split; [ exact Hus | ] ].
    fold w' in Hgp. rewrite Hgp, Hpw.
    destruct (BulkUploadResult.success res); reflexivity.
  - exfalso. unfold readable in Hrd. rewrite Hrd in Hno. discriminate Hno.
Qed.

Lemma bulk_upload_stores_new_identities_witness :
  let rows := [nth 2 threeRows (Row.mk None None None None None None)] in
  let w' := exec (@processBulkUpload insertionEngine)
                 (exec (setUploadFile (Some (Some rows))) firstVisit) in
  exists res k,
    uploadResult (admin w') = Some res /\
    allUsers (auth w')
      = allUsers (auth firstVisit)
        ++ stampAll (values (clock (browser firstVisit))) k
             (filter (fun n => negb (existsb (sameIdentity n) (allUsers (auth firstVisit))))
                     (BulkUploadResult.success res)).
Proof.
  cbv zeta.
  destruct (bulk_upload_stores_new_identities insertionEngine
              [nth 2 threeRows (Row.mk None None None None None None)]
              (exec (setUploadFile
                       (Some (Some [nth 2 threeRows
                                          (Row.mk None None None None None None)])))
                    firstVisit))
    as (res & k & H1 & H2 & _).
  - reflexivity.
  - reflexivity.
  - exists res, k. split; [ exact H1 | exact H2 ].
Defined.

(** A reported account that is not stored: the employee id cell is the
    admin's with a space after it, which no user has as it is, and which is
    the admin's once trimmed. *)
Example reported_account_is_not_stored :
  let rows := [nth 2 threeRows (Row.mk None None None None None None)] in
  let w' := exec (@processBulkUpload insertionEngine)
                 (exec (setUploadFile (Some (Some rows))) firstVisit) in
  option_map (fun r => map User.employeeId (BulkUploadResult.success r))
             (uploadResult (admin w')) = Some ["ADMIN001"] /\
  List.length (generatedPasswords (admin w')) = 1%nat /\
  map User.email (allUsers (auth w')) = ["admin@company.com"].
Proof. cbv zeta. repeat split; vm_compute; reflexivity. Qed.

(** X25. [processBulkUpload] never ends with an exception and never leaves
    the upload marked as running.  Without a chosen file it changes
    nothing.  With a file, whether the reader rejects it or a row makes the
    loop fail or all goes well, it ends with [isUploading] false, the
    progress at 100 and a result to show; a file that the reader rejects
    gives the report of a file that could not be processed and no account.
    The groups and the stored texts are never touched. *)
Theorem bulk_upload_always_finishes (engine : ArraySort) (w : World) :
  let w' := exec processBulkUpload w in
  eval processBulkUpload w = Normal tt /\
  groups (admin w') = groups (admin w) /\
  localStorage (browser w') = localStorage (browser w) /\
  match uploadFile (admin w) with
  | None => w' = w
  | Some sheet =>
      isUploading (admin w') = false /\
      uploadProgress (admin w') = 100 /\
      uploadResult (admin w') <> None /\
      (sheet = None ->
       uploadResult (admin w') = Some failureReport /\
       allUsers (auth w') = allUsers (auth w))
  end.
Proof.
  cbv zeta. destruct (uploadFile (admin w)) as [[rows | ] | ] eqn:Hfile.
  - destruct (processBulkUpload_run engine rows w Hfile)
      as (He & Hup & Hpr & Hg & Hls & H).
    repeat split; try assumption; try discriminate.
    destruct H as [(_ & res & k & -> & _) | (_ & -> & _)]; discriminate.
  - destruct w as [[se il us] [gs d ng pt gp ad uf up ur iu] po
                   [st co al ti cl ra la]].
    cbn in Hfile. subst uf. unfold processBulkUpload. run_js.
    repeat split; try reflexivity; discriminate.
  - destruct w as [[se il us] [gs d ng pt gp ad uf up ur iu] po
                   [st co al ti cl ra la]].
    cbn in Hfile. subst uf. unfold processBulkUpload. run_js.
    repeat split; reflexivity.
Qed.

Lemma lower_ascii_space (c : ascii) : is_space (lower_ascii c) = is_space c.
Proof. destruct c as [[] [] [] [] [] [] [] []]; reflexivity. Qed.

Lemma lower_ascii_at (c : ascii) : Ascii.eqb (lower_ascii c) "@" = Ascii.eqb c "@".
Proof. destruct c as [[] [] [] [] [] [] [] []]; reflexivity. Qed.

Lemma lower_ascii_dot (c : ascii) : Ascii.eqb "." (lower_ascii c) = Ascii.eqb "." c.
Proof. destruct c as [[] [] [] [] [] [] [] []]; reflexivity. Qed.

Lemma lower_ascii_twice (c : ascii) : lower_ascii (lower_ascii c) = lower_ascii c.
Proof. destruct c as [[] [] [] [] [] [] [] []]; reflexivity. Qed.

Lemma toLowerCase_twice (s : string) : toLowerCase (toLowerCase s) = toLowerCase s.
Proof.
  induction s as [ | c r IH]; cbn; [ reflexivity | ].
  rewrite lower_ascii_twice, IH. reflexivity.
Qed.

Lemma toLowerCase_list (s : string) :
  list_ascii_of_string (toLowerCase s) = map lower_ascii (list_ascii_of_string s).
Proof. induction s as [ | c r IH]; cbn; [ reflexivity | rewrite IH; reflexivity ]. Qed.

Lemma removelast_lower (l : list ascii) :
  removelast (map lower_ascii l) = map lower_ascii (removelast l).
Proof.
  induction l as [ | c r IH]; cbn; [ reflexivity | ].
  destruct r as [ | c' r']; [ reflexivity | ].
  cbn [map] in *. rewrite IH. reflexivity.
Qed.

Lemma domain_shape_lower (d : list ascii) :
  domain_shape (map lower_ascii d) = domain_shape d.
Proof.
  unfold domain_shape. f_equal.
  - induction d as [ | c r IH]; cbn [forallb map]; [ reflexivity | ].
    rewrite IH. unfold plain. rewrite lower_ascii_space, lower_ascii_at. reflexivity.
  - destruct d as [ | c r]; [ reflexivity | ]. cbn [map tl].
    rewrite removelast_lower.
    induction (removelast r) as [ | x l IH]; cbn [existsb map]; [ reflexivity | ].
    rewrite IH, lower_ascii_dot. reflexivity.
Qed.

Lemma local_shape_lower (s : list ascii) :
  forall seen, local_shape seen (map lower_ascii s) = local_shape seen s.
Proof.
  induction s as [ | c r IH]; intros seen; cbn [local_shape map]; [ reflexivity | ].
  rewrite lower_ascii_at, lower_ascii_space, domain_shape_lower, IH. reflexivity.
Qed.

Lemma email_shape_lower (s : string) : email_shape (toLowerCase s) = email_shape s.
Proof. unfold email_shape. rewrite toLowerCase_list. apply local_shape_lower. Qed.

Lemma local_shape_no_space (s : list ascii) :
  forall seen, local_shape seen s = true ->
               forallb (fun c => negb (is_space c)) s = true.
Proof.
  induction s as [ | c r IH]; intros seen H; cbn in *; [ reflexivity | ].
  destruct (Ascii.eqb c "@") eqn:Eat.
  - apply Ascii.eqb_eq in Eat. subst c.
    change (forallb (fun c => negb (is_space c)) r = true).
    apply andb_true_iff in H as [_ H]. unfold domain_shape in H.
    apply andb_true_iff in H as [H _].
    clear -H. induction r as [ | x l IH]; cbn in *; [ reflexivity | ].
    apply andb_true_iff in H as [Hx Hl]. rewrite (IH Hl).
    unfold plain in Hx. destruct (is_space x); [ discriminate | reflexivity ].
  - destruct (is_space c); [ discriminate | ]. cbn. exact (IH true H).
Qed.

Lemma trimEnd_no_space (s : string) :
  forallb (fun c => negb (is_space c)) (list_ascii_of_string s) = true ->
  trimEnd s = s.
Proof.
  induction s as [ | c r IH]; cbn; [ reflexivity | ].
  intros H. apply andb_true_iff in H as [Hc Hr]. rewrite (IH Hr).
  destruct r; [ | reflexivity ].
  destruct (is_space c); [ discriminate | reflexivity ].
Qed.

Lemma trim_no_space (s : string) :
  forallb (fun c => negb (is_space c)) (list_ascii_of_string s) = true ->
  trim s = s.
Proof.
  intros H. unfold trim.
  assert (Hs : trimStart s = s).
  { destruct s as [ | c r]; [ reflexivity | ]. cbn in *.
    destruct (is_space c); [ discriminate | reflexivity ]. }
  rewrite Hs. apply trimEnd_no_space. exact H.
Qed.

Lemma present_cell (cell : option Cell.t) :
  missing cell = false -> trimmed cell <> ""%string.
Proof.
  destruct cell as [c | ]; cbn [missing trimmed]; [ | discriminate ].
  intros H. apply orb_false_iff in H as [_ H]. apply String.eqb_neq in H. exact H.
Qed.

Lemma filled_cell (cell : option Cell.t) :
  filled cell = true -> trimmed cell <> ""%string.
Proof.
  destruct cell as [[s | n | b] | ]; cbn [filled trimmed Cell.toString];
    try discriminate.
  intros H. apply negb_true_iff in H. rewrite <- trim_blank in H.
  apply String.eqb_neq in H. exact H.
Qed.

Lemma accepted_row_is_well_formed (us : list User.t) (row : Row.t) (u : User.t) :
  rowAccepted us row = true -> builtFrom row u -> wellFormed us u.
Proof.
  unfold rowAccepted. intros Hacc (Hn & He & Hp & Hi & Hl & _ & Hg & _ & pw & Hpw).
  repeat (apply andb_true_iff in Hacc as [Hacc ?]).
  destruct (Row.Email row) as [[e | n | b] | ] eqn:Ee;
    try match goal with
        | H : filled _ = true |- _ => discriminate H
        end.
  cbn [as_text cell_text Cell.toString] in *.
  repeat match goal with
         | H : negb _ = true |- _ => apply negb_true_iff in H
         end.
  assert (Htrim : trim e = e)
    by (apply trim_no_space, (local_shape_no_space _ false); assumption).
  cbn [trimmed Cell.toString] in He. rewrite Htrim in He.
  unfold wellFormed. rewrite Hn, Hp, Hi, Hl, He, Hg, Hpw.
  repeat split;
    try (apply present_cell; assumption); try (apply filled_cell; assumption);
    try discriminate.
  - rewrite email_shape_lower. assumption.
  - apply toLowerCase_twice.
  - intros x Hx Heq.
    match goal with
    | H : existsb (fun u => seq (toLowerCase (User.email u)) _) us = false |- _ =>
        apply existsb_false_find in H as [_ H]; specialize (H x Hx);
        unfold seq in H; rewrite Heq, String.eqb_refl in H; discriminate H
    end.
Qed.

(** X26. Every account that an upload reports as created is well formed:
    its name, phone, employee id and location have text, its email is in
    lower case, has the shape of an address (no white space, one part
    before the [@] and a dotted part after it) and is the email of no user
    stored before the upload, it is in no group and it has a password. *)
Theorem bulk_accounts_are_well_formed (engine : ArraySort) (rows : list Row.t)
        (w : World) (res : BulkUploadResult.t) :
  uploadFile (admin w) = Some (Some rows) ->
  uploadResult (admin (exec processBulkUpload w)) = Some res ->
  Forall (wellFormed (allUsers (auth w))) (BulkUploadResult.success res).
Proof.
  intros Hfile Hres.
  destruct (processBulkUpload_run engine rows w Hfile)
    as (_ & _ & _ & _ & _ &
        [(_ & res' & k & Hres' & _ & _ & _ & Hb & _) | (_ & Hres' & _)]);
    rewrite Hres' in Hres; injection Hres as <-; [ | constructor ].
  revert Hb. generalize (BulkUploadResult.success res').
  assert (Hacc : Forall (fun row => rowAccepted (allUsers (auth w)) row = true)
                        (filter (rowAccepted (allUsers (auth w))) rows))
    by (apply Forall_forall; intros row Hin; apply filter_In in Hin as [_ H]; exact H).
  revert Hacc. generalize (filter (rowAccepted (allUsers (auth w))) rows).
  intros accepted Hacc created Hb.
  induction Hb as [ | row u rest us' Hbuilt Hb IH]; constructor.
  - apply (accepted_row_is_well_formed _ row); [ | exact Hbuilt ].
    apply (Forall_inv Hacc).
  - apply IH. apply (Forall_inv_tail Hacc).
Qed.

Lemma bulk_accounts_are_well_formed_witness :
  exists res,
    uploadResult (admin (exec (@processBulkUpload insertionEngine)
                              (exec (setUploadFile (Some (Some duplicateRows)))
                                    firstVisit))) = Some res /\
    Forall (wellFormed (allUsers (auth firstVisit))) (BulkUploadResult.success res).
Proof.
  eexists. split; [ vm_compute; reflexivity | ].
  apply (bulk_accounts_are_well_formed insertionEngine duplicateRows
           (exec (setUploadFile (Some (Some duplicateRows))) firstVisit)).
  - reflexivity.
  - vm_compute. reflexivity.
Defined.

(* ================================================================== *)
(** * Properties of the statistics, the questions and the messages     *)
(* ================================================================== *)

Lemma filter_length_le {A} (p : A -> bool) (l : list A) :
  (List.length (filter p l) <= List.length l)%nat.
Proof.
  induction l as [ | a r IH]; cbn; [ lia | ]. destruct (p a); cbn; lia.
Qed.

Lemma pollResponses_stored (mcqResponses l : list MCQResponse.t) (w : World) :
  systemMCQResponses (localStorage (browser w)) = Some (Json l) ->
  eval (pollResponses mcqResponses) w = Normal l.
Proof.
  destruct w as [a ad po [[su cu sg sr] co al ti cl ra la]].
  cbn. intros ->. reflexivity.
Qed.

(** X27. An answer counts once in the admin's statistics, when the
    answering portal holds the stored responses (it has refreshed since the
    last answer of anybody).  Between what the admin portal polls before
    the first answer of a user to a message and what it polls after it, the
    statistics of the message get one more response in total, one more
    correct response when the chosen option is the question's correct
    answer and one more incorrect response otherwise; correct and incorrect
    responses add up to the total; when it is the first response to the
    message the accuracy is 100 for a correct answer and 0 otherwise; and
    the statistics of every other message stay as they were. *)
Theorem answer_counts_in_statistics (messageId selectedOption : string)
        (mcqData : MCQQuestion.t) (u : User.t) (w : World)
        (mcqResponses : list MCQResponse.t) :
  user (auth w) = Some u ->
  storedResponses w = Some (responses (portal w)) ->
  existsb (answers messageId (Some (User.id u))) (responses (portal w)) = false ->
  let w' := exec (handleMCQAnswer messageId selectedOption mcqData) w in
  let correct := seq selectedOption (MCQQuestion.correctAnswer mcqData) in
  exists polledBefore polledAfter,
    eval (pollResponses mcqResponses) w = Normal polledBefore /\
    eval (pollResponses polledBefore) w' = Normal polledAfter /\
    let before := calculateMCQStats polledBefore messageId in
    let after := calculateMCQStats polledAfter messageId in
    MCQStats.totalResponses after = S (MCQStats.totalResponses before) /\
    MCQStats.correctResponses after
      = (MCQStats.correctResponses before + if correct then 1 else 0)%nat /\
    MCQStats.incorrectResponses after
      = (MCQStats.incorrectResponses before + if correct then 0 else 1)%nat /\
    (MCQStats.correctResponses after + MCQStats.incorrectResponses after
     = MCQStats.totalResponses after)%nat /\
    (MCQStats.totalResponses before = 0%nat ->
     MCQStats.accuracy after = number (if correct then 100 else 0)) /\
    forall other,
      other <> messageId ->
      calculateMCQStats polledAfter other = calculateMCQStats polledBefore other.
Proof.
  intros Hu Hstep Hex w' correct.
  destruct (handleMCQAnswer_run messageId selectedOption mcqData u w Hu Hex)
    as (_ & Hsto & _).
  fold w' in Hsto.
  set (r := responseOf messageId selectedOption mcqData u w) in *.
  exists (responses (portal w)), (responses (portal w) ++ [r]).
  split.
  { apply pollResponses_stored. unfold storedResponses in Hstep.
    destruct (systemMCQResponses (localStorage (browser w))) as [[ | | l] | ];
      try discriminate Hstep.
    injection Hstep as ->. reflexivity. }
  split; [ apply pollResponses_stored; exact Hsto | ].
  assert (Hget : getResponsesForMessage (responses (portal w) ++ [r]) messageId
                 = getResponsesForMessage (responses (portal w)) messageId ++ [r]).
  { unfold getResponsesForMessage. rewrite filter_app. cbn [filter].
    unfold seq at 2. cbn [r responseOf MCQResponse.messageId].
    rewrite String.eqb_refl. reflexivity. }
  assert (Hcor : filter MCQResponse.isCorrect
                   (getResponsesForMessage (responses (portal w)) messageId ++ [r])
                 = filter MCQResponse.isCorrect
                     (getResponsesForMessage (responses (portal w)) messageId)
                   ++ (if correct then [r] else [])).
  { rewrite filter_app. cbn [filter]. cbn [r responseOf MCQResponse.isCorrect].
    fold correct. destruct correct; reflexivity. }
  pose proof (filter_length_le MCQResponse.isCorrect
                (getResponsesForMessage (responses (portal w)) messageId)) as Hle.
  cbv zeta. unfold calculateMCQStats.
  cbn [MCQStats.totalResponses MCQStats.correctResponses MCQStats.incorrectResponses
       MCQStats.accuracy].
  rewrite Hget, Hcor, !length_app. cbn [List.length].
  split; [ lia | ].
  split; [ destruct correct; reflexivity | ].
  split; [ destruct correct; cbn [List.length]; lia | ].
  split; [ destruct correct; cbn [List.length]; lia | ].
  split.
  - intros Hzero. rewrite Hzero in *.
    assert (Hc0 : List.length
                    (filter MCQResponse.isCorrect
                       (getResponsesForMessage (responses (portal w)) messageId)) = 0%nat)
      by lia.
    rewrite Hc0. destruct correct; vm_compute; reflexivity.
  - intros other Hne. unfold getResponsesForMessage. rewrite filter_app. cbn [filter].
    assert (Hno : seq (MCQResponse.messageId r) other = false)
      by (apply String.eqb_neq; cbn; congruence).
    rewrite Hno, app_nil_r. reflexivity.
Qed.

Lemma answer_counts_in_statistics_witness :
  exists polledBefore polledAfter,
    eval (pollResponses []) refreshedVisit = Normal polledBefore /\
    eval (pollResponses polledBefore)
         (exec (handleMCQAnswer "m1" "B" (MCQQuestion.mk "Which one?" ["A"; "B"] "B"))
               refreshedVisit) = Normal polledAfter /\
    MCQStats.totalResponses (calculateMCQStats polledBefore "m1") = 1%nat /\
    MCQStats.totalResponses (calculateMCQStats polledAfter "m1") = 2%nat /\
    MCQStats.correctResponses (calculateMCQStats polledAfter "m1") = 1%nat.
Proof.
  destruct (answer_counts_in_statistics "m1" "B"
              (MCQQuestion.mk "Which one?" ["A"; "B"] "B")
              (User.assign bob User.no_password) refreshedVisit [])
    as (before & after & Hb & Ha & Ht & Hc & _).
  - reflexivity.
  - reflexivity.
  - reflexivity.
  - assert (Hbefore : before = responses (portal refreshedVisit)).
    { assert (H : eval (pollResponses []) refreshedVisit
                  = Normal (responses (portal refreshedVisit))) by reflexivity.
      rewrite H in Hb. injection Hb as <-. reflexivity. }
    exists before, after. split; [ exact Hb | ]. split; [ exact Ha | ].
    subst before. cbv zeta in Ht, Hc.
    split; [ reflexivity | ]. split; [ rewrite Ht; reflexivity | ].
    rewrite Hc. reflexivity.
Defined.

(** Doubles, not exact fractions: 29 correct responses of 200 are 14.5 per
    cent, which the statistics show as 14, since the product computed is
    just below 14.5. *)
Example accuracy_rounds_the_double :
  let answer (ok : bool) (k : nat) :=
    MCQResponse.mk (nat_toString k) "m1" (nat_toString k) "" "" "g1" "A" 0%Z ok in
  MCQStats.accuracy
    (calculateMCQStats (map (answer true) (List.seq 0 29)
                        ++ map (answer false) (List.seq 29 171)) "m1")
  = number 14.
Proof. vm_compute. reflexivity. Qed.

Lemma handleSubmit_login (email password : string) (w : World) :
  seq email "" || seq password "" = false ->
  exec (handleSubmit email password) w = exec (login email password) w /\
  eval (handleSubmit email password) w
  = match eval (login email password) w with
    | Normal true => Normal ""
    | Normal false =>
        Normal "Invalid email or password. Please check your credentials and try again."
    | Thrown e => Thrown e
    end.
Proof.
  intros Hfilled. unfold handleSubmit. rewrite Hfilled.
  unfold exec, eval, bind, ret.
  destruct (login email password w) as [[[ | ] | e] w']; split; reflexivity.
Qed.

(** X28. The login form, shown when nobody is logged in.  With the email
    or the password left empty, submitting asks for both and does nothing
    else: no login is attempted.  Otherwise, when a stored user has the
    email (in any letter case) and the password, no error is shown and the
    application shows the admin portal to an admin and the user portal to
    any other user; and when not, the form shows that the email or the
    password is invalid, nobody is logged in, nothing is written to storage
    and the application stays on the login page (or on the credentials
    page, when that was asked for). *)
Theorem login_form_routes_by_role (email password : string) (showCredentials : bool)
        (w : World) :
  user (auth w) = None ->
  let w' := exec (handleSubmit email password) w in
  let shown := eval (handleSubmit email password) w in
  if seq email "" || seq password "" then
    shown = Normal "Please enter both email and password" /\ w' = w
  else
    match findByEmail email (storedUsers w) with
    | Some fu =>
        if oseq (User.password fu) password then
          shown = Normal "" /\
          AppContent showCredentials w'
          = (if User.isAdmin fu then AdminPortalScreen else UserPortalScreen)
        else
          shown
          = Normal "Invalid email or password. Please check your credentials and try again." /\
          localStorage (browser w') = localStorage (browser w) /\
          AppContent showCredentials w'
          = (if showCredentials then AdminCredentialsScreen else LoginScreen)
    | None =>
        shown
        = Normal "Invalid email or password. Please check your credentials and try again." /\
        localStorage (browser w') = localStorage (browser w) /\
        AppContent showCredentials w'
        = (if showCredentials then AdminCredentialsScreen else LoginScreen)
    end.
Proof.
  intros Hnobody. cbv zeta.
  destruct (seq email "" || seq password "") eqn:Hfilled.
  - unfold handleSubmit. rewrite Hfilled. split; reflexivity.
  - destruct (handleSubmit_login email password w Hfilled) as [-> ->].
    pose proof (login_spec email password w) as (H & _ & Hload).
    unfold AppContent. rewrite Hload.
    destruct (findByEmail email (storedUsers w)) as [fu | ].
    + destruct (oseq (User.password fu) password).
      * destruct H as (-> & -> & _). split; reflexivity.
      * destruct H as (-> & -> & ->). rewrite Hnobody. repeat split.
    + destruct H as (-> & -> & ->). rewrite Hnobody. repeat split.
Qed.

Lemma login_form_routes_by_role_witness :
  AppContent false (exec (handleSubmit "Admin@Company.com" "admin123") firstVisit)
  = AdminPortalScreen.
Proof.
  pose proof (login_form_routes_by_role "Admin@Company.com" "admin123" false firstVisit
                eq_refl) as H.
  cbv zeta in H.
  change (seq "Admin@Company.com" "" || seq "admin123" "") with false in H.
  cbv beta iota in H.
  change (findByEmail "Admin@Company.com" (storedUsers firstVisit))
    with (Some (User.mk "1" "admin@company.com" "System Admin" "+1234567890" "ADMIN001"
                        "Head Office" true [] (Some "admin123") (Some 1700000000000%Z)
                        (Some "system") (Some 1700000000000%Z))) in H.
  cbv beta iota in H.
  exact (proj2 H).
Defined.

Lemma filter_filled (l : list string) :
  forallb (fun opt => negb (blank opt)) l = true ->
  filter (fun opt => negb (seq (trim opt) "")) l = l.
Proof.
  induction l as [ | a r IH]; cbn [forallb filter]; [ reflexivity | ].
  intros H. apply andb_true_iff in H as [Ha Hr].
  rewrite trim_blank, Ha, (IH Hr). reflexivity.
Qed.

Lemma existsb_blank (l : list string) :
  existsb (fun opt => seq (trim opt) "") l
  = negb (forallb (fun opt => negb (blank opt)) l).
Proof.
  induction l as [ | a r IH]; cbn; [ reflexivity | ].
  rewrite IH, trim_blank, negb_andb, negb_involutive. reflexivity.
Qed.

Lemma handleSendMCQ_run (c : AdminChat.t) (u : User.t) (w : World) :
  user (auth w) = Some u ->
  complete c = true ->
  let clock_ := clock (browser w) in
  let message :=
    {| Message.id := Z_toString (values clock_ (taken clock_));
       Message.senderId := User.id u;
       Message.senderName := User.name u;
       Message.content :=
         Message.Stringified
           {| MCQQuestion.question := AdminChat.mcqQuestion c;
              MCQQuestion.options := AdminChat.mcqOptions c;
              MCQQuestion.correctAnswer := AdminChat.mcqCorrectAnswer c |};
       Message.type := Message.mcq;
       Message.timestamp := values clock_ (S (taken clock_));
       Message.groupId := or_else (AdminChat.selectedMCQGroup c) "" |} in
  eval (handleSendMCQ c) w = Normal (questionSent c message) /\
  alerts (browser (exec (handleSendMCQ c) w)) = alerts (browser w).
Proof.
  intros Hu Hc. unfold complete in Hc.
  repeat (apply andb_true_iff in Hc as [Hc ?]).
  repeat match goal with
         | H : negb _ = true |- _ => apply negb_true_iff in H
         end.
  destruct w as [[se il us] ad po [st co al ti [cv ct] ra la]].
  cbn in Hu. subst se. cbv zeta.
  unfold handleSendMCQ. unfold exec, eval, bind at 1. cbn [gets auth user].
  unfold bind at 2. cbn [gets auth user fst snd].
  rewrite !trim_blank, existsb_blank.
  repeat match goal with
         | H : _ = _ |- _ => rewrite H
         end.
  cbn [negb orb].
  rewrite filter_filled by assumption.
  split; reflexivity.
Qed.

(** X29. A complete question form (question, four options and correct
    answer with text, a group selected) is sent as typed: [handleSendMCQ]
    appends one message of type [mcq] for the selected group, whose content
    is the question, all the options and the correct answer as typed, and
    clears the form; it does not check that the correct answer is one of
    the options.  Whoever then answers the question is marked correct
    exactly when the chosen option is the typed correct answer, character
    for character; so when the correct answer is none of the options, every
    answer chosen from the options is recorded as incorrect. *)
Theorem question_is_sent_as_typed (c : AdminChat.t) (u : User.t) (w : World) :
  user (auth w) = Some u ->
  complete c = true ->
  exists message mcqData,
    eval (handleSendMCQ c) w = Normal (questionSent c message) /\
    Message.type message = Message.mcq /\
    Message.groupId message = or_else (AdminChat.selectedMCQGroup c) "" /\
    Message.content message = Message.Stringified mcqData /\
    MCQQuestion.question mcqData = AdminChat.mcqQuestion c /\
    MCQQuestion.options mcqData = AdminChat.mcqOptions c /\
    MCQQuestion.correctAnswer mcqData = AdminChat.mcqCorrectAnswer c /\
    forall (v : User.t) (visit : World) (option : string),
      user (auth visit) = Some v ->
      existsb (answers (Message.id message) (Some (User.id v)))
              (responses (portal visit)) = false ->
      In option (MCQQuestion.options mcqData) ->
      exists r,
        responses (portal (exec (handleMCQAnswer (Message.id message) option mcqData)
                                visit))
          = responses (portal visit) ++ [r] /\
        MCQResponse.selectedAnswer r = option /\
        MCQResponse.isCorrect r = seq option (AdminChat.mcqCorrectAnswer c) /\
        (~ In (AdminChat.mcqCorrectAnswer c) (AdminChat.mcqOptions c) ->
         MCQResponse.isCorrect r = false).
Proof.
  intros Hu Hc.
  destruct (handleSendMCQ_run c u w Hu Hc) as [Hrun _]. cbv zeta in Hrun.
  eexists. eexists. split; [ exact Hrun | ].
  cbn [Message.type Message.groupId Message.content MCQQuestion.question
       MCQQuestion.options MCQQuestion.correctAnswer Message.id].
  repeat (split; [ reflexivity | ]).
  intros v visit option Hv Hex Hin.
  match goal with
  | |- context [handleMCQAnswer ?m option ?q] =>
      destruct (handleMCQAnswer_run m option q v visit Hv Hex) as (Hmem & _)
  end.
  cbv zeta in Hmem. eexists. split; [ exact Hmem | ].
  cbn [responseOf MCQResponse.selectedAnswer MCQResponse.isCorrect
       MCQQuestion.correctAnswer].
  repeat split.
  intros Hout. apply String.eqb_neq. intros ->. exact (Hout Hin).
Qed.

Lemma question_is_sent_as_typed_witness :
  exists message mcqData,
    eval (handleSendMCQ mistypedForm) adminVisit
      = Normal (questionSent mistypedForm message) /\
    Message.content message = Message.Stringified mcqData /\
    MCQQuestion.correctAnswer mcqData = "B"%string /\
    MCQQuestion.options mcqData = ["a"; "b"; "c"; "d"]%string.
Proof.
  destruct (question_is_sent_as_typed mistypedForm
              (User.assign (hd bob (initialUsers 1700000000000%Z)) User.no_password)
              adminVisit)
    as (message & mcqData & H1 & _ & _ & H2 & _ & H3 & H4 & _).
  - reflexivity.
  - reflexivity.
  - exists message, mcqData. repeat split; assumption.
Defined.

Lemma handleSendMessage_run (store : MessageStore) (p : PortalChat.t) (v : User.t)
      (w : World) :
  user (auth w) = Some v ->
  blank (PortalChat.newMessage p) = false ->
  given (selectedGroup (portal w)) = true ->
  let m := typedMessage v (PortalChat.newMessage p) (selectedGroup (portal w)) w in
  eval (handleSendMessage store p) w
  = Normal ({| PortalChat.messages := PortalChat.messages p ++ [m];
               PortalChat.newMessage := "" |},
            Some (Json (PortalChat.messages p ++ [m]))).
Proof.
  intros Hv Hb Hg.
  destruct w as [[se il us] ad [rs sg] [st co al ti [cv ct] ra la]].
  cbn in Hv, Hg. subst se. cbv zeta.
  unfold handleSendMessage, eval, bind at 1. cbn [gets auth user].
  unfold bind at 1. cbn [gets portal selectedGroup].
  rewrite trim_blank, Hb, Hg. reflexivity.
Qed.

Lemma handleSendChatMessage_run (a : AdminChat.t) (u : User.t) (w : World) :
  user (auth w) = Some u ->
  blank (AdminChat.chatMessage a) = false ->
  given (AdminChat.selectedChat a) = true ->
  eval (handleSendChatMessage a) w
  = Normal (chatSent a (typedMessage u (AdminChat.chatMessage a)
                                     (AdminChat.selectedChat a) w)).
Proof.
  intros Hu Hb Hg.
  destruct w as [[se il us] ad po [st co al ti [cv ct] ra la]].
  cbn in Hu. subst se.
  unfold handleSendChatMessage, eval, bind at 1. cbn [gets auth user].
  rewrite trim_blank, Hb, Hg. reflexivity.
Qed.

(** X30. The stored messages are those of the last sender.  A message sent
    from the user portal is appended to the portal's messages and the store
    receives that list, whatever it held.  A message sent from the admin's
    chat is appended to the messages the admin portal holds, and the effect
    that follows writes that list to the store, whatever it held; a portal
    that then loads the messages has exactly the admin's list.  So a
    message that a user sent after the admin portal read the messages is
    gone from its group once the admin sends one. *)
Theorem last_sender_overwrites_messages (store : MessageStore) (p : PortalChat.t)
        (a : AdminChat.t) (v u : User.t) (visit desk : World) :
  user (auth visit) = Some v ->
  blank (PortalChat.newMessage p) = false ->
  given (selectedGroup (portal visit)) = true ->
  user (auth desk) = Some u ->
  blank (AdminChat.chatMessage a) = false ->
  given (AdminChat.selectedChat a) = true ->
  let m1 := typedMessage v (PortalChat.newMessage p) (selectedGroup (portal visit)) visit in
  let m2 := typedMessage u (AdminChat.chatMessage a) (AdminChat.selectedChat a) desk in
  eval (handleSendMessage store p) visit
  = Normal (PortalChat.mk (PortalChat.messages p ++ [m1]) "",
            Some (Json (PortalChat.messages p ++ [m1]))) /\
  eval (handleSendChatMessage a) desk = Normal (chatSent a m2) /\
  (forall w, eval (saveMessagesEffect (chatSent a m2)) w
             = Normal (Some (Json (AdminChat.messages a ++ [m2])))) /\
  (forall w p',
      eval (loadMessagesFromStorage (Some (Json (AdminChat.messages a ++ [m2]))) p') w
      = Normal (PortalChat.mk (AdminChat.messages a ++ [m2]) (PortalChat.newMessage p'))) /\
  (~ In m1 (AdminChat.messages a) ->
   User.id v <> User.id u ->
   ~ In m1 (getGroupMessages (AdminChat.messages a ++ [m2]) (Message.groupId m1))).
Proof.
  intros Hv Hpb Hpg Hu Hab Hag m1 m2.
  split; [ exact (handleSendMessage_run store p v visit Hv Hpb Hpg) | ].
  split; [ exact (handleSendChatMessage_run a u desk Hu Hab Hag) | ].
  split; [ | split ].
  - intros w. destruct w as [au ad po [st co al ti cl ra la]]. reflexivity.
  - intros w p'. destruct w as [au ad po [st co al ti cl ra la]]. reflexivity.
  - intros Hnew Hother Hin. unfold getGroupMessages in Hin.
    apply filter_In in Hin as [Hin _].
    apply in_app_or in Hin as [Hin | [Heq | []]]; [ exact (Hnew Hin) | ].
    apply Hother. apply (f_equal Message.senderId) in Heq. cbn in Heq. congruence.
Qed.

Lemma last_sender_overwrites_messages_witness :
  let m1 := typedMessage (User.assign bob User.no_password) "Hello" (Some "g1")
                         unansweredVisit in
  let m2 := typedMessage (User.assign (hd bob (initialUsers 1700000000000%Z))
                                      User.no_password)
                         "Welcome" (Some "g1") adminVisit in
  eval (handleSendMessage None bobTyping) unansweredVisit
    = Normal (PortalChat.mk [m1] "", Some (Json [m1])) /\
  ~ In m1 (getGroupMessages [m2] "g1").
Proof.
  cbv zeta.
  destruct (last_sender_overwrites_messages None bobTyping adminTyping
              (User.assign bob User.no_password)
              (User.assign (hd bob (initialUsers 1700000000000%Z)) User.no_password)
              unansweredVisit adminVisit) as (H1 & _ & _ & _ & H2).
  - reflexivity.
  - reflexivity.
  - reflexivity.
  - reflexivity.
  - reflexivity.
  - reflexivity.
  - split; [ exact H1 | ].
    apply H2; [ intros [] | cbn; discriminate ].
Defined.
